(** * py_XRF: acquisition sequencing and state coordination

    A shallow embedding of the acquisition worker, the two device
    controllers and the two orchestrators of py_XRF, and the properties
    of the specification stated over it.

    Conventions of the embedding.
    - A Qt signal emission is an [event] appended to the trace of the
      call that performs it; the calls into the vendor DLLs that change
      the outside world (a command sent to the source, a spectrum file
      written, a thread started, a timer armed) are events too.
    - What the outside world answers (hardware status, file system,
      thread liveness) is an argument of the call that asks for it.
    - A Python exception is a [Raise] result; [try_except] is the
      [try]/[except] statement.
    - [print] calls write to stdout only and are left out.
    - Durations are Python numbers; the embedding covers the integer
      ones ([Z]), which is all the code compares and formats. *)

From Stdlib Require Import ZArith QArith List String Ascii Bool Lia.
From Stdlib Require Import DecimalString.
Import ListNotations.
Local Open Scope string_scope.
Local Open Scope Z_scope.

Set Implicit Arguments.

(* ===================================================================== *)
(** * Part I: the embedding                                               *)
(* ===================================================================== *)

(** ** Python values the code relies on *)

(** Truth value of a string: empty is false. *)
Definition str_truthy (s : string) : bool :=
  match s with EmptyString => false | String _ _ => true end.

(** Truth value of an optional string ([None] or [""] are false). *)
Definition opt_str_truthy (o : option string) : bool :=
  match o with None => false | Some s => str_truthy s end.

(** [str(n)] for an integer. *)
Definition str_of_Z (z : Z) : string := NilZero.string_of_int (Z.to_int z).

Fixpoint zeros (n : nat) : string :=
  match n with O => "" | S k => "0" ++ zeros k end.

(** [f"{n:03d}"]: zero padding to width three, after the sign. *)
Definition fmt_03d (z : Z) : string :=
  if z <? 0
  then let d := str_of_Z (- z) in "-" ++ zeros (2 - String.length d) ++ d
  else let d := str_of_Z z in zeros (3 - String.length d) ++ d.

(** [f"{t:.1f}"] for an integer [t]. *)
Definition fmt_1f (z : Z) : string := str_of_Z z ++ ".0".

(** [os.path.basename]: what follows the last path separator. *)
Fixpoint basename_from (acc s : string) : string :=
  match s with
  | EmptyString => acc
  | String c r =>
      if (Ascii.eqb c "/" || Ascii.eqb c "\")%bool
      then basename_from r r
      else basename_from acc r
  end.
Definition basename (p : string) : string := basename_from p p.

(** [os.path.dirname]: what precedes the last path separator. *)
Fixpoint dirname_aux (s : string) : option string :=
  match s with
  | EmptyString => None
  | String c r =>
      match dirname_aux r with
      | Some d => Some (String c d)
      | None => if (Ascii.eqb c "/" || Ascii.eqb c "\")%bool
                then Some EmptyString else None
      end
  end.
Definition dirname (p : string) : string :=
  match dirname_aux p with Some d => d | None => "" end.

(** [s.encode('ascii')] succeeds on code points below 128. *)
Fixpoint is_ascii (s : string) : bool :=
  match s with
  | EmptyString => true
  | String c r => (N.ltb (N_of_ascii c) 128 && is_ascii r)%bool
  end.

(** [needle in haystack] on strings. *)
Fixpoint contains (needle hay : string) : bool :=
  (String.prefix needle hay ||
   match hay with
   | EmptyString => false
   | String _ r => contains needle r
   end)%bool.

(** What a Python function hands back when the code mixes
    [return True], [return False] and [return self._report_error(..)]
    (which is [None]). *)
Inductive pyval := PyNone | PyBool (b : bool).

Definition truthy (v : pyval) : bool :=
  match v with PyNone => false | PyBool b => b end.

(** ** Exceptions *)

Inductive exn_class :=
| AttributeError | RuntimeError | IOError | OverflowError
| UnicodeEncodeError | TypeError | ValueError
| ControllerNotRunningError | APICommandError | StatusError
| OtherException.

Record exn := mk_exn { exn_cls : exn_class; exn_msg : string }.

Definition is_class (c : exn_class) (e : exn) : bool :=
  match c, exn_cls e with
  | AttributeError, AttributeError | RuntimeError, RuntimeError
  | IOError, IOError | OverflowError, OverflowError
  | UnicodeEncodeError, UnicodeEncodeError | TypeError, TypeError
  | ValueError, ValueError
  | ControllerNotRunningError, ControllerNotRunningError
  | APICommandError, APICommandError | StatusError, StatusError
  | OtherException, OtherException => true
  | _, _ => false
  end.

(** [except Exception] catches every class above. *)
Definition any_exception (_ : exn) : bool := true.

(** What a call into the outside world answers: a value or an exception. *)
Inductive result (A : Type) := Ok (a : A) | Raise (e : exn).
Arguments Ok {A} a.
Arguments Raise {A} e.

(** ** Device data (api/dp5_api.py, api/minix_api.py) *)

Definition MAX_BUFFER_DATA : Z := 8192.
Definition MAX_DESCRIPTION_SIZE : Z := 128.
Definition MAX_TAG_SIZE : Z := 16.

(** [DP5_DP4_FORMAT_STATUS]: the raw block and the fields the
    controller copies into a spectrum file. *)
Record DP5_DP4_FORMAT_STATUS := mk_status {
  RAW : list Z;
  SerialNumber : Z;
  AccumulationTime : Q;
  RealTime : Q
}.

(** [Spec]: channel data and live channel count. *)
Record Spec := mk_spec { DATA : list Z; CHANNELS : Z }.

(** [SpecFile], the fields [save_last_spectrum] fills in. *)
Record SpecFile := mk_specfile {
  strTag : string;
  strDescription : string;
  sf_AccumulationTime : Q;
  sf_RealTime : Q;
  sf_SerialNumber : Z
}.

(** [MiniX_Monitor]. *)
Record MiniX_Monitor := mk_monitor {
  mxmHighVoltage_kV : Q;
  mxmCurrent_uA : Q;
  mxmPower_mW : Q;
  mxmTemperatureC : Q;
  mxmRefreshed : Z;
  mxmInterLock : Z;
  mxmEnabledCmds : Z;
  mxmStatusInd : Z;
  mxmOutOfRange : Z;
  mxmHVOn : Z
}.

(** ** Events: signal emissions and calls that act on the outside world *)

Inductive device_id := DP5 | MiniX.

Inductive event :=
(* BaseController *)
| connection_changed (d : device_id) (b : bool)
| error_occurred (d : device_id) (m : string)
| status_message (d : device_id) (m : string)
(* DP5Controller *)
| acquisition_state_changed (b : bool)
| status_updated (st : DP5_DP4_FORMAT_STATUS)
| spectrum_updated (sp : list Z)
(* MiniXController *)
| controller_running_changed (b : bool)
| monitor_data_updated (m : MiniX_Monitor)
| hv_state_changed (b : bool)
(* DP5AcquisitionWorker *)
| status_ready (st : DP5_DP4_FORMAT_STATUS)
| spectrum_ready (sp : list Z)
| message (m : string)
| finished
| error (m : string)
(* SingleAcquisitionManager *)
| acquisition_started
| acquisition_finished (ok : bool)
| acquisition_aborted (reason : string)
| single_status_update (m : string)
(* SequenceManager *)
| sequence_started
| sequence_step_starting (rep total : Z)
| sequence_step_finished (rep total : Z)
| sequence_pausing (ms : Z)
| sequence_finished (reps : Z)
| sequence_aborted (reason : string)
| status_update (m : string)
| request_safe_hv_on
(* the outside world *)
| SendMiniXCommand (value : Z)
| SaveMCADataToFile (path : string) (data : list Z) (channels : Z) (info : SpecFile)
| EnableMCA
| DisableMCA
| thread_start (tid : nat)
| worker_stop (wid : nat)
| singleShot (ms : Z).

Definition trace := list event.

(** ** The monad of the embedding: state, trace and exceptions *)

Definition M (S A : Type) : Type := S -> result A * S * trace.

Definition ret {S A} (a : A) : M S A := fun s => (Ok a, s, []).

Definition bind {S A B} (m : M S A) (f : A -> M S B) : M S B :=
  fun s =>
    match m s with
    | (Ok a, s1, t1) =>
        match f a s1 with (r, s2, t2) => (r, s2, (t1 ++ t2)%list) end
    | (Raise e, s1, t1) => (Raise e, s1, t1)
    end.

Definition raise {S A} (e : exn) : M S A := fun s => (Raise e, s, []).
Definition get {S} : M S S := fun s => (Ok s, s, []).
Definition put {S} (s' : S) : M S unit := fun _ => (Ok tt, s', []).
Definition modify {S} (f : S -> S) : M S unit := fun s => (Ok tt, f s, []).
Definition emit {S} (e : event) : M S unit := fun s => (Ok tt, s, [e]).

(** [try: m  except <sel> as e: h e]; an exception [sel] rejects goes on. *)
Definition try_except {S A} (m : M S A) (sel : exn -> bool) (h : exn -> M S A)
  : M S A :=
  fun s =>
    match m s with
    | (Ok a, s1, t1) => (Ok a, s1, t1)
    | (Raise e, s1, t1) =>
        if sel e
        then match h e s1 with (r, s2, t2) => (r, s2, (t1 ++ t2)%list) end
        else (Raise e, s1, t1)
    end.

(** The answer of an outside call, as a computation. *)
Definition call {S A} (r : result A) : M S A :=
  match r with Ok a => ret a | Raise e => raise e end.

(** Run a computation on a component of the state. *)
Definition zoom {S T A} (proj : S -> T) (upd : T -> S -> S) (m : M T A)
  : M S A :=
  fun s => match m (proj s) with (r, t', tr) => (r, upd t' s, tr) end.

Declare Scope monad_scope.
Delimit Scope monad_scope with monad.
Notation "x <- m ;; k" := (bind m (fun x => k))
  (at level 61, m at next level, right associativity) : monad_scope.
Notation "m ;; k" := (bind m (fun _ => k))
  (at level 61, right associativity) : monad_scope.
Local Open Scope monad_scope.

(** [if c: m] with no else branch. *)
Definition when {S} (c : bool) (m : M S unit) : M S unit :=
  if c then m else ret tt.

Definition result_of {S A} (x : result A * S * trace) : result A := fst (fst x).
Definition state_of {S A} (x : result A * S * trace) : S := snd (fst x).
Definition trace_of {S A} (x : result A * S * trace) : trace := snd x.

(** How often an event of a given kind occurs in a trace. *)
Definition count (p : event -> bool) (t : trace) : nat :=
  List.length (filter p t).

(* --------------------------------------------------------------------- *)
(** ** controllers/base_controller.py                                     *)
(* --------------------------------------------------------------------- *)

Module Base.

(** [Api] is what the controller knows of its API module; [_api] is
    [None] when the import failed. *)
Record state (Api : Type) := mk {
  _api : option Api;
  _is_connected : bool;
  _last_error : string
}.

Definition api_loaded {Api} (s : state Api) : bool :=
  match _api s with Some _ => true | None => false end.

Definition with_connected {Api} (b : bool) (s : state Api) : state Api :=
  mk (_api s) b (_last_error s).
Definition with_last_error {Api} (m : string) (s : state Api) : state Api :=
  mk (_api s) (_is_connected s) m.

Definition _set_connected {Api} (d : device_id) (connected_state : bool)
  : M (state Api) unit :=
  s <- get ;;
  if negb (Bool.eqb (_is_connected s) connected_state)
  then modify (with_connected connected_state) ;;
       emit (connection_changed d connected_state)
  else ret tt.

(** Returns [None] to its caller, like [_post_status_message]. *)
Definition _report_error {Api} (d : device_id) (m : string)
  : M (state Api) unit :=
  modify (with_last_error m) ;;
  emit (error_occurred d m).

Definition _post_status_message {Api} (d : device_id) (m : string)
  : M (state Api) unit :=
  emit (status_message d m).

End Base.

(* --------------------------------------------------------------------- *)
(** ** api/minix_api.py                                                   *)
(* --------------------------------------------------------------------- *)

Module MiniXApi.

(** [MiniXCommands], an [IntFlag]. *)
Inductive MiniXCommands :=
| mxcDisabled | mxcStartMiniX | mxcHVOn | mxcHVOff | mxcSetHVandCurrent
| mxcExit.

Definition value (c : MiniXCommands) : Z :=
  match c with
  | mxcDisabled => 0 | mxcStartMiniX => 1 | mxcHVOn => 2 | mxcHVOff => 4
  | mxcSetHVandCurrent => 8 | mxcExit => 16
  end.

Definition name (c : MiniXCommands) : string :=
  match c with
  | mxcDisabled => "mxcDisabled" | mxcStartMiniX => "mxcStartMiniX"
  | mxcHVOn => "mxcHVOn" | mxcHVOff => "mxcHVOff"
  | mxcSetHVandCurrent => "mxcSetHVandCurrent" | mxcExit => "mxcExit"
  end.

Definition is_exit (c : MiniXCommands) : bool :=
  match c with mxcExit => true | _ => false end.
Definition is_disabled (c : MiniXCommands) : bool :=
  match c with mxcDisabled => true | _ => false end.

(** [MiniXStatus], an [IntEnum] with the codes 0 to 13. *)
Inductive MiniXStatus :=
| mxstNoStatus | mxstDriversNotLoaded | mxstMiniXApplicationReady
| mxstPortCLOSED | mxstNoDevicesAttached | mxstMiniXControllerSelected
| mxstMiniXControllerReady | mxstMiniXControllerFailedToOpen
| mxstNoDeviceSelected | mxstRequestedVoltageOutOfRange
| mxstRequestedCurrentOutOfRange | mxstConnectingToMiniX
| mxstUpdatingSettings | mxstMiniXReady.

(** [MiniXStatus(code)]; [None] stands for the [ValueError] of an
    unknown code. *)
Definition MiniXStatus_of (z : Z) : option MiniXStatus :=
  match z with
  | 0 => Some mxstNoStatus | 1 => Some mxstDriversNotLoaded
  | 2 => Some mxstMiniXApplicationReady | 3 => Some mxstPortCLOSED
  | 4 => Some mxstNoDevicesAttached | 5 => Some mxstMiniXControllerSelected
  | 6 => Some mxstMiniXControllerReady
  | 7 => Some mxstMiniXControllerFailedToOpen
  | 8 => Some mxstNoDeviceSelected
  | 9 => Some mxstRequestedVoltageOutOfRange
  | 10 => Some mxstRequestedCurrentOutOfRange
  | 11 => Some mxstConnectingToMiniX | 12 => Some mxstUpdatingSettings
  | 13 => Some mxstMiniXReady
  | _ => None
  end.

Definition status_name (s : MiniXStatus) : string :=
  match s with
  | mxstNoStatus => "mxstNoStatus"
  | mxstDriversNotLoaded => "mxstDriversNotLoaded"
  | mxstMiniXApplicationReady => "mxstMiniXApplicationReady"
  | mxstPortCLOSED => "mxstPortCLOSED"
  | mxstNoDevicesAttached => "mxstNoDevicesAttached"
  | mxstMiniXControllerSelected => "mxstMiniXControllerSelected"
  | mxstMiniXControllerReady => "mxstMiniXControllerReady"
  | mxstMiniXControllerFailedToOpen => "mxstMiniXControllerFailedToOpen"
  | mxstNoDeviceSelected => "mxstNoDeviceSelected"
  | mxstRequestedVoltageOutOfRange => "mxstRequestedVoltageOutOfRange"
  | mxstRequestedCurrentOutOfRange => "mxstRequestedCurrentOutOfRange"
  | mxstConnectingToMiniX => "mxstConnectingToMiniX"
  | mxstUpdatingSettings => "mxstUpdatingSettings"
  | mxstMiniXReady => "mxstMiniXReady"
  end.

(** The statuses [get_monitor_data] turns into a [StatusError]. *)
Definition critical (s : MiniXStatus) : bool :=
  match s with
  | mxstDriversNotLoaded | mxstMiniXControllerFailedToOpen
  | mxstNoDeviceSelected | mxstNoDevicesAttached => true
  | _ => false
  end.

(** The statuses both controllers read as "hardware connected". *)
Definition ready (s : MiniXStatus) : bool :=
  match s with
  | mxstMiniXControllerReady | mxstMiniXReady => true
  | _ => false
  end.

(** What the DLL answers during one API call: [isMiniXDlg()] and the
    block [ReadMiniXMonitor] fills in. *)
Record device := mk_device {
  isMiniXDlg : Z;
  ReadMiniXMonitor : MiniX_Monitor
}.

Definition is_controller_running (dev : device) : bool :=
  negb (isMiniXDlg dev =? 0).

Definition get_monitor_data {S} (dev : device) (raise_on_unrefreshed : bool)
  : M S MiniX_Monitor :=
  if negb (is_controller_running dev)
  then raise (mk_exn ControllerNotRunningError
                "Cannot read monitor data, controller not running.")
  else
    let monitor_data := ReadMiniXMonitor dev in
    (if ((mxmRefreshed monitor_data =? 0) && raise_on_unrefreshed)%bool
     then raise (mk_exn APICommandError
       "Monitor data was not refreshed (controller busy or communication issue?).")
     else ret tt) ;;
    match MiniXStatus_of (mxmStatusInd monitor_data) with
    | None =>
        raise (mk_exn ValueError
                 (str_of_Z (mxmStatusInd monitor_data)
                  ++ " is not a valid MiniXStatus"))
    | Some status_enum =>
        if critical status_enum
        then raise (mk_exn StatusError
                      ("Device reported error status: "
                       ++ status_name status_enum))
        else ret monitor_data
    end.

(** The names of the commands a monitor block enables, joined. *)
Definition enabled_cmds (enabled : Z) : string :=
  let on := filter (fun c => negb (Z.land enabled (value c) =? 0))
              [mxcStartMiniX; mxcHVOn; mxcHVOff; mxcSetHVandCurrent; mxcExit] in
  match on with
  | [] => "None"
  | _ => String.concat ", " (map name on)
  end.

Definition send_command {S} (dev : device) (command : MiniXCommands)
  (check_enabled : bool) : M S unit :=
  if is_disabled command
  then raise (mk_exn ValueError "mxcDisabled command should not be sent.")
  else if negb (is_controller_running dev)
  then raise (mk_exn ControllerNotRunningError
                ("Cannot send command " ++ name command
                 ++ ", controller not running."))
  else
    (if (check_enabled && negb (is_exit command))%bool
     then
       monitor_data <- get_monitor_data dev false ;;
       if Z.land (mxmEnabledCmds monitor_data) (value command) =? 0
       then raise (mk_exn APICommandError
                     ("Command " ++ name command ++ " is not enabled. "
                      ++ "Current enabled commands: ["
                      ++ enabled_cmds (mxmEnabledCmds monitor_data) ++ "]"))
       else ret tt
     else ret tt) ;;
    emit (SendMiniXCommand (value command)).

End MiniXApi.

(* --------------------------------------------------------------------- *)
(** ** controllers/minix_controller.py                                    *)
(* --------------------------------------------------------------------- *)

Module MiniXController.
Import MiniXApi.

Record state := mk {
  base : Base.state unit;
  _is_controller_app_running : bool;
  _hv_on : bool;
  _monitor_data : option MiniX_Monitor;
  _monitor_timer_active : bool
}.

Definition is_connected (s : state) : bool := Base._is_connected (base s).
Definition hv_on (s : state) : bool := _hv_on s.

Definition with_base (b : Base.state unit) (s : state) : state :=
  mk b (_is_controller_app_running s) (_hv_on s) (_monitor_data s)
     (_monitor_timer_active s).
Definition with_running (r : bool) (s : state) : state :=
  mk (base s) r (_hv_on s) (_monitor_data s) (_monitor_timer_active s).
Definition with_hv_on (h : bool) (s : state) : state :=
  mk (base s) (_is_controller_app_running s) h (_monitor_data s)
     (_monitor_timer_active s).
Definition with_monitor_data (m : MiniX_Monitor) (s : state) : state :=
  mk (base s) (_is_controller_app_running s) (_hv_on s) (Some m)
     (_monitor_timer_active s).
Definition with_timer (a : bool) (s : state) : state :=
  mk (base s) (_is_controller_app_running s) (_hv_on s) (_monitor_data s) a.

Definition in_base {A} (m : M (Base.state unit) A) : M state A :=
  zoom base with_base m.

Definition _report_error (m : string) : M state unit :=
  in_base (Base._report_error MiniX m).
Definition _post_status_message (m : string) : M state unit :=
  in_base (Base._post_status_message MiniX m).
Definition _set_connected (b : bool) : M state unit :=
  in_base (Base._set_connected MiniX b).

(** The exception classes the control methods catch. *)
Definition api_errors (e : exn) : bool :=
  (is_class ControllerNotRunningError e || is_class APICommandError e
   || is_class StatusError e || is_class TypeError e
   || is_class ValueError e)%bool.

(** [hv_state] is any Python number; [bool(hv_state)] is stored. *)
Definition _set_hv_on (hv_state : Z) : M state unit :=
  let current_hv_state := negb (hv_state =? 0) in
  s <- get ;;
  if negb (Bool.eqb (_hv_on s) current_hv_state)
  then modify (with_hv_on current_hv_state) ;;
       emit (hv_state_changed current_hv_state)
  else ret tt.

Definition stop_monitoring : M state unit :=
  s <- get ;;
  when (_monitor_timer_active s) (modify (with_timer false)).

Definition _set_controller_running (running_state : bool) : M state unit :=
  s <- get ;;
  if negb (Bool.eqb (_is_controller_app_running s) running_state)
  then
    modify (with_running running_state) ;;
    emit (controller_running_changed running_state) ;;
    when (negb running_state)
      (_set_connected false ;; _set_hv_on 0 ;; stop_monitoring)
  else ret tt.

Definition set_hv_on (dev : device) : M state unit :=
  s <- get ;;
  if negb (Base.api_loaded (base s)) then _report_error "MiniX API not loaded."
  else if negb (is_connected s) then _report_error "MiniX not connected."
  else
    _post_status_message "Attempting to turn HV ON..." ;;
    try_except
      (send_command dev mxcHVOn true ;;
       _post_status_message "HV ON command sent.")
      api_errors
      (fun e => _report_error ("Failed to turn HV ON: " ++ exn_msg e)).

Definition set_hv_off (dev : device) : M state unit :=
  s <- get ;;
  if negb (Base.api_loaded (base s)) then _report_error "MiniX API not loaded."
  else if negb (_is_controller_app_running s)
  then _report_error "Controller not running."
  else
    _post_status_message "Attempting to turn HV OFF..." ;;
    try_except
      (send_command dev mxcHVOff true ;;
       _post_status_message "HV OFF command sent.")
      api_errors
      (fun e => _report_error ("Failed to turn HV OFF: " ++ exn_msg e)).

Definition _update_internal_state (monitor_data : MiniX_Monitor)
  : M state unit :=
  s <- get ;;
  if negb (Base.api_loaded (base s)) then ret tt
  else
    modify (with_monitor_data monitor_data) ;;
    match MiniXStatus_of (mxmStatusInd monitor_data) with
    | Some current_status_enum =>
        _set_connected (ready current_status_enum) ;;
        _set_hv_on (mxmHVOn monitor_data)
    | None =>
        _report_error "Received invalid monitor data." ;;
        _set_connected false ;;
        _set_hv_on 0
    end.

Definition _poll_status (dev : device) : M state unit :=
  s <- get ;;
  if (negb (Base.api_loaded (base s)) || negb (_is_controller_app_running s))%bool
  then when (_monitor_timer_active s)
         (stop_monitoring ;; _set_controller_running false)
  else
    try_except
      (monitor_data <- get_monitor_data dev false ;;
       _update_internal_state monitor_data ;;
       emit (monitor_data_updated monitor_data))
      any_exception
      (fun e =>
         if is_class ControllerNotRunningError e
         then _report_error "Controller application stopped responding." ;;
              _set_controller_running false
         else if is_class StatusError e
         then _report_error ("Device Error: " ++ exn_msg e) ;;
              _set_connected false ;;
              _set_hv_on 0
         else _report_error ("Error during status polling: " ++ exn_msg e)).

End MiniXController.

(* --------------------------------------------------------------------- *)
(** ** api/dp5_api.py: what the module offers                             *)
(* --------------------------------------------------------------------- *)

Module DP5Api.

(** The attributes the code tests with [hasattr(..) and .. is not None]
    before it calls them. *)
Record caps := mk_caps {
  has_SendConfigFileToDpp : bool;
  has_send_ascii_command : bool;
  has_EnableMCA : bool;
  has_DisableMCA : bool;
  has_GetDppStatus : bool;
  has_DppStatusToStruct : bool;
  has_RequestSpectrumData : bool;
  has_SaveMCADataToFile : bool
}.

(** [(RAW[35] >> 5) & 1], the MCA-enabled flag of a status block. *)
Definition mca_enabled_flag (st : DP5_DP4_FORMAT_STATUS) : Z :=
  Z.land (Z.shiftr (nth 35 (RAW st) 0) 5) 1.

(** [s.encode('ascii')]. *)
Definition encode_ascii {S} (s : string) : M S string :=
  if is_ascii s then ret s
  else raise (mk_exn UnicodeEncodeError
                "'ascii' codec can't encode character").

End DP5Api.

(* --------------------------------------------------------------------- *)
(** ** workers/dp5_worker.py                                              *)
(* --------------------------------------------------------------------- *)

Module DP5AcquisitionWorker.
Import DP5Api.

Record state := mk {
  _running : bool;
  _config_file_path : option string;
  _preset_time : option Z;
  _spectrum_buffer : option Spec;
  _status_buffer : option DP5_DP4_FORMAT_STATUS
}.

Definition with_running (r : bool) (w : state) : state :=
  mk r (_config_file_path w) (_preset_time w) (_spectrum_buffer w)
     (_status_buffer w).
Definition with_spectrum_buffer (b : Spec) (w : state) : state :=
  mk (_running w) (_config_file_path w) (_preset_time w) (Some b)
     (_status_buffer w).
Definition with_status_buffer (b : DP5_DP4_FORMAT_STATUS) (w : state)
  : state :=
  mk (_running w) (_config_file_path w) (_preset_time w)
     (_spectrum_buffer w) (Some b).

(** [__init__]: [alloc] is what [dp5_api.Spec()] and
    [dp5_api.DP5_DP4_FORMAT_STATUS()] answer. *)
Definition init (api : option caps)
  (alloc : result (Spec * DP5_DP4_FORMAT_STATUS))
  (config_file_path : option string) (preset_time : option Z)
  : state * trace :=
  let blank := mk false config_file_path preset_time None None in
  match api with
  | None => (blank, [])
  | Some _ =>
      match alloc with
      | Ok (sp, st) =>
          (mk false config_file_path preset_time (Some sp) (Some st), [])
      | Raise e =>
          if is_class AttributeError e
          then (blank, [error "DP5 API Structs missing."])
          else (blank, [error ("Error allocating DP5 buffers: " ++ exn_msg e)])
      end
  end.

(** What the outside world answers during the set-up steps of [run]. *)
Record setup_env := mk_setup {
  path_exists : result bool;          (* os.path.exists(config path) *)
  SendConfigFileToDpp : result Z;
  send_ascii_command : result bool;
  EnableMCA_call : result unit
}.

(** What happens around one pass of the poll loop: whether the
    controller's [stop()] landed before the loop test, and what the
    device answers to the status and spectrum requests. *)
Record poll_env := mk_poll {
  stop_called : bool;
  GetDppStatus : result DP5_DP4_FORMAT_STATUS;
  RequestSpectrumData : result (Spec * DP5_DP4_FORMAT_STATUS)
}.

(** What the device answers during clean-up. *)
Record cleanup_env := mk_cleanup {
  final_GetDppStatus : result DP5_DP4_FORMAT_STATUS;
  DisableMCA_call : result unit
}.

Definition stop : M state unit :=
  w <- get ;;
  when (_running w) (emit (message "Stop requested.")) ;;
  modify (with_running false).

(** Step 1 of [run]; the answer is [config_ok]. *)
Definition send_config (api : caps) (se : setup_env) : M state bool :=
  w <- get ;;
  if opt_str_truthy (_config_file_path w)
  then
    let path := match _config_file_path w with Some p => p | None => "" end in
    emit (message ("Sending config: " ++ basename path)) ;;
    found <- call (path_exists se) ;;
    if negb found
    then emit (error ("Config file not found: " ++ path)) ;; ret false
    else if negb (has_SendConfigFileToDpp api)
    then emit (error "SendConfigFileToDpp function not available in API.") ;;
         ret false
    else
      try_except
        (encode_ascii path ;;
         r <- call (SendConfigFileToDpp se) ;;
         if r =? 1
         then emit (message "Config sent.") ;; ret true
         else emit (error "Failed send config (API Error).") ;; ret false)
        any_exception
        (fun e => emit (error ("Error sending config: " ++ exn_msg e)) ;;
                  ret false)
  else emit (message "No config file specified.") ;; ret true.

Definition pret_command (preset_time : option Z) : string :=
  match preset_time with
  | Some t => if 0 <? t then "PRET=" ++ fmt_1f t ++ ";" else "PRET=OFF;"
  | None => "PRET=OFF;"
  end.

(** Step 2 of [run]; the answer is [config_ok]. *)
Definition send_pret (api : caps) (se : setup_env) : M state bool :=
  if negb (has_send_ascii_command api)
  then emit (error "send_ascii_command helper not available in API module.") ;;
       ret false
  else
    w <- get ;;
    let cmd := pret_command (_preset_time w) in
    try_except
      (emit (message ("Sending Preset Command: " ++ cmd)) ;;
       send_success <- call (send_ascii_command se) ;;
       if negb send_success
       then emit (error ("Failed send command: " ++ cmd)) ;;
            ret (contains "PRET=OFF" cmd)
       else emit (message "Preset command sent.") ;; ret true)
      any_exception
      (fun e => emit (error ("Exception sending PRET command: " ++ exn_msg e)) ;;
                ret false).

(** Step 3 of [run]; the answer is [acq_started]. *)
Definition enable_mca (api : caps) (se : setup_env) (config_ok : bool)
  : M state bool :=
  if config_ok
  then
    if negb (has_EnableMCA api)
    then emit (error "EnableMCA function not available in API.") ;; ret false
    else
      try_except
        (emit (message "Enabling MCA...") ;;
         call (EnableMCA_call se) ;;
         emit EnableMCA ;;
         emit (message "Acquisition Running...") ;;
         ret true)
        any_exception
        (fun e => emit (error ("Error enabling MCA: " ++ exn_msg e)) ;;
                  ret false)
  else emit (message "Skipping MCA enable due to previous setup failure.") ;;
       ret false.

Definition status_funcs_ok (api : caps) : bool :=
  (has_GetDppStatus api && has_DppStatusToStruct api)%bool.
Definition spectrum_func_ok (api : caps) : bool :=
  has_RequestSpectrumData api.

(** Steps 1 to 4 of [run]; the answer is [acq_started] at the loop. *)
Definition setup (api : caps) (se : setup_env) : M state bool :=
  config_ok <- send_config api se ;;
  config_ok <- (if config_ok then send_pret api se else ret false) ;;
  acq_started <- enable_mca api se config_ok ;;
  if (negb (status_funcs_ok api) || negb (spectrum_func_ok api))%bool
  then emit (error "Required API functions for acquisition loop missing.") ;;
       ret false
  else ret acq_started.

(** [RequestSpectrumData] into the worker's buffers, then the copy of
    the live channels is published when their count is in range. *)
Definition fetch_and_publish (p : poll_env) : M state unit :=
  r <- call (RequestSpectrumData p) ;;
  modify (with_spectrum_buffer (fst r)) ;;
  modify (with_status_buffer (snd r)) ;;
  let num_channels := CHANNELS (fst r) in
  when ((0 <? num_channels) && (num_channels <=? MAX_BUFFER_DATA))%bool
    (emit (spectrum_ready (firstn (Z.to_nat num_channels) (DATA (fst r))))).

(** The body of the poll loop; the answer tells whether it left the
    loop through [break]. *)
Definition iteration (p : poll_env) : M state bool :=
  try_except
    (st <- call (GetDppStatus p) ;;
     modify (with_status_buffer st) ;;
     emit (status_ready st) ;;
     if mca_enabled_flag st =? 0
     then
       emit (message "MCA Disabled flag detected. Acquisition finished.") ;;
       modify (with_running false) ;;
       try_except (fetch_and_publish p) any_exception
         (fun e => emit (error ("Error getting final spectrum: " ++ exn_msg e))) ;;
       ret false
     else
       fetch_and_publish p ;;
       ret false)
    any_exception
    (fun e =>
       if is_class AttributeError e
       then emit (error ("API attribute error during loop: " ++ exn_msg e)) ;;
            modify (with_running false) ;;
            ret true
       else emit (error ("Error during acquisition loop: " ++ exn_msg e)) ;;
            ret false).

(** [while self._running and acq_started], over the passes the outside
    world provides. The answer is [true] when the loop has exited and
    [false] when the passes ran out with the loop still polling. *)
Fixpoint poll_loop (acq_started : bool) (polls : list poll_env)
  : M state bool :=
  match polls with
  | [] => w <- get ;; ret (negb (_running w && acq_started))
  | p :: rest =>
      when (stop_called p) stop ;;
      w <- get ;;
      if (_running w && acq_started)%bool
      then broke <- iteration p ;;
           if broke then ret true else poll_loop acq_started rest
      else ret true
  end.

(** The [finally] block. *)
Definition cleanup (api : caps) (acq_started : bool) (ce : cleanup_env)
  : M state unit :=
  when (acq_started && has_DisableMCA api)%bool
    (try_except
       (current_mca_enabled <-
          try_except
            (if status_funcs_ok api
             then final_status <- call (final_GetDppStatus ce) ;;
                  ret (mca_enabled_flag final_status)
             else ret 1)
            any_exception (fun _ => ret 1) ;;
        when (negb (current_mca_enabled =? 0))
          (emit (message "Disabling MCA...") ;;
           call (DisableMCA_call ce) ;;
           emit DisableMCA ;;
           emit (message "MCA Disabled.")))
       any_exception
       (fun e => emit (error ("Error disabling MCA on exit: " ++ exn_msg e)))) ;;
  emit finished ;;
  modify (with_running false).

(** [run]. [api] is the module-level [dp5_api] ([None] when the import
    failed). The answer is [true] when [run] has returned and [false]
    when the poll passes ran out before the loop exited. *)
Definition run (api : option caps) (se : setup_env) (polls : list poll_env)
  (ce : cleanup_env) : M state bool :=
  match api with
  | None =>
      emit (error "DP5 API not loaded. Cannot start worker.") ;;
      emit finished ;;
      ret true
  | Some api =>
      w <- get ;;
      match _spectrum_buffer w, _status_buffer w with
      | Some _, Some _ =>
          modify (with_running true) ;;
          r <- try_except
                 (acq_started <- setup api se ;;
                  exited <- poll_loop acq_started polls ;;
                  ret (acq_started, exited))
                 any_exception
                 (fun e =>
                    emit (error ("DP5 Acquisition setup error: " ++ exn_msg e)) ;;
                    ret (false, true)) ;;
          if snd r
          then cleanup api (fst r) ce ;; ret true
          else ret false
      | _, _ =>
          emit (error "DP5 API buffers not allocated. Cannot start worker.") ;;
          emit finished ;;
          ret true
      end
  end.

End DP5AcquisitionWorker.

(* --------------------------------------------------------------------- *)
(** ** controllers/dp5_controller.py                                      *)
(* --------------------------------------------------------------------- *)

Module DP5Controller.
Import DP5Api.

(** The controller, with the Qt thread objects it has created:
    [live_threads] are those whose [isRunning()] is true, [next_id]
    numbers the next worker/thread pair. *)
Record state := mk {
  base : Base.state caps;
  _is_acquiring : bool;
  _last_config_file : option string;
  _worker : option nat;
  _thread : option nat;
  _last_spectrum_data : option (list Z);
  _last_status_data : option DP5_DP4_FORMAT_STATUS;
  live_threads : list nat;
  next_id : nat
}.

Definition is_connected (s : state) : bool := Base._is_connected (base s).
Definition is_acquiring (s : state) : bool := _is_acquiring s.

Definition with_base (b : Base.state caps) (s : state) : state :=
  mk b (_is_acquiring s) (_last_config_file s) (_worker s) (_thread s)
     (_last_spectrum_data s) (_last_status_data s) (live_threads s)
     (next_id s).
Definition with_acquiring (a : bool) (s : state) : state :=
  mk (base s) a (_last_config_file s) (_worker s) (_thread s)
     (_last_spectrum_data s) (_last_status_data s) (live_threads s)
     (next_id s).
Definition with_refs (w t : option nat) (s : state) : state :=
  mk (base s) (_is_acquiring s) (_last_config_file s) w t
     (_last_spectrum_data s) (_last_status_data s) (live_threads s)
     (next_id s).
Definition with_spectrum (d : option (list Z)) (s : state) : state :=
  mk (base s) (_is_acquiring s) (_last_config_file s) (_worker s)
     (_thread s) d (_last_status_data s) (live_threads s) (next_id s).
Definition with_status (d : option DP5_DP4_FORMAT_STATUS) (s : state)
  : state :=
  mk (base s) (_is_acquiring s) (_last_config_file s) (_worker s)
     (_thread s) (_last_spectrum_data s) d (live_threads s) (next_id s).
Definition with_threads (l : list nat) (n : nat) (s : state) : state :=
  mk (base s) (_is_acquiring s) (_last_config_file s) (_worker s)
     (_thread s) (_last_spectrum_data s) (_last_status_data s) l n.

Definition in_base {A} (m : M (Base.state caps) A) : M state A :=
  zoom base with_base m.

Definition _report_error (m : string) : M state unit :=
  in_base (Base._report_error DP5 m).
Definition _post_status_message (m : string) : M state unit :=
  in_base (Base._post_status_message DP5 m).
Definition _set_connected (b : bool) : M state unit :=
  in_base (Base._set_connected DP5 b).

Definition _set_acquiring (acquiring_state : bool) : M state unit :=
  s <- get ;;
  if negb (Bool.eqb (_is_acquiring s) acquiring_state)
  then modify (with_acquiring acquiring_state) ;;
       emit (acquisition_state_changed acquiring_state)
  else ret tt.

Definition _handle_worker_status (status_struct : DP5_DP4_FORMAT_STATUS)
  : M state unit :=
  modify (with_status (Some status_struct)) ;;
  emit (status_updated status_struct).

Definition _handle_worker_spectrum (spectrum_array : list Z) : M state unit :=
  modify (with_spectrum (Some spectrum_array)) ;;
  emit (spectrum_updated spectrum_array).

Definition _handle_worker_message (m : string) : M state unit :=
  _post_status_message ("DP5 Worker: " ++ m).

Definition _handle_worker_error (m : string) : M state unit :=
  _report_error ("DP5 Worker Error: " ++ m) ;;
  _set_acquiring false.

Definition _handle_worker_finished : M state unit :=
  _set_acquiring false.

Definition _clear_thread_worker_refs : M state unit :=
  modify (with_refs None None).

Definition isRunning (s : state) (t : nat) : bool :=
  existsb (Nat.eqb t) (live_threads s).

Definition stop_acquisition : M state unit :=
  s <- get ;;
  if negb (_is_acquiring s) then ret tt
  else
    _post_status_message "Requesting DP5 acquisition stop..." ;;
    match _worker s with
    | Some w => emit (worker_stop w)
    | None => _handle_worker_finished
    end.

(** What the outside world answers during [start_acquisition]: whether
    the worker class was imported, whether the previous thread ends
    within [wait(1000)], and whether creating and starting the new
    thread and worker raises. *)
Record start_env := mk_start {
  worker_class_loaded : bool;
  wait_1000 : bool;
  spawn : result unit
}.

(** The part of [start_acquisition] that deals with a previous
    worker/thread pair; [false] means the call gave up. *)
Definition retire_previous (env : start_env) : M state bool :=
  s <- get ;;
  match _thread s with
  | Some t =>
      if isRunning s t
      then
        stop_acquisition ;;
        if negb (wait_1000 env)
        then _clear_thread_worker_refs ;;
             _report_error "Could not stop previous thread." ;;
             ret false
        else
          modify (fun s => with_threads
                    (filter (fun x => negb (Nat.eqb t x)) (live_threads s))
                    (next_id s) s) ;;
          ret true
      else _clear_thread_worker_refs ;; ret true
  | None =>
      match _worker s with
      | Some _ => _clear_thread_worker_refs ;; ret true
      | None => ret true
      end
  end.

Definition start_acquisition (env : start_env) (preset_time : option Z)
  : M state unit :=
  s <- get ;;
  if negb (Base.api_loaded (base s)) then _report_error "DP5 API not loaded."
  else if negb (worker_class_loaded env)
  then _report_error "DP5 Worker class not found."
  else if negb (is_connected s) then _report_error "Connect DP5 first."
  else if _is_acquiring s then _post_status_message "DP5 acq already running."
  else
    go <- retire_previous env ;;
    if negb go then ret tt
    else
      _post_status_message "Starting DP5 acquisition..." ;;
      match preset_time with
      | Some t =>
          when (0 <? t)
            (_post_status_message ("Preset Time: " ++ fmt_1f t ++ " s"))
      | None => ret tt
      end ;;
      _set_acquiring true ;;
      try_except
        (call (spawn env) ;;
         s <- get ;;
         let id := next_id s in
         modify (with_refs (Some id) (Some id)) ;;
         modify (with_threads (id :: live_threads s) (S id)) ;;
         emit (thread_start id))
        any_exception
        (fun e =>
           _report_error ("Failed start DP5 acq thread: " ++ exn_msg e) ;;
           _set_acquiring false ;;
           _clear_thread_worker_refs).

(** The thread's [finished] signal: the thread has ended and the slot
    [_clear_thread_worker_refs] runs. *)
Definition thread_finished (t : nat) : M state unit :=
  modify (fun s => with_threads
            (filter (fun x => negb (Nat.eqb t x)) (live_threads s))
            (next_id s) s) ;;
  _clear_thread_worker_refs.

(** [astype(np.int32)] on one channel. *)
Definition wrap_int32 (z : Z) : Z := (z + 2 ^ 31) mod 2 ^ 32 - 2 ^ 31.

(** What the outside world answers during [save_last_spectrum]: the
    construction of the ctypes records and the DLL call. *)
Record save_env := mk_save {
  Spec_new : result unit;
  SaveMCADataToFile_call : result unit
}.

Definition zero_Q : Q := 0%Q.

(** [self._api] is loaded and offers [SaveMCADataToFile]. *)
Definition saving_available (s : state) : bool :=
  match Base._api (base s) with
  | Some api => has_SaveMCADataToFile api
  | None => false
  end.

Definition save_last_spectrum (env : save_env)
  (filepath description tag : string) : M state pyval :=
  s <- get ;;
  if negb (saving_available s)
  then _report_error
         "Spectrum saving function (SaveMCADataToFile) not available in API." ;;
       ret PyNone
  else
    match _last_spectrum_data s with
    | None =>
        _report_error "No spectrum data acquired or cached yet to save." ;;
        ret PyNone
    | Some data =>
        _post_status_message
          ("Saving spectrum to " ++ basename filepath ++ "...") ;;
        try_except
          (call (Spec_new env) ;;
           let num_channels := Z.of_nat (List.length data) in
           if MAX_BUFFER_DATA <? num_channels
           then
             _report_error
               ("Spectrum data length (" ++ str_of_Z num_channels
                ++ ") exceeds max buffer size ("
                ++ str_of_Z MAX_BUFFER_DATA ++ ").") ;;
             ret PyNone
           else
             let data_to_copy := map wrap_int32 data in
             tag_bytes <- encode_ascii tag ;;
             desc_bytes <- encode_ascii description ;;
             let info :=
               match _last_status_data s with
               | Some st =>
                   mk_specfile
                     (substring 0 (Z.to_nat (MAX_TAG_SIZE - 1)) tag_bytes)
                     (substring 0 (Z.to_nat (MAX_DESCRIPTION_SIZE - 1))
                        desc_bytes)
                     (AccumulationTime st) (RealTime st) (SerialNumber st)
               | None =>
                   mk_specfile
                     (substring 0 (Z.to_nat (MAX_TAG_SIZE - 1)) tag_bytes)
                     (substring 0 (Z.to_nat (MAX_DESCRIPTION_SIZE - 1))
                        desc_bytes)
                     zero_Q zero_Q 0
               end in
             filepath_bytes <- encode_ascii filepath ;;
             call (SaveMCADataToFile_call env) ;;
             emit (SaveMCADataToFile filepath_bytes data_to_copy
                     num_channels info) ;;
             _post_status_message ("Spectrum saved: " ++ basename filepath) ;;
             ret (PyBool true))
          any_exception
          (fun e =>
             if is_class OverflowError e
             then _report_error
                    ("Error populating file info (string too long?): "
                     ++ exn_msg e) ;;
                  ret (PyBool false)
             else _report_error
                    ("Error saving spectrum file '" ++ filepath ++ "': "
                     ++ exn_msg e) ;;
                  ret (PyBool false))
    end.

End DP5Controller.

(* --------------------------------------------------------------------- *)
(** ** Signal delivery between a controller and an orchestrator           *)
(* --------------------------------------------------------------------- *)

(** Both orchestrators connect a slot to the spectrometer controller's
    [acquisition_state_changed]; controller and orchestrators live in
    the same thread, so the slot runs inside the emitting call.

    [deliver slot tr] replays the trace of a controller call and runs
    the slot after every [acquisition_state_changed] in it. In the
    controller methods the orchestrators call, what follows such an
    emission ([_clear_thread_worker_refs] at most) neither reads nor
    writes what the slots touch, so running the slot on the state the
    call ends in gives the same state and the same trace. An exception
    that escapes a slot does not reach the emitter. *)
Fixpoint deliver {S} (slot : bool -> M S unit) (tr : trace) (s : S)
  : S * trace :=
  match tr with
  | [] => (s, [])
  | e :: rest =>
      let '(s1, t1) :=
        match e with
        | acquisition_state_changed b =>
            (state_of (slot b s), trace_of (slot b s))
        | _ => (s, [])
        end in
      let '(s2, t2) := deliver slot rest s1 in
      (s2, (e :: t1 ++ t2)%list)
  end.

(** A call [m] on a component object stored in the state, with the
    slot connected to its signal. A missing object ([None]) is the
    [AttributeError] of calling a method on [None]. *)
Definition method_call {S C A} (proj : S -> option C) (upd : C -> S -> S)
  (slot : bool -> M S unit) (m : M C A) : M S A :=
  fun s =>
    match proj s with
    | None =>
        (Raise (mk_exn AttributeError
                  "'NoneType' object has no attribute"), s, [])
    | Some c =>
        let '(r, c', tr) := m c in
        let '(s', tr') := deliver slot tr (upd c' s) in
        (r, s', tr')
    end.

Definition no_slot {S} (_ : bool) : M S unit := ret tt.

(* --------------------------------------------------------------------- *)
(** ** logic/single_acquistion_manager.py                                 *)
(* --------------------------------------------------------------------- *)

Module SingleAcquisitionManager.

Record state := mk {
  dp5_ctrl : option DP5Controller.state;
  _running : bool;
  _error_reason : string;
  _duration : Z;
  _save_filepath : string;
  _spectrum_saved_successfully : bool
}.

Definition is_running (s : state) : bool := _running s.

Definition with_dp5 (c : DP5Controller.state) (s : state) : state :=
  mk (Some c) (_running s) (_error_reason s) (_duration s)
     (_save_filepath s) (_spectrum_saved_successfully s).
Definition with_running (r : bool) (s : state) : state :=
  mk (dp5_ctrl s) r (_error_reason s) (_duration s) (_save_filepath s)
     (_spectrum_saved_successfully s).
Definition with_error_reason (e : string) (s : state) : state :=
  mk (dp5_ctrl s) (_running s) e (_duration s) (_save_filepath s)
     (_spectrum_saved_successfully s).
Definition with_saved (b : bool) (s : state) : state :=
  mk (dp5_ctrl s) (_running s) (_error_reason s) (_duration s)
     (_save_filepath s) b.
Definition with_job (d : Z) (p : string) (s : state) : state :=
  mk (dp5_ctrl s) (_running s) (_error_reason s) d p
     (_spectrum_saved_successfully s).

(** [__init__]. *)
Definition init (dp5_controller : option DP5Controller.state) : state :=
  mk dp5_controller false
     (match dp5_controller with
      | Some _ => ""
      | None => "DP5 controller not provided."
      end)
     0 "" false.

Definition dp5_present (s : state) : bool :=
  match dp5_ctrl s with Some _ => true | None => false end.
Definition dp5_connected (s : state) : bool :=
  match dp5_ctrl s with
  | Some c => DP5Controller.is_connected c
  | None => false
  end.
Definition dp5_acquiring (s : state) : bool :=
  match dp5_ctrl s with
  | Some c => DP5Controller.is_acquiring c
  | None => false
  end.

Definition _finalize : M state unit :=
  s <- get ;;
  if negb (_running s) then ret tt
  else
    let was_running := _running s in
    modify (with_running false) ;;
    (if str_truthy (_error_reason s)
     then
       when was_running
         (emit (acquisition_aborted (_error_reason s)) ;;
          emit (single_status_update
                  ("Acquisition FAILED: " ++ _error_reason s))) ;;
       emit (acquisition_finished false)
     else if (was_running && _spectrum_saved_successfully s)%bool
     then
       emit (single_status_update
               "Acquisition and save completed successfully.") ;;
       emit (acquisition_finished true)
     else if (was_running && negb (_spectrum_saved_successfully s))%bool
     then
       emit (single_status_update
               ("Acquisition completed, but save FAILED: "
                ++ (if str_truthy (_error_reason s) then _error_reason s
                    else "Unknown save error"))) ;;
       emit (acquisition_aborted
               (if str_truthy (_error_reason s) then _error_reason s
                else "Spectrum save failed.")) ;;
       emit (acquisition_finished false)
     else ret tt) ;;
    modify (with_error_reason "") ;;
    modify (with_saved false).

(** What the outside world answers while the spectrum is saved. *)
Record save_env := mk_save {
  strftime : string;                       (* time.strftime(..) *)
  dp5_save : DP5Controller.save_env
}.

Definition save_failed (reason prefix : string) : M state bool :=
  modify (with_error_reason reason) ;;
  emit (single_status_update (prefix ++ reason)) ;;
  ret false.

Definition _save_spectrum (env : save_env) : M state bool :=
  s <- get ;;
  if negb (str_truthy (_save_filepath s))
  then save_failed "Save filepath not set before trying to save."
         "Save Error: "
  else if negb (dp5_present s)
  then save_failed "DP5 Controller missing for saving." "Save Error: "
  else
    emit (single_status_update
            ("Saving spectrum to " ++ basename (_save_filepath s) ++ "...")) ;;
    try_except
      (let description :=
         "Single acquisition, " ++ str_of_Z (_duration s) ++ "s, "
         ++ strftime env in
       save_success <-
         method_call dp5_ctrl with_dp5 no_slot
           (DP5Controller.save_last_spectrum (dp5_save env)
              (_save_filepath s) description "SGLPYXRF") ;;
       if truthy save_success
       then emit (single_status_update
                    ("Spectrum saved: " ++ basename (_save_filepath s))) ;;
            ret true
       else save_failed "DP5 controller reported failure saving spectrum."
              "Save Failed: ")
      any_exception
      (fun e =>
         save_failed ("Exception during spectrum save: " ++ exn_msg e)
           "Save Error: ").

(** The slot connected to [dp5_ctrl.acquisition_state_changed]. *)
Definition _handle_dp5_acq_state_change (env : save_env) (acquiring : bool)
  : M state unit :=
  s <- get ;;
  if (_running s && negb (str_truthy (_error_reason s)) && negb acquiring)%bool
  then
    emit (single_status_update
            "DP5 acquisition finished. Attempting to save spectrum...") ;;
    save_success <- _save_spectrum env ;;
    modify (with_saved save_success) ;;
    _finalize
  else ret tt.

Definition _abort_acquisition (env : save_env) (reason : string)
  : M state unit :=
  s <- get ;;
  if negb (_running s) then ret tt
  else
    modify (with_error_reason reason) ;;
    emit (single_status_update ("Acquisition ABORTED: " ++ reason)) ;;
    emit (acquisition_aborted reason) ;;
    if (dp5_present s && dp5_acquiring s)%bool
    then
      method_call dp5_ctrl with_dp5 (_handle_dp5_acq_state_change env)
        DP5Controller.stop_acquisition ;;
      s' <- get ;;
      when (negb (dp5_acquiring s')) _finalize
    else _finalize.

Definition stop_acquisition (env : save_env) (reason : string)
  : M state unit :=
  s <- get ;;
  when (_running s) (_abort_acquisition env reason).

(** What the outside world answers during
    [start_acquisition_and_save]. *)
Record start_env := mk_start {
  isdir : bool;                            (* os.path.isdir(save_dir) *)
  dp5_start : DP5Controller.start_env;
  on_signal : save_env                     (* for a slot run on the way *)
}.

Definition validate (duration : Z) (save_filepath : string) (env : start_env)
  (s : state) : option string :=
  if negb (dp5_present s) then Some "DP5 controller is missing."
  else if negb (dp5_connected s) then Some "DP5 not connected."
  else if dp5_acquiring s then Some "DP5 is already acquiring."
  else if duration <=? 0
  then Some ("Invalid duration value: " ++ str_of_Z duration)
  else if negb (str_truthy save_filepath)
  then Some "Invalid save filepath (empty)."
  else if negb (isdir env)
  then Some ("Save directory does not exist: " ++ dirname save_filepath)
  else None.

Definition start_acquisition_and_save (env : start_env) (duration : Z)
  (save_filepath : string) : M state bool :=
  s <- get ;;
  if _running s
  then emit (single_status_update "Acquisition already in progress.") ;;
       ret false
  else
    match validate duration save_filepath env s with
    | Some err =>
        emit (single_status_update ("Acquisition Error: " ++ err)) ;;
        ret false
    | None =>
        modify (with_running true) ;;
        modify (with_error_reason "") ;;
        modify (with_saved false) ;;
        modify (with_job duration save_filepath) ;;
        emit (single_status_update
                ("Starting acquisition (" ++ str_of_Z duration ++ "s)...")) ;;
        emit acquisition_started ;;
        try_except
          (method_call dp5_ctrl with_dp5
             (_handle_dp5_acq_state_change (on_signal env))
             (DP5Controller.start_acquisition (dp5_start env)
                (Some duration)) ;;
           ret true)
          any_exception
          (fun e =>
             _abort_acquisition (on_signal env)
               ("Error starting DP5 acquisition: " ++ exn_msg e) ;;
             ret false)
    end.

(** A signal of the worker reaching the controller, with the
    orchestrator's slot connected. *)
Definition worker_signal (env : save_env) (e : event) : M state unit :=
  let slot := _handle_dp5_acq_state_change env in
  match e with
  | status_ready st =>
      method_call dp5_ctrl with_dp5 slot
        (DP5Controller._handle_worker_status st)
  | spectrum_ready sp =>
      method_call dp5_ctrl with_dp5 slot
        (DP5Controller._handle_worker_spectrum sp)
  | message m =>
      method_call dp5_ctrl with_dp5 slot
        (DP5Controller._handle_worker_message m)
  | error m =>
      method_call dp5_ctrl with_dp5 slot
        (DP5Controller._handle_worker_error m)
  | finished =>
      method_call dp5_ctrl with_dp5 slot
        DP5Controller._handle_worker_finished
  | _ => ret tt
  end.

End SingleAcquisitionManager.

(* --------------------------------------------------------------------- *)
(** ** logic/sequence_manager.py                                          *)
(* --------------------------------------------------------------------- *)

Module SequenceManager.

Record state := mk {
  minix_ctrl : option MiniXController.state;
  dp5_ctrl : option DP5Controller.state;
  _running : bool;
  _error_reason : string;
  _current_rep : Z;
  _total_reps : Z;
  _duration : Z;
  _minix_continuous : bool;
  _save_folder : string;
  _pause_ms : Z
}.

Definition is_running (s : state) : bool := _running s.

Definition with_minix (c : MiniXController.state) (s : state) : state :=
  mk (Some c) (dp5_ctrl s) (_running s) (_error_reason s) (_current_rep s)
     (_total_reps s) (_duration s) (_minix_continuous s) (_save_folder s)
     (_pause_ms s).
Definition with_dp5 (c : DP5Controller.state) (s : state) : state :=
  mk (minix_ctrl s) (Some c) (_running s) (_error_reason s) (_current_rep s)
     (_total_reps s) (_duration s) (_minix_continuous s) (_save_folder s)
     (_pause_ms s).
Definition with_running (r : bool) (s : state) : state :=
  mk (minix_ctrl s) (dp5_ctrl s) r (_error_reason s) (_current_rep s)
     (_total_reps s) (_duration s) (_minix_continuous s) (_save_folder s)
     (_pause_ms s).
Definition with_error_reason (e : string) (s : state) : state :=
  mk (minix_ctrl s) (dp5_ctrl s) (_running s) e (_current_rep s)
     (_total_reps s) (_duration s) (_minix_continuous s) (_save_folder s)
     (_pause_ms s).
Definition with_current_rep (n : Z) (s : state) : state :=
  mk (minix_ctrl s) (dp5_ctrl s) (_running s) (_error_reason s) n
     (_total_reps s) (_duration s) (_minix_continuous s) (_save_folder s)
     (_pause_ms s).
Definition with_job (reps dur : Z) (cont : bool) (folder : string)
  (s : state) : state :=
  mk (minix_ctrl s) (dp5_ctrl s) (_running s) (_error_reason s)
     (_current_rep s) reps dur cont folder (_pause_ms s).

(** [__init__]. *)
Definition init (minix_controller : option MiniXController.state)
  (dp5_controller : option DP5Controller.state) : state :=
  mk minix_controller dp5_controller false "" 0 0 0 false "" 5000.

Definition minix_present (s : state) : bool :=
  match minix_ctrl s with Some _ => true | None => false end.
Definition minix_connected (s : state) : bool :=
  match minix_ctrl s with
  | Some c => MiniXController.is_connected c
  | None => false
  end.
Definition dp5_present (s : state) : bool :=
  match dp5_ctrl s with Some _ => true | None => false end.
Definition dp5_connected (s : state) : bool :=
  match dp5_ctrl s with
  | Some c => DP5Controller.is_connected c
  | None => false
  end.
Definition dp5_acquiring (s : state) : bool :=
  match dp5_ctrl s with
  | Some c => DP5Controller.is_acquiring c
  | None => false
  end.

(** A call on the source controller; no slot of the manager is
    connected to its signals. *)
Definition minix_call {A} (m : M MiniXController.state A) : M state A :=
  method_call minix_ctrl with_minix no_slot m.

(** [_wait_with_events]: a nested event loop that returns after the
    delay. The embedding delivers no event to the manager inside it;
    events arrive between the calls below. *)
Definition _wait_with_events (duration_ms : Z) : M state unit := ret tt.

(** [os.path.join(folder, name)] for a relative [name]. *)
Definition path_join (folder name : string) : string :=
  match folder with
  | EmptyString => name
  | _ =>
      let last := substring (String.length folder - 1) 1 folder in
      if (String.eqb last "/" || String.eqb last "\")%bool
      then folder ++ name
      else folder ++ "\" ++ name
  end.

Definition _finalize (dev : MiniXApi.device) : M state unit :=
  s <- get ;;
  if (negb (_running s) && negb (str_truthy (_error_reason s)))%bool
  then ret tt
  else
    let was_running := _running s in
    modify (with_running false) ;;
    when (_minix_continuous s && was_running)%bool
      (when (minix_present s)
         (try_except (minix_call (MiniXController.set_hv_off dev))
            any_exception (fun _ => ret tt))) ;;
    (if str_truthy (_error_reason s) then ret tt
     else
       when was_running
         (let final_reps :=
            if _total_reps s <? _current_rep s
            then _current_rep s - 1 else _current_rep s in
          emit (status_update
                  ("Sequence finished (" ++ str_of_Z final_reps ++ "/"
                   ++ str_of_Z (_total_reps s) ++ " repetitions).")) ;;
          emit (sequence_finished final_reps))) ;;
    modify (with_error_reason "").

(** [_abort_sequence], with the slot that is connected to the
    spectrometer controller. *)
Definition _abort_sequence_with (slot : bool -> M state unit)
  (dev : MiniXApi.device) (reason : string) : M state unit :=
  s <- get ;;
  if negb (_running s) then ret tt
  else
    modify (with_error_reason reason) ;;
    emit (status_update ("Sequence ABORTED: " ++ reason)) ;;
    emit (sequence_aborted reason) ;;
    when (dp5_present s && dp5_acquiring s)%bool
      (method_call dp5_ctrl with_dp5 slot DP5Controller.stop_acquisition) ;;
    _finalize dev.

(** What the outside world answers while a repetition is saved. *)
Record save_env := mk_save {
  isdir : bool;                            (* os.path.isdir(save folder) *)
  strftime : string;                       (* time.strftime(..) *)
  dp5_save : DP5Controller.save_env;
  minix_dev : MiniXApi.device
}.

(** [_handle_dp5_acq_state_change], with the [_abort_sequence] it
    calls. *)
Definition _handle_dp5_acq_state_change_with
  (abort : MiniXApi.device -> string -> M state unit)
  (env : save_env) (acquiring : bool) : M state unit :=
  s <- get ;;
  if (_running s && negb (str_truthy (_error_reason s)) && negb acquiring)%bool
  then
    let rep := _current_rep s in
    emit (sequence_step_finished rep (_total_reps s)) ;;
    saved <-
      try_except
        ((if (negb (str_truthy (_save_folder s)) || negb (isdir env))%bool
          then raise (mk_exn IOError
                        ("Save folder disappeared or invalid: "
                         ++ _save_folder s))
          else ret tt) ;;
         let filename :=
           path_join (_save_folder s)
             ("spectrum_rep" ++ fmt_03d rep ++ "_" ++ strftime env ++ ".mca") in
         emit (status_update ("Saving Rep " ++ str_of_Z rep ++ " spectrum...")) ;;
         (if negb (dp5_present s)
          then raise (mk_exn RuntimeError "DP5 Controller missing for saving.")
          else ret tt) ;;
         save_success <-
           method_call dp5_ctrl with_dp5 no_slot
             (DP5Controller.save_last_spectrum (dp5_save env) filename
                ("Rep " ++ str_of_Z rep ++ "/" ++ str_of_Z (_total_reps s))
                "SEQPYXRF") ;;
         if negb (truthy save_success)
         then raise (mk_exn RuntimeError
                       "DP5 controller reported failure saving spectrum.")
         else emit (status_update
                      ("Rep " ++ str_of_Z rep ++ " spectrum saved.")) ;;
              ret true)
        any_exception
        (fun e =>
           abort (minix_dev env)
             ("Error saving spectrum for Rep " ++ str_of_Z rep ++ ": "
              ++ exn_msg e) ;;
           ret false) ;;
    if negb saved then ret tt
    else
      when (negb (_minix_continuous s))
        (when (minix_present s)
           (minix_call (MiniXController.set_hv_off (minix_dev env))) ;;
         _wait_with_events 100) ;;
      if rep <? _total_reps s
      then
        emit (status_update
                ("Rep " ++ str_of_Z rep ++ " finished. Pausing...")) ;;
        emit (sequence_pausing (_pause_ms s)) ;;
        emit (singleShot (_pause_ms s))
      else emit (singleShot 10)
  else ret tt.

(** The slot and [_abort_sequence] call each other: the slot aborts on a
    save failure, and [_abort_sequence] makes the controller emit the
    signal when it stops an acquisition that has no worker. The slot
    does nothing once [_error_reason] is set, and the reason the slot
    aborts with is never empty, so the slot run from inside that abort
    is the one that does nothing (lemma [slot_unfold] below). *)
Definition _handle_dp5_acq_state_change : save_env -> bool -> M state unit :=
  _handle_dp5_acq_state_change_with (_abort_sequence_with no_slot).

Definition _abort_sequence (env : save_env) (reason : string)
  : M state unit :=
  _abort_sequence_with (_handle_dp5_acq_state_change env) (minix_dev env)
    reason.

Definition stop_sequence (env : save_env) (reason : string) : M state unit :=
  s <- get ;;
  when (_running s) (_abort_sequence env reason).

(** What the slot connected to [request_safe_hv_on] does before it
    returns: nothing that concerns the manager, a call of the source
    controller's [set_hv_on], or a call of [stop_sequence]. *)
Inductive hv_slot :=
| hv_ignored
| hv_switched_on (dev : MiniXApi.device)
| hv_refused (reason : string).

Definition emit_request_safe_hv_on (env : save_env) (slot : hv_slot)
  : M state unit :=
  emit request_safe_hv_on ;;
  match slot with
  | hv_ignored => ret tt
  | hv_switched_on dev =>
      s <- get ;;
      when (minix_present s) (minix_call (MiniXController.set_hv_on dev))
  | hv_refused reason => stop_sequence env reason
  end.

(** What the outside world answers during [start_sequence] and
    [_run_next_step]. *)
Record step_env := mk_step {
  folder_isdir : bool;                     (* os.path.isdir(save_folder) *)
  hv_request : hv_slot;
  dp5_start : DP5Controller.start_env;
  on_signal : save_env                     (* for a slot run on the way *)
}.

Definition validate (repetitions duration : Z) (save_folder : string)
  (env : step_env) (s : state) : option string :=
  if (negb (minix_present s) || negb (minix_connected s))%bool
  then Some "MiniX not connected."
  else if (negb (dp5_present s) || negb (dp5_connected s))%bool
  then Some "DP5 not connected."
  else if dp5_acquiring s then Some "DP5 is already acquiring."
  else if repetitions <=? 0
  then Some ("Invalid repetitions value: " ++ str_of_Z repetitions)
  else if duration <=? 0
  then Some ("Invalid duration value: " ++ str_of_Z duration)
  else if (negb (str_truthy save_folder) || negb (folder_isdir env))%bool
  then Some ("Invalid or non-existent save folder: " ++ save_folder)
  else None.

Definition start_sequence (env : step_env) (repetitions duration : Z)
  (minix_continuous : bool) (save_folder : string) : M state bool :=
  s <- get ;;
  if _running s
  then emit (status_update "Sequence already running.") ;; ret false
  else
    match validate repetitions duration save_folder env s with
    | Some err =>
        emit (status_update ("Sequence Error: " ++ err)) ;;
        emit (sequence_aborted err)
    | None => ret tt
    end ;;
    modify (with_running true) ;;
    modify (with_error_reason "") ;;
    modify (with_current_rep 0) ;;
    modify (with_job repetitions duration minix_continuous save_folder) ;;
    emit (status_update
            ("Starting sequence: " ++ str_of_Z repetitions ++ " reps...")) ;;
    emit sequence_started ;;
    when minix_continuous
      (emit_request_safe_hv_on (on_signal env) (hv_request env) ;;
       _wait_with_events 1000) ;;
    emit (singleShot 50) ;;
    ret true.

Definition _run_next_step (env : step_env) : M state unit :=
  s <- get ;;
  if negb (_running s) then _finalize (minix_dev (on_signal env))
  else if str_truthy (_error_reason s)
  then _finalize (minix_dev (on_signal env))
  else
    let rep := _current_rep s + 1 in
    modify (with_current_rep rep) ;;
    if _total_reps s <? rep then _finalize (minix_dev (on_signal env))
    else
      emit (status_update
              ("Running Rep " ++ str_of_Z rep ++ "/"
               ++ str_of_Z (_total_reps s) ++ " ("
               ++ str_of_Z (_duration s) ++ "s)...")) ;;
      emit (sequence_step_starting rep (_total_reps s)) ;;
      try_except
        (when (negb (_minix_continuous s))
           (emit_request_safe_hv_on (on_signal env) (hv_request env) ;;
            _wait_with_events 500) ;;
         if dp5_present s
         then
           s' <- get ;;
           (if negb (dp5_connected s')
            then raise (mk_exn RuntimeError
                          "DP5 disconnected before starting repetition.")
            else ret tt) ;;
           method_call dp5_ctrl with_dp5
             (_handle_dp5_acq_state_change (on_signal env))
             (DP5Controller.start_acquisition (dp5_start env)
                (Some (_duration s)))
         else raise (mk_exn RuntimeError "DP5 Controller missing."))
        any_exception
        (fun e =>
           s' <- get ;;
           _abort_sequence (on_signal env)
             ("Error starting Rep " ++ str_of_Z (_current_rep s') ++ ": "
              ++ exn_msg e)).

(** A signal of the worker reaching the controller, with the manager's
    slot connected. *)
Definition worker_signal (env : save_env) (e : event) : M state unit :=
  let slot := _handle_dp5_acq_state_change env in
  match e with
  | status_ready st =>
      method_call dp5_ctrl with_dp5 slot
        (DP5Controller._handle_worker_status st)
  | spectrum_ready sp =>
      method_call dp5_ctrl with_dp5 slot
        (DP5Controller._handle_worker_spectrum sp)
  | message m =>
      method_call dp5_ctrl with_dp5 slot
        (DP5Controller._handle_worker_message m)
  | error m =>
      method_call dp5_ctrl with_dp5 slot
        (DP5Controller._handle_worker_error m)
  | finished =>
      method_call dp5_ctrl with_dp5 slot
        DP5Controller._handle_worker_finished
  | _ => ret tt
  end.

(** What can happen to a manager and its controllers from outside. *)
Inductive stimulus :=
| Start (env : step_env) (repetitions duration : Z) (minix_continuous : bool)
    (save_folder : string)
| Timer (env : step_env)                   (* a singleShot fires *)
| Worker (env : save_env) (e : event)      (* a worker signal arrives *)
| ThreadFinished (t : nat)                 (* the thread's finished signal *)
| Stop (env : save_env) (reason : string). (* stop_sequence is called *)

Definition react (x : stimulus) : M state unit :=
  match x with
  | Start env reps dur cont folder =>
      start_sequence env reps dur cont folder ;; ret tt
  | Timer env => _run_next_step env
  | Worker env e => worker_signal env e
  | ThreadFinished t =>
      s <- get ;;
      when (dp5_present s)
        (method_call dp5_ctrl with_dp5 no_slot
           (DP5Controller.thread_finished t))
  | Stop env reason => stop_sequence env reason
  end.

(** The manager's reaction to a series of stimuli. *)
Fixpoint reacts (xs : list stimulus) : M state unit :=
  match xs with
  | [] => ret tt
  | x :: rest => react x ;; reacts rest
  end.

End SequenceManager.

(* --------------------------------------------------------------------- *)
(** ** Observations on traces                                             *)
(* --------------------------------------------------------------------- *)

Definition is_finished (e : event) : bool :=
  match e with finished => true | _ => false end.
Definition is_spectrum_ready (e : event) : bool :=
  match e with spectrum_ready _ => true | _ => false end.
Definition is_status_ready (e : event) : bool :=
  match e with status_ready _ => true | _ => false end.
Definition is_file_write (e : event) : bool :=
  match e with SaveMCADataToFile _ _ _ _ => true | _ => false end.
Definition is_acquisition_aborted (e : event) : bool :=
  match e with acquisition_aborted _ => true | _ => false end.
Definition is_acquisition_finished (e : event) : bool :=
  match e with acquisition_finished _ => true | _ => false end.
Definition is_sequence_finished (e : event) : bool :=
  match e with sequence_finished _ => true | _ => false end.
Definition is_sequence_aborted (e : event) : bool :=
  match e with sequence_aborted _ => true | _ => false end.
Definition is_step_finished (e : event) : bool :=
  match e with sequence_step_finished _ _ => true | _ => false end.
Definition is_step_starting (e : event) : bool :=
  match e with sequence_step_starting _ _ => true | _ => false end.
Definition is_hv_off_command (e : event) : bool :=
  match e with
  | SendMiniXCommand v => v =? MiniXApi.value MiniXApi.mxcHVOff
  | _ => false
  end.

(** The source's DLL lets an HV-off command through: the controller
    application runs, the status is a known one that is no error, and
    the monitor block enables the command. *)
Definition accepts_hv_off (dev : MiniXApi.device) : bool :=
  (MiniXApi.is_controller_running dev
   && match MiniXApi.MiniXStatus_of
              (mxmStatusInd (MiniXApi.ReadMiniXMonitor dev)) with
      | Some st => negb (MiniXApi.critical st)
      | None => false
      end
   && negb (Z.land (mxmEnabledCmds (MiniXApi.ReadMiniXMonitor dev))
              (MiniXApi.value MiniXApi.mxcHVOff) =? 0))%bool.

(** The source controller can send commands: its API is loaded and it
    takes the controller application to be running. *)
Definition can_command (m : MiniXController.state) : bool :=
  (Base.api_loaded (MiniXController.base m)
   && MiniXController._is_controller_app_running m)%bool.

(** A sequence manager in continuous-source mode whose source
    controller can send commands. *)
Definition armed (s : SequenceManager.state) : bool :=
  (SequenceManager._minix_continuous s
   && match SequenceManager.minix_ctrl s with
      | Some m => can_command m
      | None => false
      end)%bool.

(** The answers of the source's DLL that a stimulus carries for the
    finalization it may lead to. *)
Definition source_of (x : SequenceManager.stimulus) : option MiniXApi.device :=
  match x with
  | SequenceManager.Start env _ _ _ _ =>
      Some (SequenceManager.minix_dev (SequenceManager.on_signal env))
  | SequenceManager.Timer env =>
      Some (SequenceManager.minix_dev (SequenceManager.on_signal env))
  | SequenceManager.Worker env _ => Some (SequenceManager.minix_dev env)
  | SequenceManager.ThreadFinished _ => None
  | SequenceManager.Stop env _ => Some (SequenceManager.minix_dev env)
  end.

Definition source_accepts (x : SequenceManager.stimulus) : bool :=
  match source_of x with
  | Some dev => accepts_hv_off dev
  | None => true
  end.

(** *** Runs of the sequence manager *)

Module Schedule.
Import SequenceManager.



Definition succeeds {A} (r : result A) : bool :=
  match r with Ok _ => true | Raise _ => false end.










Definition is_start (x : stimulus) : bool :=
  match x with Start _ _ _ _ _ => true | _ => false end.





End Schedule.

(** A computation of the sequence manager that, started in a running
    and armed manager, sends an HV-off command whenever it leaves the
    manager not running, and keeps the manager armed. *)
Definition guarded {A} (m : M SequenceManager.state A) : Prop :=
  (forall s, SequenceManager._running s = true -> armed s = true ->
             SequenceManager._running (state_of (m s)) = false ->
             (1 <= count is_hv_off_command (trace_of (m s)))%nat)
  /\ (forall s, armed (state_of (m s)) = armed s).

(** A computation that emits no event of the kind [P], from any state. *)
Definition silent {S A} (P : event -> bool) (m : M S A) : Prop :=
  forall s, count P (trace_of (m s)) = 0%nat.

(** A computation that leaves the observation [f] of the state alone. *)
Definition keeps {S A X} (f : S -> X) (m : M S A) : Prop :=
  forall s, f (state_of (m s)) = f s.

(** A computation that never raises. *)
Definition total {S A} (m : M S A) : Prop :=
  forall s, exists a, result_of (m s) = Ok a.

(** *** The poll passes that end the worker's loop *)

Module WorkerScript.
Import DP5Api DP5AcquisitionWorker.

(** The pass leaves the loop by itself: the status shows the MCA
    disabled, or a call raises [AttributeError]. *)
Definition iter_ends (p : poll_env) : bool :=
  match GetDppStatus p with
  | Raise e => is_class AttributeError e
  | Ok st =>
      if mca_enabled_flag st =? 0 then true
      else match RequestSpectrumData p with
           | Raise e => is_class AttributeError e
           | Ok _ => false
           end
  end.

(** The pass ends the loop: [stop()] landed before it, or it leaves the
    loop by itself. *)
Definition ends_loop (p : poll_env) : bool :=
  (stop_called p || iter_ends p)%bool.

(** The spectrum request of the pass leads to a publication. *)
Definition publishes (p : poll_env) : bool :=
  match RequestSpectrumData p with
  | Ok (sp, _) => ((0 <? CHANNELS sp) && (CHANNELS sp <=? MAX_BUFFER_DATA))%bool
  | Raise _ => false
  end.

(** Whether [run] returns on the given answers of the outside world. *)
Definition run_returns (api : option caps) (se : setup_env)
  (polls : list poll_env) (w : state) : bool :=
  match api with
  | None => true
  | Some a =>
      match _spectrum_buffer w, _status_buffer w with
      | Some _, Some _ =>
          match result_of (setup a se (with_running true w)) with
          | Ok true => existsb ends_loop polls
          | _ => true
          end
      | _, _ => true
      end
  end.

End WorkerScript.

(* --------------------------------------------------------------------- *)
(** ** Concrete devices and answers, for the examples                     *)
(* --------------------------------------------------------------------- *)

Module Scenario.

(** A DP5 API module with every function bound. *)
Definition full_caps : DP5Api.caps :=
  DP5Api.mk_caps true true true true true true true true.

(** A status block of 64 bytes whose byte 35 is [b35]. *)
Definition status_with (b35 : Z) : DP5_DP4_FORMAT_STATUS :=
  mk_status (repeat 0 35 ++ b35 :: repeat 0 28)%list 12345 0 0.

(** A worker as the controller builds it: buffers allocated, no
    configuration file, a preset of ten seconds. *)
Definition ready_worker : DP5AcquisitionWorker.state :=
  fst (DP5AcquisitionWorker.init (Some full_caps)
         (Ok (mk_spec [] 0, status_with 0)) None (Some 10)).

(** Set-up and clean-up in which every call succeeds. *)
Definition setup_ok : DP5AcquisitionWorker.setup_env :=
  DP5AcquisitionWorker.mk_setup (Ok true) (Ok 1) (Ok true) (Ok tt).
Definition cleanup_ok : DP5AcquisitionWorker.cleanup_env :=
  DP5AcquisitionWorker.mk_cleanup (Ok (status_with 0)) (Ok tt).

(** A pass while the hardware still acquires (bit 5 of byte 35 set),
    with three channels of data. *)
Definition poll_acquiring : DP5AcquisitionWorker.poll_env :=
  DP5AcquisitionWorker.mk_poll false (Ok (status_with 32))
    (Ok (mk_spec [5; 7; 9] 3, status_with 32)).

(** A pass in which the hardware has stopped and the final spectrum has
    three channels. *)
Definition poll_done : DP5AcquisitionWorker.poll_env :=
  DP5AcquisitionWorker.mk_poll false (Ok (status_with 0))
    (Ok (mk_spec [5; 7; 9] 3, status_with 0)).

(** The hardware has stopped and reports no live channel. *)
Definition poll_done_empty : DP5AcquisitionWorker.poll_env :=
  DP5AcquisitionWorker.mk_poll false (Ok (status_with 0))
    (Ok (mk_spec [] 0, status_with 0)).

(** The hardware has stopped and the final spectrum request fails. *)
Definition poll_done_failing : DP5AcquisitionWorker.poll_env :=
  DP5AcquisitionWorker.mk_poll false (Ok (status_with 0))
    (Raise (mk_exn OtherException "USB transfer failed")).

(** A connected spectrometer controller that is idle and has never
    acquired. *)
Definition dp5_idle : DP5Controller.state :=
  DP5Controller.mk (Base.mk (Some full_caps) true "") false None None None
    None None [] 0.


(** [start_acquisition] in which the new thread starts, and in which a
    previous thread is asked about: it ends within the wait, or not. *)
Definition start_ok : DP5Controller.start_env :=
  DP5Controller.mk_start true true (Ok tt).
Definition start_prev_stuck : DP5Controller.start_env :=
  DP5Controller.mk_start true false (Ok tt).

(** Saving in which every call succeeds. *)
Definition save_ok : DP5Controller.save_env :=
  DP5Controller.mk_save (Ok tt) (Ok tt).

(** A single-acquisition manager on that controller, and what the
    outside world answers to it: the save directory exists, threads
    start, saving succeeds. *)
Definition single_idle : SingleAcquisitionManager.state :=
  SingleAcquisitionManager.init (Some dp5_idle).
Definition single_save_ok : SingleAcquisitionManager.save_env :=
  SingleAcquisitionManager.mk_save "2025-01-01 12:00:00" save_ok.
Definition single_start_ok : SingleAcquisitionManager.start_env :=
  SingleAcquisitionManager.mk_start true start_ok single_save_ok.

(** The user starts a single acquisition, stops it while the worker
    polls, and the worker then finishes. *)
Definition single_user_abort : M SingleAcquisitionManager.state unit :=
  SingleAcquisitionManager.start_acquisition_and_save single_start_ok 10
    "C:\data\a.mca" ;;
  SingleAcquisitionManager.stop_acquisition single_save_ok
    "Stopped by user from UI" ;;
  SingleAcquisitionManager.worker_signal single_save_ok finished.

(** The same, and the application is closed afterwards. *)
Definition single_user_abort_then_close
  : M SingleAcquisitionManager.state unit :=
  single_user_abort ;;
  SingleAcquisitionManager.stop_acquisition single_save_ok
    "Application closing".

(** A single acquisition that runs to its end and is saved. *)
Definition single_success : M SingleAcquisitionManager.state unit :=
  SingleAcquisitionManager.start_acquisition_and_save single_start_ok 10
    "C:\data\a.mca" ;;
  SingleAcquisitionManager.worker_signal single_save_ok
    (spectrum_ready [5; 7; 9]) ;;
  SingleAcquisitionManager.worker_signal single_save_ok finished.

(** The signals of the single-acquisition manager that tell how a run
    went. *)
Definition single_outcome (e : event) : bool :=
  match e with
  | acquisition_started | acquisition_finished _ | acquisition_aborted _ =>
      true
  | _ => false
  end.

(** A source whose controller application runs, with the hardware
    connected and HV reported on by the last poll. *)
Definition minix_hv_on : MiniXController.state :=
  MiniXController.mk (Base.mk (Some tt) true "") true true None true.

(** The same source, not connected to its hardware. *)
Definition minix_disconnected : MiniXController.state :=
  MiniXController.mk (Base.mk (Some tt) false "") true false None true.

(** What the source's DLL answers: the controller runs, the status is
    "ready", HV is on and every command is enabled... *)
Definition source_ready : MiniXApi.device :=
  MiniXApi.mk_device 1 (mk_monitor 0 0 0 0 1 1 31 13 0 1).

(** ...or HV is on and the block enables no HV-off command (the
    controller is busy updating its settings). *)
Definition source_busy : MiniXApi.device :=
  MiniXApi.mk_device 1 (mk_monitor 0 0 0 0 1 1 0 12 0 1).

(** A sequence manager on both controllers. *)
Definition seq_idle : SequenceManager.state :=
  SequenceManager.init (Some minix_hv_on) (Some dp5_idle).
Definition seq_minix_disconnected : SequenceManager.state :=
  SequenceManager.init (Some minix_disconnected) (Some dp5_idle).

(** What the outside world answers to the sequence manager: the folder
    exists, saving succeeds, threads start, and the slot behind
    [request_safe_hv_on] switches HV on. *)
Definition seq_save (dev : MiniXApi.device) : SequenceManager.save_env :=
  SequenceManager.mk_save true "20250101_120000" save_ok dev.
Definition seq_step (dev : MiniXApi.device) : SequenceManager.step_env :=
  SequenceManager.mk_step true (SequenceManager.hv_switched_on dev) start_ok
    (seq_save dev).

(** The same at a later timer: the thread of the last acquisition,
    which nothing has asked to quit, does not end within the wait. *)
Definition seq_step_again (dev : MiniXApi.device) : SequenceManager.step_env :=
  SequenceManager.mk_step true (SequenceManager.hv_switched_on dev)
    start_prev_stuck (seq_save dev).



(** A run of one repetition in continuous-source mode that completes
    normally: start, first step, the worker publishes a spectrum and
    finishes, and the last timer finalizes. *)
Definition seq_continuous_run (dev : MiniXApi.device)
  : list SequenceManager.stimulus :=
  [SequenceManager.Start (seq_step dev) 1 10 true "C:\data";
   SequenceManager.Timer (seq_step dev);
   SequenceManager.Worker (seq_save dev) (spectrum_ready [5; 7; 9]);
   SequenceManager.Worker (seq_save dev) finished;
   SequenceManager.Timer (seq_step dev)].

(** The source controller's HV-on flag, as the manager sees it. *)
Definition source_hv_on (s : SequenceManager.state) : bool :=
  match SequenceManager.minix_ctrl s with
  | Some m => MiniXController.hv_on m
  | None => false
  end.

(** The signals of the sequence manager that tell how a run went. *)
Definition seq_outcome (e : event) : bool :=
  match e with
  | sequence_started | sequence_step_starting _ _
  | sequence_step_finished _ _ | sequence_finished _ | sequence_aborted _ =>
      true
  | _ => false
  end.

End Scenario.

(* ===================================================================== *)
(** * Part I, continued: the rest of the controllers and of the APIs      *)
(* ===================================================================== *)

(* --------------------------------------------------------------------- *)
(** ** api/dp5_api.py: the helper functions                               *)
(* --------------------------------------------------------------------- *)

Module DP5ApiHelpers.
Import DP5Api.

(** [spec_to_numpy]; [None] is a null [spec_struct]. *)
Definition spec_to_numpy (spec_struct : option Spec) : list Z :=
  match spec_struct with
  | None => []
  | Some sp =>
      let num_channels := CHANNELS sp in
      if ((num_channels <=? 0) || (MAX_BUFFER_DATA <? num_channels))%bool
      then []
      else firstn (Z.to_nat num_channels) (DATA sp)
  end.

(** What [send_ascii_command] finds: whether the DLL and its
    [SendCommandString] are loaded, and what the DLL call answers. *)
Record send_env := mk_send {
  SendCommandString_loaded : bool;
  SendCommandString : result Z
}.

Definition send_ascii_command {S} (env : send_env) (command_string : string)
  : M S bool :=
  if negb (SendCommandString_loaded env)
  then raise (mk_exn RuntimeError
                "DP5 API or SendCommandString function not loaded.")
  else if negb (str_truthy command_string) then ret false
  else
    try_except
      (encode_ascii command_string ;;
       result <- call (SendCommandString env) ;;
       if negb (result =? 1) then ret false else ret true)
      any_exception
      (fun _ => ret false).

End DP5ApiHelpers.

(* --------------------------------------------------------------------- *)
(** ** controllers/dp5_controller.py: connection, configuration, data     *)
(* --------------------------------------------------------------------- *)

Module DP5ControllerIO.
Import DP5Api DP5Controller.

Definition with_config (c : option string) (s : state) : state :=
  mk (base s) (_is_acquiring s) c (_worker s) (_thread s)
     (_last_spectrum_data s) (_last_status_data s) (live_threads s)
     (next_id s).

(** [request_single_status_update]; [status] is what [GetDppStatus]
    followed by [DppStatusToStruct] into a fresh block answers. *)
Definition request_single_status_update
  (status : result DP5_DP4_FORMAT_STATUS) : M state unit :=
  s <- get ;;
  if (negb (is_connected s) || negb (Base.api_loaded (base s))
      || _is_acquiring s)%bool
  then ret tt
  else
    try_except
      (status_struct <- call status ;;
       modify (with_status (Some status_struct)) ;;
       emit (status_updated status_struct))
      any_exception
      (fun e => _report_error ("Error request single status: " ++ exn_msg e)).

(** What the outside world answers during [connect]. *)
Record connect_env := mk_connect {
  CloseConnection_first : result unit;
  ConnectToDefaultDPP : result Z;
  first_status : result DP5_DP4_FORMAT_STATUS
}.

Definition connect (env : connect_env) : M state unit :=
  s <- get ;;
  if negb (Base.api_loaded (base s)) then _report_error "DP5 API not loaded."
  else if is_connected s then _post_status_message "DP5 already connected."
  else if _is_acquiring s then _report_error "Cannot connect while acquiring."
  else
    _post_status_message "Connecting to DP5 via USB..." ;;
    try_except
      (try_except (call (CloseConnection_first env)) any_exception
         (fun _ => ret tt) ;;
       result <- call (ConnectToDefaultDPP env) ;;
       if result =? 1
       then _set_connected true ;;
            _post_status_message "DP5 Connected." ;;
            request_single_status_update (first_status env)
       else _set_connected false ;;
            _report_error "Failed to connect.")
      any_exception
      (fun e =>
         _set_connected false ;;
         _report_error ("DP5 connection error: " ++ exn_msg e)).

(** What the outside world answers during [disconnect]: whether the
    acquisition thread ends within [wait(500)], and the DLL call. *)
Record disconnect_env := mk_disconnect {
  wait_500 : bool;
  CloseConnection_call : result unit
}.

Definition disconnect (env : disconnect_env) : M state unit :=
  s <- get ;;
  if negb (Base.api_loaded (base s)) then ret tt
  else
    when (_is_acquiring s)
      (stop_acquisition ;;
       s1 <- get ;;
       match _thread s1 with
       | Some t =>
           when (isRunning s1 t && wait_500 env)%bool
             (modify (with_threads
                        (filter (fun x => negb (Nat.eqb t x))
                           (live_threads s1))
                        (next_id s1)))
       | None => ret tt
       end) ;;
    s2 <- get ;;
    if negb (is_connected s2)
    then when (_is_acquiring s2) (_set_acquiring false)
    else
      _post_status_message "Disconnecting from DP5..." ;;
      try_except
        (call (CloseConnection_call env) ;;
         _set_connected false ;;
         _post_status_message "DP5 Disconnected." ;;
         modify (with_spectrum None) ;;
         modify (with_status None))
        any_exception
        (fun e =>
           _report_error ("DP5 disconnection error: " ++ exn_msg e) ;;
           _set_connected false ;;
           _set_acquiring false ;;
           modify (with_spectrum None) ;;
           modify (with_status None)).

(** What the outside world answers during [load_config]. *)
Record config_env := mk_config {
  path_exists : bool;                      (* os.path.exists(filepath) *)
  SendConfigFileToDpp : result Z;
  config_status : result DP5_DP4_FORMAT_STATUS
}.

Definition load_config (env : config_env) (filepath : string)
  : M state unit :=
  s <- get ;;
  if negb (Base.api_loaded (base s)) then _report_error "DP5 API not loaded."
  else if negb (is_connected s) then _report_error "Connect DP5 first."
  else if _is_acquiring s then _report_error "Stop acq first."
  else if (negb (str_truthy filepath) || negb (path_exists env))%bool
  then _report_error ("Bad cfg path: " ++ filepath)
  else
    _post_status_message
      ("Loading DP5 config: " ++ basename filepath ++ "...") ;;
    try_except
      (encode_ascii filepath ;;
       result <- call (SendConfigFileToDpp env) ;;
       if result =? 1
       then modify (with_config (Some filepath)) ;;
            _post_status_message "DP5 Config loaded." ;;
            request_single_status_update (config_status env)
       else _report_error "Failed to send DP5 config (API Error).")
      any_exception
      (fun e => _report_error ("Error loading DP5 config: " ++ exn_msg e)).

(** What the outside world answers during [clear_data]. *)
Record clear_env := mk_clear {
  ClearData_call : result unit;
  clear_status : result DP5_DP4_FORMAT_STATUS
}.

Definition clear_data (env : clear_env) : M state unit :=
  s <- get ;;
  if negb (Base.api_loaded (base s)) then _report_error "DP5 API not loaded."
  else if negb (is_connected s) then _report_error "Connect DP5 first."
  else if _is_acquiring s
  then _report_error "Stop acquisition before clearing data."
  else
    _post_status_message "Clearing DP5 data buffer..." ;;
    try_except
      (call (ClearData_call env) ;;
       _post_status_message "DP5 data buffer cleared." ;;
       modify (with_spectrum None) ;;
       request_single_status_update (clear_status env) ;;
       emit (spectrum_updated (repeat 0 (Z.to_nat MAX_BUFFER_DATA))))
      any_exception
      (fun e => _report_error ("Error clearing DP5 data: " ++ exn_msg e)).

End DP5ControllerIO.

(* --------------------------------------------------------------------- *)
(** ** api/minix_api.py, controllers/minix_controller.py: the hardware    *)
(**    connection and the monitoring timer                                *)
(* --------------------------------------------------------------------- *)

Module MiniXControllerIO.
Import MiniXApi MiniXController.

(** [get_status_string]. *)
Definition get_status_string (status_code : Z) : string :=
  match MiniXStatus_of status_code with
  | Some s => status_name s
  | None => "UnknownStatusCode_" ++ str_of_Z status_code
  end.

(** [MiniXStatus(code)] as a call: an unknown code raises. *)
Definition MiniXStatus_call {S} (code : Z) : M S MiniXStatus :=
  match MiniXStatus_of code with
  | Some s => ret s
  | None => raise (mk_exn ValueError
                     (str_of_Z code ++ " is not a valid MiniXStatus"))
  end.

Definition is_application_ready (s : MiniXStatus) : bool :=
  match s with mxstMiniXApplicationReady => true | _ => false end.
Definition is_no_devices (s : MiniXStatus) : bool :=
  match s with mxstNoDevicesAttached => true | _ => false end.

(** [connect_hardware]; the three devices are what the DLL answers to
    the first status read, to the connect command and to the status
    read that follows it. *)
Definition connect_hardware (dev1 dev2 dev3 : device) : M state unit :=
  s <- get ;;
  if negb (Base.api_loaded (base s)) then _report_error "MiniX API not loaded."
  else if negb (_is_controller_app_running s)
  then _report_error "Controller application not running."
  else if is_connected s
  then _post_status_message "Hardware already connected."
  else
    _post_status_message "Attempting to connect to MiniX hardware..." ;;
    try_except
      (monitor <- get_monitor_data dev1 false ;;
       current_status_enum <- MiniXStatus_call (mxmStatusInd monitor) ;;
       if is_application_ready current_status_enum
       then
         send_command dev2 mxcStartMiniX true ;;
         monitor <- get_monitor_data dev3 false ;;
         current_status_enum <- MiniXStatus_call (mxmStatusInd monitor) ;;
         if ready current_status_enum
         then
           _set_connected true ;;
           _post_status_message
             ("MiniX Hardware Connected. Status: "
              ++ get_status_string (mxmStatusInd monitor)) ;;
           _update_internal_state monitor
         else if is_no_devices current_status_enum
         then
           _set_connected false ;;
           _report_error
             "MiniX Connection failed: No devices attached or powered."
         else
           _set_connected false ;;
           _report_error
             ("MiniX Connection failed. Final Status: "
              ++ get_status_string (mxmStatusInd monitor))
       else if ready current_status_enum
       then
         _set_connected true ;;
         _post_status_message
           ("MiniX Hardware already connected. Status: "
            ++ get_status_string (mxmStatusInd monitor)) ;;
         _update_internal_state monitor
       else
         _set_connected false ;;
         _report_error
           ("Cannot connect MiniX hardware. Current Status: "
            ++ get_status_string (mxmStatusInd monitor)))
      api_errors
      (fun e =>
         _set_connected false ;;
         _report_error ("Failed to connect to MiniX hardware: " ++ exn_msg e)).

(** The exception classes [disconnect_hardware] catches. *)
Definition command_errors (e : exn) : bool :=
  (is_class ControllerNotRunningError e || is_class APICommandError e
   || is_class TypeError e || is_class ValueError e)%bool.

(** [disconnect_hardware]; [dev] is what the DLL answers to the exit
    command and [poll] to the status poll that follows. *)
Definition disconnect_hardware (dev poll : device) : M state unit :=
  s <- get ;;
  if negb (Base.api_loaded (base s)) then _report_error "MiniX API not loaded."
  else if negb (_is_controller_app_running s)
  then _report_error "Controller application not running."
  else
    _post_status_message "Disconnecting hardware (sending mxcExit)..." ;;
    try_except
      (send_command dev mxcExit false ;;
       _set_connected false ;;
       _set_hv_on 0 ;;
       _post_status_message "Hardware disconnect command (mxcExit) sent." ;;
       _poll_status poll)
      command_errors
      (fun e =>
         _report_error ("Could not send disconnect command: " ++ exn_msg e) ;;
         _set_connected false ;;
         _set_hv_on 0).

(** The controller together with the polling interval it remembers. *)
Record monitored := mk_monitored {
  controller : MiniXController.state;
  _monitor_interval_ms : Z
}.

Definition with_controller (c : MiniXController.state) (s : monitored)
  : monitored :=
  mk_monitored c (_monitor_interval_ms s).
Definition with_interval (i : Z) (s : monitored) : monitored :=
  mk_monitored (controller s) i.

Definition in_controller {A} (m : M MiniXController.state A)
  : M monitored A :=
  zoom controller with_controller m.

(** [start_monitoring]: the timer is restarted and the status is polled
    at once. *)
Definition start_monitoring (interval_ms : option Z) (dev : device)
  : M monitored unit :=
  match interval_ms with
  | None => ret tt
  | Some i => modify (with_interval i)
  end ;;
  in_controller
    (s <- get ;;
     when (_monitor_timer_active s) (modify (with_timer false)) ;;
     modify (with_timer true) ;;
     _poll_status dev).

(** [_check_initial_controller_state]; [running] is what
    [is_controller_running()] answers. *)
Definition _check_initial_controller_state (running : result bool)
  (dev : device) : M monitored unit :=
  s <- get ;;
  if Base.api_loaded (base (controller s))
  then
    try_except
      (r <- call running ;;
       if r
       then in_controller (_set_controller_running true) ;;
            start_monitoring None dev
       else in_controller (_set_controller_running false))
      any_exception
      (fun _ => in_controller (_set_controller_running false))
  else in_controller (_set_controller_running false).

(** [__init__]: the fields, then the initial check. *)
Definition init (api : option unit) (running : result bool) (dev : device)
  : M monitored unit :=
  put (mk_monitored
         (MiniXController.mk (Base.mk api false "") false false None false)
         1000) ;;
  _check_initial_controller_state running dev.

(** What can be asked of the controller from outside, with the answers
    of the DLL each request meets. *)
Inductive request :=
| Connect (dev1 dev2 dev3 : device)
| Disconnect (dev poll : device)
| HVOn (dev : device)
| HVOff (dev : device)
| StartMonitoring (interval_ms : option Z) (dev : device)
| StopMonitoring
| TimerTick (dev : device).

Definition serve (r : request) : M monitored unit :=
  match r with
  | Connect d1 d2 d3 => in_controller (connect_hardware d1 d2 d3)
  | Disconnect d p => in_controller (disconnect_hardware d p)
  | HVOn d => in_controller (set_hv_on d)
  | HVOff d => in_controller (set_hv_off d)
  | StartMonitoring i d => start_monitoring i d
  | StopMonitoring => in_controller stop_monitoring
  | TimerTick d =>
      (* the timeout of [_monitor_timer] is connected to [_poll_status];
         a stopped timer does not fire *)
      in_controller
        (s <- get ;;
         when (_monitor_timer_active s) (_poll_status d))
  end.

Fixpoint serves (rs : list request) : M monitored unit :=
  match rs with
  | [] => ret tt
  | r :: rest => serve r ;; serves rest
  end.

End MiniXControllerIO.

(* --------------------------------------------------------------------- *)
(** ** What reaches a single-acquisition manager                          *)
(* --------------------------------------------------------------------- *)

Module SingleRuns.
Import SingleAcquisitionManager.

(** What can happen to a manager and its controller from outside. *)
Inductive stimulus :=
| Start (env : start_env) (duration : Z) (save_filepath : string)
| Worker (env : save_env) (e : event)      (* a worker signal arrives *)
| ThreadFinished (t : nat)                 (* the thread's finished signal *)
| Stop (env : save_env) (reason : string). (* stop_acquisition is called *)

Definition react (x : stimulus) : M state unit :=
  match x with
  | Start env duration save_filepath =>
      start_acquisition_and_save env duration save_filepath ;; ret tt
  | Worker env e => worker_signal env e
  | ThreadFinished t =>
      s <- get ;;
      when (dp5_present s)
        (method_call dp5_ctrl with_dp5 no_slot
           (DP5Controller.thread_finished t))
  | Stop env reason => stop_acquisition env reason
  end.

(** The manager's reaction to a series of stimuli. *)
Fixpoint reacts (xs : list stimulus) : M state unit :=
  match xs with
  | [] => ret tt
  | x :: rest => react x ;; reacts rest
  end.

End SingleRuns.

(* --------------------------------------------------------------------- *)
(** ** Further observations                                               *)
(* --------------------------------------------------------------------- *)

(** The character [c] occurs in [s]. *)
Fixpoint has_char (c : ascii) (s : string) : bool :=
  match s with
  | EmptyString => false
  | String a r => (Ascii.eqb a c || has_char c r)%bool
  end.

Definition is_enable_mca (e : event) : bool :=
  match e with EnableMCA => true | _ => false end.
Definition is_disable_mca (e : event) : bool :=
  match e with DisableMCA => true | _ => false end.
Definition is_command (e : event) : bool :=
  match e with SendMiniXCommand _ => true | _ => false end.
Definition is_error_occurred (e : event) : bool :=
  match e with error_occurred _ _ => true | _ => false end.
Definition is_connection_changed (e : event) : bool :=
  match e with connection_changed _ _ => true | _ => false end.
Definition is_acquisition_state_changed (e : event) : bool :=
  match e with acquisition_state_changed _ => true | _ => false end.
Definition is_worker_stop (e : event) : bool :=
  match e with worker_stop _ => true | _ => false end.

(** A published spectrum that would not fit the buffer of a [Spec]. *)
Definition oversized (e : event) : bool :=
  match e with
  | spectrum_ready sp => MAX_BUFFER_DATA <? Z.of_nat (List.length sp)
  | _ => false
  end.

(** A spectrum file whose tag, description or channel data exceed the
    fixed buffers of [SpecFile] and [Spec], or whose channel count is
    not the length of its data. *)
Definition ill_sized_file (e : event) : bool :=
  match e with
  | SaveMCADataToFile _ data channels info =>
      ((MAX_TAG_SIZE - 1 <? Z.of_nat (String.length (strTag info)))
       || (MAX_DESCRIPTION_SIZE - 1
           <? Z.of_nat (String.length (strDescription info)))
       || (MAX_BUFFER_DATA <? channels)
       || negb (channels =? Z.of_nat (List.length data)))%bool
  | _ => false
  end.

(** A DLL call that returns a [BOOL] answered 1. *)
Definition answered_one (r : result Z) : bool :=
  match r with Ok v => v =? 1 | Raise _ => false end.

(** The DLL lets a command through when [send_command] checks it: the
    controller application runs, the status is a known one that is no
    error, and the monitor block enables the command. *)
Definition accepts (dev : MiniXApi.device) (c : MiniXApi.MiniXCommands)
  : bool :=
  (MiniXApi.is_controller_running dev
   && match MiniXApi.MiniXStatus_of
              (mxmStatusInd (MiniXApi.ReadMiniXMonitor dev)) with
      | Some st => negb (MiniXApi.critical st)
      | None => false
      end
   && negb (Z.land (mxmEnabledCmds (MiniXApi.ReadMiniXMonitor dev))
              (MiniXApi.value c) =? 0))%bool.

(** [send_command] passes a command on to the DLL: it is not
    [mxcDisabled], the controller application runs, and the command is
    enabled when that is checked ([mxcExit] is never checked). *)
Definition lets_through (dev : MiniXApi.device) (c : MiniXApi.MiniXCommands)
  (check_enabled : bool) : bool :=
  (negb (MiniXApi.is_disabled c)
   && MiniXApi.is_controller_running dev
   && (if (check_enabled && negb (MiniXApi.is_exit c))%bool
       then accepts dev c else true))%bool.

(** The four flags of the source controller. *)
Definition flags (m : MiniXController.state) : bool * bool * bool * bool :=
  (MiniXController._is_controller_app_running m,
   MiniXController.is_connected m,
   MiniXController.hv_on m,
   MiniXController._monitor_timer_active m).

(** The source controller's flags agree with each other: while the
    controller application is marked as not running, the hardware is
    marked as disconnected, HV as off, and the polling timer is
    stopped. *)
Definition coherent (m : MiniXController.state) : bool :=
  (MiniXController._is_controller_app_running m
   || (negb (MiniXController.is_connected m)
       && negb (MiniXController.hv_on m)
       && negb (MiniXController._monitor_timer_active m)))%bool.

(** The same of the controller together with its polling interval. *)
Definition steady (s : MiniXControllerIO.monitored) : bool :=
  coherent (MiniXControllerIO.controller s).

(** A computation that, started where [I] holds, ends where [I]
    holds, whether it returns or raises. *)
Definition upholds {S A} (I : S -> bool) (m : M S A) : Prop :=
  forall s, I s = true -> I (state_of (m s)) = true.

(** All channels are 32-bit signed values. *)
Definition int32_data (data : list Z) : bool :=
  forallb (fun z => (- 2 ^ 31 <=? z) && (z <? 2 ^ 31))%bool data.

(** The clean-up of [run] calls [DisableMCA]: the API offers it, the
    final status check does not show the MCA already disabled, and the
    call succeeds. *)
Definition cleanup_disables (api : DP5Api.caps)
  (ce : DP5AcquisitionWorker.cleanup_env) : bool :=
  (DP5Api.has_DisableMCA api
   && (if DP5AcquisitionWorker.status_funcs_ok api
       then match DP5AcquisitionWorker.final_GetDppStatus ce with
            | Ok st => negb (DP5Api.mca_enabled_flag st =? 0)
            | Raise _ => true
            end
       else true)
   && Schedule.succeeds (DP5AcquisitionWorker.DisableMCA_call ce))%bool.

(** The set-up of [run] ends with the acquisition started: the worker
    has its buffers and [setup] answers [True]. *)
Definition acquisition_starts (api : option DP5Api.caps)
  (se : DP5AcquisitionWorker.setup_env) (w : DP5AcquisitionWorker.state)
  : bool :=
  match api, DP5AcquisitionWorker._spectrum_buffer w,
        DP5AcquisitionWorker._status_buffer w with
  | Some a, Some _, Some _ =>
      match result_of (DP5AcquisitionWorker.setup a se
                         (DP5AcquisitionWorker.with_running true w)) with
      | Ok true => true
      | _ => false
      end
  | _, _, _ => false
  end.

(** [run] gets as far as calling [DisableMCA]. *)
Definition run_disables (api : option DP5Api.caps)
  (se : DP5AcquisitionWorker.setup_env)
  (polls : list DP5AcquisitionWorker.poll_env)
  (ce : DP5AcquisitionWorker.cleanup_env) (w : DP5AcquisitionWorker.state)
  : bool :=
  match api with
  | Some a =>
      (acquisition_starts api se w
       && existsb WorkerScript.ends_loop polls
       && cleanup_disables a ce)%bool
  | None => false
  end.

(** The manager reports a completed and saved acquisition. *)
Definition is_success (e : event) : bool :=
  match e with acquisition_finished true => true | _ => false end.

(** The manager's flag for a saved spectrum is down. *)
Definition unsaved (s : SingleAcquisitionManager.state) : bool :=
  negb (SingleAcquisitionManager._spectrum_saved_successfully s).

(** A computation that keeps [I] and whose trace has no more events of
    the kind [P] than of the kind [Q]. *)
Definition within {S A} (P Q : event -> bool) (I : S -> bool) (m : M S A)
  : Prop :=
  forall s, I s = true ->
    I (state_of (m s)) = true
    /\ (count P (trace_of (m s)) <= count Q (trace_of (m s)))%nat.

(** No event at all. *)
Definition no_event (_ : event) : bool := false.

(** A sequence manager whose source is switched per repetition. *)
Definition noncontinuous (s : SequenceManager.state) : bool :=
  negb (SequenceManager._minix_continuous s).

(** The two signals that end a run of the sequence manager. *)
Definition is_terminal (e : event) : bool :=
  (is_sequence_finished e || is_sequence_aborted e)%bool.

(** The manager is between two calls of its methods: no abort reason is
    pending ([_finalize] clears it). *)
Definition at_rest (s : SequenceManager.state) : bool :=
  negb (str_truthy (SequenceManager._error_reason s)).

(** The terminal signals a manager may still emit for its run: one
    while it is running, none afterwards. *)
Definition budget (s : SequenceManager.state) : nat :=
  if SequenceManager._running s then 1%nat else 0%nat.

(** The reasons that come with a stimulus are not empty: that of a
    stop request, and that of the slot behind [request_safe_hv_on] when
    it refuses. *)
Definition named_slot (slot : SequenceManager.hv_slot) : bool :=
  match slot with
  | SequenceManager.hv_refused reason => str_truthy reason
  | _ => true
  end.

Definition named (x : SequenceManager.stimulus) : bool :=
  match x with
  | SequenceManager.Start env _ _ _ _ =>
      named_slot (SequenceManager.hv_request env)
  | SequenceManager.Timer env => named_slot (SequenceManager.hv_request env)
  | SequenceManager.Stop _ reason => str_truthy reason
  | _ => true
  end.

(** A computation that keeps [I] and pays for every event of the kind
    [P] it emits out of the budget [b] of the state. *)
Definition spends {S A} (P : event -> bool) (I : S -> bool) (b : S -> nat)
  (m : M S A) : Prop :=
  forall s, I s = true ->
    I (state_of (m s)) = true
    /\ (count P (trace_of (m s)) + b (state_of (m s)) <= b s)%nat.

(* --------------------------------------------------------------------- *)
(** ** Further concrete devices and answers, for the examples             *)
(* --------------------------------------------------------------------- *)

Module Cases.
Import Scenario.

(** A worker that is to send a configuration file first. *)
Definition worker_with_config : DP5AcquisitionWorker.state :=
  fst (DP5AcquisitionWorker.init (Some full_caps)
         (Ok (mk_spec [] 0, status_with 0)) (Some "C:\cfg\dp5.txt")
         (Some 10)).

(** Set-up answers when that file does not exist. *)
Definition setup_no_file : DP5AcquisitionWorker.setup_env :=
  DP5AcquisitionWorker.mk_setup (Ok false) (Ok 1) (Ok true) (Ok tt).

(** A pass before which the controller's [stop()] has landed. *)
Definition poll_stopped : DP5AcquisitionWorker.poll_env :=
  DP5AcquisitionWorker.mk_poll true (Ok (status_with 32))
    (Ok (mk_spec [5; 7; 9] 3, status_with 32)).

(** Set-up answers when the device refuses the preset command. *)
Definition setup_pret_refused : DP5AcquisitionWorker.setup_env :=
  DP5AcquisitionWorker.mk_setup (Ok true) (Ok 1) (Ok false) (Ok tt).

(** A [Spec] as the DLL fills it in: the fixed array of
    [MAX_BUFFER_DATA] channels, of which the first three are live. *)
Definition spec_three : Spec :=
  mk_spec (5 :: 7 :: 9 :: repeat 0 (Z.to_nat (MAX_BUFFER_DATA - 3))) 3.

(** [SendCommandString] loaded and answering 1. *)
Definition send_ok : DP5ApiHelpers.send_env :=
  DP5ApiHelpers.mk_send true (Ok 1).

(** A connected spectrometer controller that has cached a spectrum of
    three channels. *)
Definition dp5_with_spectrum : DP5Controller.state :=
  DP5Controller.mk (Base.mk (Some full_caps) true "") false None None None
    (Some [5; 7; 9]) None [] 0.

(** Answers of the DLL while the spectrometer is connected,
    configured, cleared and disconnected without a failure. *)
Definition connect_ok : DP5ControllerIO.connect_env :=
  DP5ControllerIO.mk_connect (Ok tt) (Ok 1) (Ok (status_with 0)).
Definition disconnect_ok : DP5ControllerIO.disconnect_env :=
  DP5ControllerIO.mk_disconnect true (Ok tt).
Definition config_ok : DP5ControllerIO.config_env :=
  DP5ControllerIO.mk_config true (Ok 1) (Ok (status_with 0)).
Definition clear_ok : DP5ControllerIO.clear_env :=
  DP5ControllerIO.mk_clear (Ok tt) (Ok (status_with 0)).

(** The spectrometer controller as [__init__] leaves it, with the API
    loaded. *)
Definition dp5_fresh : DP5Controller.state :=
  DP5Controller.mk (Base.mk (Some full_caps) false "") false None None None
    None None [] 0.

(** The source's controller application does not run. *)
Definition source_gone : MiniXApi.device :=
  MiniXApi.mk_device 0 (mk_monitor 0 0 0 0 1 1 31 13 0 1).

(** The source reports that HV is off. *)
Definition source_hv_off : MiniXApi.device :=
  MiniXApi.mk_device 1 (mk_monitor 0 0 0 0 1 1 31 13 0 0).

(** A sequence manager in its first of two repetitions, with the
    source switched per repetition and a spectrum cached by the
    spectrometer controller. *)
Definition seq_switching : SequenceManager.state :=
  SequenceManager.mk (Some minix_hv_on) (Some dp5_with_spectrum) true ""
    1 2 10 false "C:\data" 5000.

End Cases.

(** A positive preset time was asked of the worker. *)
Definition timed (w : DP5AcquisitionWorker.state) : bool :=
  match DP5AcquisitionWorker._preset_time w with
  | Some t => 0 <? t
  | None => false
  end.
(* ===================================================================== *)
(** * Part II: properties                                                 *)
(* ===================================================================== *)

(** ** Reasoning about computations *)

Ltac mred :=
  cbv beta iota zeta delta
    [bind ret raise get put modify emit try_except call when zoom
     result_of state_of trace_of any_exception];
  cbn [app fst snd negb andb orb Z.eqb Pos.eqb].

Ltac mred_in H :=
  cbv beta iota zeta delta
    [bind ret raise get put modify emit try_except call when zoom
     result_of state_of trace_of any_exception] in H;
  cbn [app fst snd negb andb orb Z.eqb Pos.eqb] in H.

Lemma count_app (P : event -> bool) (a b : trace) :
  count P (a ++ b)%list = (count P a + count P b)%nat.
Proof. unfold count. rewrite filter_app, length_app. reflexivity. Qed.

Lemma count_cons (P : event -> bool) (e : event) (t : trace) :
  count P (e :: t) = ((if P e then 1 else 0) + count P t)%nat.
Proof. unfold count. cbn. destruct (P e); reflexivity. Qed.

Lemma count_nil (P : event -> bool) : count P [] = 0%nat.
Proof. reflexivity. Qed.

Lemma count_zero_not_in (P : event -> bool) (t : trace) (e : event) :
  count P t = 0%nat -> P e = true -> ~ In e t.
Proof.
  induction t as [|x t IH]; intros Hc He Hin; [exact Hin|].
  rewrite count_cons in Hc. destruct Hin as [->|Hin].
  - rewrite He in Hc. discriminate.
  - apply IH; auto. destruct (P x); [discriminate | exact Hc].
Qed.

Section Silent.
Context {S : Type} (P : event -> bool).

Lemma silent_ret {A} (a : A) : silent P (ret (S:=S) a).
Proof. intro s. reflexivity. Qed.

Lemma silent_raise {A} (e : exn) : silent P (raise (S:=S) (A:=A) e).
Proof. intro s. reflexivity. Qed.

Lemma silent_get : silent P (get (S:=S)).
Proof. intro s. reflexivity. Qed.

Lemma silent_modify (f : S -> S) : silent P (modify f).
Proof. intro s. reflexivity. Qed.

Lemma silent_call {A} (r : result A) : silent P (call (S:=S) r).
Proof. intro s. destruct r; reflexivity. Qed.

Lemma silent_emit (e : event) : P e = false -> silent P (emit (S:=S) e).
Proof. intros H s. unfold emit, trace_of. cbn [snd]. rewrite count_cons, H. reflexivity. Qed.

Lemma silent_bind {A B} (m : M S A) (f : A -> M S B) :
  silent P m -> (forall a, silent P (f a)) -> silent P (bind m f).
Proof.
  intros Hm Hf s. specialize (Hm s). unfold bind, trace_of in *.
  destruct (m s) as [[[a|e] s1] t1]; cbn [fst snd] in *.
  - specialize (Hf a s1). unfold trace_of in Hf.
    destruct (f a s1) as [[r s2] t2]; cbn [fst snd] in *.
    rewrite count_app, Hm, Hf. reflexivity.
  - exact Hm.
Qed.

Lemma silent_try_except {A} (m : M S A) sel (h : exn -> M S A) :
  silent P m -> (forall e, silent P (h e)) -> silent P (try_except m sel h).
Proof.
  intros Hm Hh s. specialize (Hm s). unfold try_except, trace_of in *.
  destruct (m s) as [[[a|e] s1] t1]; cbn [fst snd] in *; [exact Hm|].
  destruct (sel e); [|exact Hm].
  specialize (Hh e s1). unfold trace_of in Hh.
  destruct (h e s1) as [[r s2] t2]; cbn [fst snd] in *.
  rewrite count_app, Hm, Hh. reflexivity.
Qed.

Lemma silent_when (c : bool) (m : M S unit) :
  silent P m -> silent P (when c m).
Proof. intros H. destruct c; [exact H | apply silent_ret]. Qed.

Lemma silent_zoom {T A} (proj : S -> T) (upd : T -> S -> S) (m : M T A) :
  silent P m -> silent P (zoom proj upd m).
Proof.
  intros H s. specialize (H (proj s)). unfold zoom, trace_of in *.
  destruct (m (proj s)) as [[r t'] tr]. exact H.
Qed.

Lemma deliver_count (slot : bool -> M S unit) :
  (forall b, silent P (slot b)) ->
  forall tr s, count P (snd (deliver slot tr s)) = count P tr.
Proof.
  intros Hs. induction tr as [|e tr IH]; intro s; [reflexivity|].
  cbn [deliver].
  destruct e; cbn [fst snd];
    try (specialize (IH s); destruct (deliver slot tr s) as [s2 t2];
         cbn [snd app] in *; rewrite !count_cons, IH; reflexivity).
  pose proof (Hs b s) as Hb.
  specialize (IH (state_of (slot b s))).
  destruct (deliver slot tr (state_of (slot b s))) as [s2 t2].
  cbn [snd] in *. rewrite count_cons, count_app, Hb, IH, count_cons.
  reflexivity.
Qed.

Lemma silent_method_call {C A} (proj : S -> option C) (upd : C -> S -> S)
  (slot : bool -> M S unit) (m : M C A) :
  silent P m -> (forall b, silent P (slot b)) ->
  silent P (method_call proj upd slot m).
Proof.
  intros Hm Hs s. unfold method_call, trace_of.
  destruct (proj s) as [c|]; [|reflexivity].
  specialize (Hm c). unfold trace_of in Hm.
  destruct (m c) as [[r c'] tr]. cbn [snd] in Hm.
  pose proof (@deliver_count slot Hs tr (upd c' s)) as Hd.
  destruct (deliver slot tr (upd c' s)) as [s' tr']. cbn [snd] in *.
  rewrite Hd. exact Hm.
Qed.

End Silent.

(** Decides [silent] goals on the structure of the computation. *)
Ltac silent_step :=
  match goal with
  | |- silent _ (bind _ _) => apply silent_bind; [|intro]
  | |- silent _ (ret _) => apply silent_ret
  | |- silent _ (raise _) => apply silent_raise
  | |- silent _ get => apply silent_get
  | |- silent _ (modify _) => apply silent_modify
  | |- silent _ (call _) => apply silent_call
  | |- silent _ (emit _) => apply silent_emit; reflexivity
  | |- silent _ (try_except _ _ _) => apply silent_try_except; [|intro]
  | |- silent _ (when _ _) => apply silent_when
  | |- silent _ (zoom _ _ _) => apply silent_zoom
  | |- silent _ (method_call _ _ _ _) => apply silent_method_call; [|intro]
  | |- silent _ (no_slot _) => apply silent_ret
  | |- silent _ (if ?c then _ else _) => destruct c
  | |- silent _ (match ?x with _ => _ end) => destruct x
  | |- silent _ (let _ := _ in _) => cbv zeta
  end.

Ltac silent_tac := repeat silent_step.

Section Keeps.
Context {S X : Type} (f : S -> X).

Lemma keeps_ret {A} (a : A) : keeps f (ret (S:=S) a).
Proof. intro s. reflexivity. Qed.

Lemma keeps_raise {A} (e : exn) : keeps f (raise (S:=S) (A:=A) e).
Proof. intro s. reflexivity. Qed.

Lemma keeps_get : keeps f (get (S:=S)).
Proof. intro s. reflexivity. Qed.

Lemma keeps_emit (e : event) : keeps f (emit (S:=S) e).
Proof. intro s. reflexivity. Qed.

Lemma keeps_call {A} (r : result A) : keeps f (call (S:=S) r).
Proof. intro s. destruct r; reflexivity. Qed.

Lemma keeps_modify (g : S -> S) :
  (forall s, f (g s) = f s) -> keeps f (modify g).
Proof. intros H s. apply H. Qed.

Lemma keeps_bind {A B} (m : M S A) (k : A -> M S B) :
  keeps f m -> (forall a, keeps f (k a)) -> keeps f (bind m k).
Proof.
  intros Hm Hk s. specialize (Hm s). unfold bind, state_of in *.
  destruct (m s) as [[[a|e] s1] t1]; cbn [fst snd] in *; [|exact Hm].
  specialize (Hk a s1). unfold state_of in Hk.
  destruct (k a s1) as [[r s2] t2]; cbn [fst snd] in *. congruence.
Qed.

Lemma keeps_try_except {A} (m : M S A) sel (h : exn -> M S A) :
  keeps f m -> (forall e, keeps f (h e)) -> keeps f (try_except m sel h).
Proof.
  intros Hm Hh s. specialize (Hm s). unfold try_except, state_of in *.
  destruct (m s) as [[[a|e] s1] t1]; cbn [fst snd] in *; [exact Hm|].
  destruct (sel e); [|exact Hm].
  specialize (Hh e s1). unfold state_of in Hh.
  destruct (h e s1) as [[r s2] t2]; cbn [fst snd] in *. congruence.
Qed.

Lemma keeps_when (c : bool) (m : M S unit) : keeps f m -> keeps f (when c m).
Proof. intros H. destruct c; [exact H | apply keeps_ret]. Qed.

End Keeps.

Lemma keeps_zoom {S T X A} (f : S -> X) (proj : S -> T) (upd : T -> S -> S)
  (m : M T A) :
  (forall t s, f (upd t s) = f s) -> keeps f (zoom proj upd m).
Proof.
  intros H s. unfold zoom, state_of.
  destruct (m (proj s)) as [[r t'] tr]. cbn [fst snd]. apply H.
Qed.

Lemma deliver_keeps {S X} (f : S -> X) (slot : bool -> M S unit) :
  (forall b, keeps f (slot b)) ->
  forall tr s, f (fst (deliver slot tr s)) = f s.
Proof.
  intros Hs. induction tr as [|e tr IH]; intro s; [reflexivity|].
  cbn [deliver].
  destruct e;
    try (specialize (IH s); destruct (deliver slot tr s) as [s2 t2];
         exact IH).
  specialize (IH (state_of (slot b s))).
  destruct (deliver slot tr (state_of (slot b s))) as [s2 t2].
  cbn [fst] in *. rewrite IH. apply Hs.
Qed.

Lemma keeps_method_call {S C X A} (f : S -> X) (proj : S -> option C)
  (upd : C -> S -> S) (slot : bool -> M S unit) (m : M C A) :
  (forall c s, f (upd c s) = f s) ->
  (forall b, keeps f (slot b)) ->
  keeps f (method_call proj upd slot m).
Proof.
  intros Hu Hs s. unfold method_call, state_of.
  destruct (proj s) as [c|]; [|reflexivity].
  destruct (m c) as [[r c'] tr].
  pose proof (@deliver_keeps S X f slot Hs tr (upd c' s)) as Hd.
  destruct (deliver slot tr (upd c' s)) as [s' tr']. cbn [fst snd] in *.
  rewrite Hd. apply Hu.
Qed.


Ltac keeps_step :=
  match goal with
  | |- keeps _ (bind _ _) => apply keeps_bind; [|intro]
  | |- keeps _ (ret _) => apply keeps_ret
  | |- keeps _ (raise _) => apply keeps_raise
  | |- keeps _ get => apply keeps_get
  | |- keeps _ (emit _) => apply keeps_emit
  | |- keeps _ (call _) => apply keeps_call
  | |- keeps _ (modify _) => apply keeps_modify; intro; reflexivity
  | |- keeps _ (try_except _ _ _) => apply keeps_try_except; [|intro]
  | |- keeps _ (when _ _) => apply keeps_when
  | |- keeps _ (zoom _ _ _) => apply keeps_zoom; intros; reflexivity
  | |- keeps _ (method_call _ _ _ _) =>
      apply keeps_method_call; [intros; reflexivity | intro]
  | |- keeps _ (no_slot _) => apply keeps_ret
  | |- keeps _ (if ?c then _ else _) => destruct c
  | |- keeps _ (match ?x with _ => _ end) => destruct x
  | |- keeps _ (let _ := _ in _) => cbv zeta
  end.

Ltac keeps_tac := repeat keeps_step.

Section Total.
Context {S : Type}.

Lemma total_ret {A} (a : A) : total (ret (S:=S) a).
Proof. intro s. exists a. reflexivity. Qed.

Lemma total_get : total (get (S:=S)).
Proof. intro s. exists s. reflexivity. Qed.

Lemma total_modify (g : S -> S) : total (modify g).
Proof. intro s. exists tt. reflexivity. Qed.

Lemma total_emit (e : event) : total (emit (S:=S) e).
Proof. intro s. exists tt. reflexivity. Qed.

Lemma total_bind {A B} (m : M S A) (k : A -> M S B) :
  total m -> (forall a, total (k a)) -> total (bind m k).
Proof.
  intros Hm Hk s. destruct (Hm s) as [a Ha]. unfold bind, result_of in *.
  destruct (m s) as [[r s1] t1]; cbn [fst] in *. subst r.
  destruct (Hk a s1) as [b Hb]. unfold result_of in Hb.
  destruct (k a s1) as [[r s2] t2]; cbn [fst] in *. eauto.
Qed.

Lemma total_try_all {A} (m : M S A) (h : exn -> M S A) :
  (forall e, total (h e)) -> total (try_except m any_exception h).
Proof.
  intros Hh s. unfold try_except, result_of, any_exception.
  destruct (m s) as [[[a|e] s1] t1]; cbn [fst]; [eauto|].
  destruct (Hh e s1) as [b Hb]. unfold result_of in Hb.
  destruct (h e s1) as [[r s2] t2]; cbn [fst] in *. eauto.
Qed.

Lemma total_when (c : bool) (m : M S unit) : total m -> total (when c m).
Proof. intros H. destruct c; [exact H | apply total_ret]. Qed.

Lemma total_zoom {T A} (proj : S -> T) (upd : T -> S -> S) (m : M T A) :
  total m -> total (zoom proj upd m).
Proof.
  intros H s. destruct (H (proj s)) as [a Ha]. unfold zoom, result_of in *.
  destruct (m (proj s)) as [[r t'] tr]. cbn [fst] in *. eauto.
Qed.

End Total.

Ltac total_step :=
  match goal with
  | |- total (bind _ _) => apply total_bind; [|intro]
  | |- total (ret _) => apply total_ret
  | |- total get => apply total_get
  | |- total (emit _) => apply total_emit
  | |- total (modify _) => apply total_modify
  | |- total (try_except _ any_exception _) => apply total_try_all; intro
  | |- total (when _ _) => apply total_when
  | |- total (zoom _ _ _) => apply total_zoom
  | |- total (if ?c then _ else _) => destruct c
  | |- total (match ?x with _ => _ end) => destruct x
  | |- total (let _ := _ in _) => cbv zeta
  end.

Ltac total_tac := repeat total_step.

(** What a computation's answer is, given its whole outcome. *)
Lemma outcome_eta {S A} (x : result A * S * trace) :
  x = (result_of x, state_of x, trace_of x).
Proof. destruct x as [[r s] t]. reflexivity. Qed.

(* --------------------------------------------------------------------- *)
(** ** The state-change signals (C9)                                      *)
(* --------------------------------------------------------------------- *)

Lemma set_connected_spec {Api} (d : device_id) (b : bool) (s : Base.state Api) :
  trace_of (Base._set_connected d b s)
  = (if Bool.eqb (Base._is_connected s) b then []
     else [connection_changed d b])
  /\ Base._is_connected (state_of (Base._set_connected d b s)) = b.
Proof.
  unfold Base._set_connected. mred.
  destruct (Base._is_connected s) eqn:E, b; cbn; rewrite ?E; auto.
Qed.

Lemma set_acquiring_spec (b : bool) (s : DP5Controller.state) :
  trace_of (DP5Controller._set_acquiring b s)
  = (if Bool.eqb (DP5Controller._is_acquiring s) b then []
     else [acquisition_state_changed b])
  /\ DP5Controller._is_acquiring (state_of (DP5Controller._set_acquiring b s))
     = b.
Proof.
  unfold DP5Controller._set_acquiring. mred.
  destruct (DP5Controller._is_acquiring s) eqn:E, b; cbn; rewrite ?E; auto.
Qed.

Lemma set_hv_on_spec (z : Z) (s : MiniXController.state) :
  trace_of (MiniXController._set_hv_on z s)
  = (if Bool.eqb (MiniXController._hv_on s) (negb (z =? 0)) then []
     else [hv_state_changed (negb (z =? 0))])
  /\ MiniXController._hv_on (state_of (MiniXController._set_hv_on z s))
     = negb (z =? 0).
Proof.
  unfold MiniXController._set_hv_on. mred.
  destruct (MiniXController._hv_on s) eqn:E, (z =? 0); cbn; rewrite ?E; auto.
Qed.

Lemma edge_facts (sig : bool -> event) (stored b : bool) (tr : trace) :
  (forall u v, sig u = sig v -> u = v) ->
  tr = (if Bool.eqb stored b then [] else [sig b]) ->
  (stored = b -> tr = [])
  /\ (forall v, In (sig v) tr -> v = b /\ v = negb stored)
  /\ (stored <> b -> tr = [sig b]).
Proof.
  intros Hinj ->. split; [|split].
  - intros ->. rewrite Bool.eqb_reflx. reflexivity.
  - intros v Hin. destruct stored, b; cbn in Hin;
      try contradiction; destruct Hin as [Hv|[]];
      apply Hinj in Hv; subst v; auto.
  - intros Hne. destruct stored, b; cbn; congruence.
Qed.

(** C9. The three boolean state-change signals are edge-triggered.
    [_set_connected], [_set_acquiring] and [_set_hv_on] are the only
    places that emit [connection_changed], [acquisition_state_changed]
    and [hv_state_changed]. Each of them emits nothing when asked for
    the value already stored, and otherwise emits the signal once, with
    the new value, which is the negation of the value stored before;
    the stored value is the requested one afterwards. *)
Theorem C9_state_signals_are_edge_triggered :
  (forall Api (d : device_id) (b : bool) (s : Base.state Api),
      let x := Base._set_connected d b s in
      (Base._is_connected s = b -> trace_of x = [])
      /\ (forall v, In (connection_changed d v) (trace_of x) ->
                    v = b /\ v = negb (Base._is_connected s))
      /\ (Base._is_connected s <> b ->
          trace_of x = [connection_changed d b])
      /\ Base._is_connected (state_of x) = b)
  /\ (forall (b : bool) (s : DP5Controller.state),
      let x := DP5Controller._set_acquiring b s in
      (DP5Controller._is_acquiring s = b -> trace_of x = [])
      /\ (forall v, In (acquisition_state_changed v) (trace_of x) ->
                    v = b /\ v = negb (DP5Controller._is_acquiring s))
      /\ (DP5Controller._is_acquiring s <> b ->
          trace_of x = [acquisition_state_changed b])
      /\ DP5Controller._is_acquiring (state_of x) = b)
  /\ (forall (hv_state : Z) (s : MiniXController.state),
      let b := negb (hv_state =? 0) in
      let x := MiniXController._set_hv_on hv_state s in
      (MiniXController._hv_on s = b -> trace_of x = [])
      /\ (forall v, In (hv_state_changed v) (trace_of x) ->
                    v = b /\ v = negb (MiniXController._hv_on s))
      /\ (MiniXController._hv_on s <> b ->
          trace_of x = [hv_state_changed b])
      /\ MiniXController._hv_on (state_of x) = b).
Proof.
  split; [|split].
  - intros Api d b s x. subst x.
    destruct (set_connected_spec d b s) as [Ht Hs].
    destruct (edge_facts (connection_changed d) (Base._is_connected s) b
                (tr := trace_of (Base._set_connected d b s)))
      as (H1 & H2 & H3); auto.
    intros u v H; inversion H; reflexivity.
  - intros b s x. subst x.
    destruct (set_acquiring_spec b s) as [Ht Hs].
    destruct (edge_facts acquisition_state_changed
                (DP5Controller._is_acquiring s) b
                (tr := trace_of (DP5Controller._set_acquiring b s)))
      as (H1 & H2 & H3); auto.
    intros u v H; inversion H; reflexivity.
  - intros z s b x. subst x b.
    destruct (set_hv_on_spec z s) as [Ht Hs].
    destruct (edge_facts hv_state_changed (MiniXController._hv_on s)
                (negb (z =? 0))
                (tr := trace_of (MiniXController._set_hv_on z s)))
      as (H1 & H2 & H3); auto.
    intros u v H; inversion H; reflexivity.
Qed.

(** A use of C9: asking for the opposite of the stored connection state
    emits the signal, asking again emits nothing. *)
Lemma C9_witness :
  trace_of (Base._set_connected DP5 true (Base.mk (Some tt) false ""))
  = [connection_changed DP5 true]
  /\ trace_of (Base._set_connected DP5 true
                 (state_of (Base._set_connected DP5 true
                              (Base.mk (Some tt) false "")))) = [].
Proof.
  pose proof C9_state_signals_are_edge_triggered as [H _].
  split.
  - apply (H unit DP5 true (Base.mk (Some tt) false "")). cbn. discriminate.
  - apply (H unit DP5 true
             (state_of (Base._set_connected DP5 true
                          (Base.mk (Some tt) false "")))).
    reflexivity.
Defined.

(* --------------------------------------------------------------------- *)
(** ** The acquisition worker (C3, C4, C10)                               *)
(* --------------------------------------------------------------------- *)

Module WorkerFacts.
Import DP5Api DP5AcquisitionWorker WorkerScript.

Lemma stop_eq (w : state) :
  stop w = (Ok tt, with_running false w,
            if _running w then [message "Stop requested."] else []).
Proof. unfold stop. mred. destruct (_running w); reflexivity. Qed.

Lemma send_config_silent api se : silent is_finished (send_config api se).
Proof. unfold send_config, encode_ascii. silent_tac. Qed.

Lemma send_pret_silent api se : silent is_finished (send_pret api se).
Proof. unfold send_pret. silent_tac. Qed.

Lemma enable_mca_silent api se c : silent is_finished (enable_mca api se c).
Proof. unfold enable_mca. silent_tac. Qed.

Lemma setup_silent api se : silent is_finished (setup api se).
Proof.
  unfold setup. silent_tac;
    auto using send_config_silent, send_pret_silent, enable_mca_silent.
Qed.

Lemma setup_keeps_running api se : keeps _running (setup api se).
Proof.
  unfold setup, send_config, send_pret, enable_mca, encode_ascii. keeps_tac.
Qed.

Lemma setup_keeps_buffers api se :
  keeps (fun w => (_spectrum_buffer w, _status_buffer w)) (setup api se).
Proof.
  unfold setup, send_config, send_pret, enable_mca, encode_ascii. keeps_tac.
Qed.

(** One pass of the loop never raises and never emits [finished]; from a
    running worker it ends the loop exactly when [iter_ends] says so. *)
Lemma iteration_spec (p : poll_env) (w : state) :
  exists b w' tr,
    iteration p w = (Ok b, w', tr)
    /\ count is_finished tr = 0%nat
    /\ (b || negb (_running w'))%bool
       = (iter_ends p || negb (_running w))%bool.
Proof.
  unfold iteration, fetch_and_publish, iter_ends. mred.
  destruct (GetDppStatus p) as [st|e]; mred.
  - destruct (mca_enabled_flag st =? 0); mred.
    + destruct (RequestSpectrumData p) as [[sp st']|e']; mred.
      * destruct ((0 <? CHANNELS sp) && (CHANNELS sp <=? MAX_BUFFER_DATA))%bool;
          mred; do 3 eexists; repeat split; reflexivity.
      * do 3 eexists; repeat split; reflexivity.
    + destruct (RequestSpectrumData p) as [[sp st']|e']; mred.
      * destruct ((0 <? CHANNELS sp) && (CHANNELS sp <=? MAX_BUFFER_DATA))%bool;
          mred; do 3 eexists; repeat split; reflexivity.
      * destruct (is_class AttributeError e'); mred;
          do 3 eexists; repeat split; reflexivity.
  - destruct (is_class AttributeError e); mred;
      do 3 eexists; repeat split; reflexivity.
Qed.

(** The loop never raises and never emits [finished]; it has exited
    exactly when it was not entered or some pass ended it. *)
Lemma poll_loop_spec (acq : bool) (polls : list poll_env) :
  forall w, exists w' tr,
    poll_loop acq polls w
    = (Ok (negb (_running w && acq) || existsb ends_loop polls)%bool, w', tr)
    /\ count is_finished tr = 0%nat.
Proof.
  induction polls as [|p rest IH]; intro w.
  - cbn [poll_loop existsb]. mred. rewrite orb_false_r. eauto.
  - cbn [poll_loop existsb]. unfold ends_loop at 1.
    unfold bind at 1. unfold when.
    destruct (stop_called p) eqn:Hstop.
    + rewrite stop_eq. mred. cbn [_running with_running andb].
      rewrite orb_true_r. do 2 eexists. split; [reflexivity|].
      destruct (_running w); reflexivity.
    + mred. destruct (_running w) eqn:Hr; cbn [andb negb orb].
      * destruct acq; cbn [negb orb].
        -- destruct (iteration_spec p w) as (b & w1 & t1 & Hit & Hc & Hb).
           rewrite Hit. rewrite Hr in Hb. cbn [negb] in Hb.
           rewrite orb_false_r in Hb.
           destruct b.
           ++ cbn [orb] in Hb. rewrite <- Hb. cbn [orb].
              do 2 eexists. split; [reflexivity|]. rewrite app_nil_r. exact Hc.
           ++ cbn [orb] in Hb.
              destruct (IH w1) as (w2 & t2 & Hl & Hc2). rewrite Hl.
              rewrite <- Hb, andb_true_r.
              do 2 eexists. split; [reflexivity|].
              rewrite count_app, Hc, Hc2. reflexivity.
        -- do 2 eexists. split; reflexivity.
      * do 2 eexists. split; reflexivity.
Qed.

(** The [finally] block never raises, emits [finished] once, as its
    last event, and publishes no spectrum. *)
Lemma cleanup_spec (api : caps) (acq : bool) (ce : cleanup_env) (w : state) :
  exists pre,
    cleanup api acq ce w = (Ok tt, with_running false w, (pre ++ [finished])%list)
    /\ count is_finished pre = 0%nat
    /\ count is_spectrum_ready pre = 0%nat.
Proof.
  unfold cleanup. mred.
  destruct (acq && has_DisableMCA api)%bool; mred;
    [destruct (status_funcs_ok api); mred;
     [destruct (final_GetDppStatus ce) as [st|e]; mred;
      [destruct (mca_enabled_flag st =? 0); mred|]|];
     try (destruct (DisableMCA_call ce) as [[]|e']; mred)|];
    lazymatch goal with
    | |- exists pre, (_, _, ?t) = _ /\ _ =>
        exists (removelast t); cbn [removelast]; repeat split; reflexivity
    end.
Qed.

(** C10. A [stop()] that comes before [run] starts is lost. Whatever
    the state of the worker, [run] after [stop] returns the same answer
    and emits the same events as [run] alone, because [run] sets the
    liveness flag itself once its entry checks pass. On a worker that
    has not run yet (as [__init__] leaves it), [stop] emits nothing and
    changes nothing, so [stop] then [run] is [run]. *)
Theorem C10_stop_before_run_has_no_effect :
  (forall api se polls ce (w : state),
      result_of (run api se polls ce (state_of (stop w)))
      = result_of (run api se polls ce w)
      /\ trace_of (run api se polls ce (state_of (stop w)))
         = trace_of (run api se polls ce w))
  /\ (forall api alloc cfg pt,
      let w0 := fst (init api alloc cfg pt) in
      stop w0 = (Ok tt, w0, [])
      /\ forall se polls ce,
          run api se polls ce (state_of (stop w0)) = run api se polls ce w0).
Proof.
  assert (Hrun : forall api se polls ce w,
             result_of (run api se polls ce (with_running false w))
             = result_of (run api se polls ce w)
             /\ trace_of (run api se polls ce (with_running false w))
                = trace_of (run api se polls ce w)).
  { intros api se polls ce w. unfold run.
    destruct api as [a|]; [|split; reflexivity].
    cbv beta iota delta [bind get].
    cbn [_spectrum_buffer _status_buffer with_running].
    destruct (_spectrum_buffer w), (_status_buffer w); split; reflexivity. }
  split.
  - intros api se polls ce w. rewrite stop_eq. apply Hrun.
  - intros api alloc cfg pt w0.
    assert (Hw : with_running false w0 = w0).
    { subst w0. unfold init.
      destruct api; [destruct alloc as [[sp st]|e];
                     [|destruct (is_class AttributeError e)]|];
        reflexivity. }
    assert (Hr : _running w0 = false).
    { rewrite <- Hw. reflexivity. }
    split.
    + rewrite stop_eq, Hw, Hr. reflexivity.
    + intros se polls ce. rewrite stop_eq. unfold state_of. cbn [fst snd].
      rewrite Hw. reflexivity.
Qed.

(** The outcome of [run], path by path. *)
Lemma run_spec api se polls ce (w : state) :
  exists w' tr,
    run api se polls ce w = (Ok (run_returns api se polls w), w', tr)
    /\ count is_finished tr
       = (if run_returns api se polls w then 1 else 0)%nat
    /\ (run_returns api se polls w = true ->
        exists pre, tr = (pre ++ [finished])%list).
Proof.
  unfold run, run_returns.
  destruct api as [a|]; cycle 1.
  { mred. do 2 eexists. split; [reflexivity | split; [reflexivity|]].
    intros _.
    exists [error "DP5 API not loaded. Cannot start worker."]. reflexivity. }
  unfold bind at 1. unfold get.
  destruct (_spectrum_buffer w) as [sb|] eqn:Hsb;
    [destruct (_status_buffer w) as [tb|] eqn:Htb|];
    try (mred; do 2 eexists;
         split; [reflexivity | split; [reflexivity|]]; intros _;
         exists [error "DP5 API buffers not allocated. Cannot start worker."];
         reflexivity).
  unfold bind at 1. unfold modify at 1.
  set (w1 := with_running true w).
  pose proof (setup_silent a se w1) as Hsil.
  pose proof (setup_keeps_running a se w1) as Hkeep.
  unfold bind at 1. unfold try_except at 1. unfold bind at 1.
  unfold result_of, state_of, trace_of in *.
  destruct (setup a se w1) as [[[acq|e] w2] t2]; cbn [fst snd] in *.
  - destruct (poll_loop_spec acq polls w2) as (w3 & t3 & Hl & Hc3).
    unfold bind at 1. rewrite Hl. rewrite Hkeep.
    cbn [_running w1 with_running andb].
    unfold ret at 1. cbn [fst snd].
    destruct acq; cbn [negb orb].
    + destruct (existsb ends_loop polls) eqn:Hex.
      * destruct (cleanup_spec a true ce w3) as (pre & Hcl & Hp & _).
        unfold bind at 1. rewrite Hcl. mred.
        do 2 eexists. split; [reflexivity | split].
        -- rewrite ?app_nil_r, ?app_nil_l, !count_app, Hsil, Hc3, Hp.
           reflexivity.
        -- intros _. exists ((t2 ++ t3) ++ pre)%list.
           rewrite ?app_nil_r, ?app_nil_l, !app_assoc. reflexivity.
      * mred. do 2 eexists. split; [reflexivity | split; [|discriminate]].
        rewrite ?app_nil_r, ?app_nil_l, !count_app, Hsil, Hc3. reflexivity.
    + destruct (cleanup_spec a false ce w3) as (pre & Hcl & Hp & _).
      unfold bind at 1. rewrite Hcl. mred.
      do 2 eexists. split; [reflexivity | split].
      * rewrite ?app_nil_r, ?app_nil_l, !count_app, Hsil, Hc3, Hp.
        reflexivity.
      * intros _. exists ((t2 ++ t3) ++ pre)%list.
        rewrite ?app_nil_r, ?app_nil_l, !app_assoc. reflexivity.
  - cbn [any_exception]. unfold bind at 1. unfold emit at 1. unfold ret at 1.
    cbn [fst snd app].
    destruct (cleanup_spec a false ce w2) as (pre & Hcl & Hp & _).
    unfold bind at 1. rewrite Hcl. mred.
    do 2 eexists. split; [reflexivity | split].
    + rewrite ?app_nil_r, ?app_nil_l, !count_app, Hsil, Hp. reflexivity.
    + intros _.
      exists ((t2 ++ [error ("DP5 Acquisition setup error: " ++ exn_msg e)])
                ++ pre)%list.
      rewrite ?app_nil_r, ?app_nil_l, !app_assoc. reflexivity.
Qed.

(** C3. Every execution of [run] emits [finished] exactly once, as its
    last event, on every path: the API is not loaded; a buffer is
    missing (then the trace is one error and [finished], nothing else);
    set-up fails; the loop ends by the hardware flag, by [stop()] or by
    an [AttributeError]; an exception reaches the outer handler. [run]
    never raises. [run_returns] tells whether [run] returns on the given
    answers of the outside world: it does unless acquisition started
    and no poll pass ever ends the loop, in which case [run] is still
    polling and has emitted no [finished] yet. *)
Theorem C3_run_emits_finished_exactly_once :
  forall api se polls ce (w : state),
    let x := run api se polls ce w in
    result_of x = Ok (run_returns api se polls w)
    /\ count is_finished (trace_of x)
       = (if run_returns api se polls w then 1 else 0)%nat
    /\ (run_returns api se polls w = true ->
        exists pre, trace_of x = (pre ++ [finished])%list
                    /\ count is_finished pre = 0%nat)
    /\ (api = None ->
        x = (Ok true, w,
             [error "DP5 API not loaded. Cannot start worker."; finished]))
    /\ (forall a, api = Some a ->
        _spectrum_buffer w = None \/ _status_buffer w = None ->
        x = (Ok true, w,
             [error "DP5 API buffers not allocated. Cannot start worker.";
              finished]))
    /\ (forall a, api = Some a ->
        result_of (setup a se (with_running true w)) <> Ok true ->
        run_returns api se polls w = true)
    /\ (existsb ends_loop polls = true -> run_returns api se polls w = true).
Proof.
  intros api se polls ce w x.
  destruct (run_spec api se polls ce w) as (w' & tr & Hx & Hc & Hl).
  subst x. rewrite Hx. unfold result_of, trace_of. cbn [fst snd].
  split; [reflexivity|]. split; [exact Hc|]. split.
  { intros Hr. destruct (Hl Hr) as [pre Hpre]. exists pre. split; [exact Hpre|].
    rewrite Hr, Hpre, count_app in Hc. cbn in Hc. lia. }
  split.
  { intros ->. cbn in Hx. inversion Hx. reflexivity. }
  split.
  { intros a -> Hb. rewrite <- Hx. unfold run. mred.
    destruct Hb as [Hb|Hb]; rewrite Hb; [reflexivity|].
    destruct (_spectrum_buffer w); reflexivity. }
  split.
  { intros a -> Hs. unfold run_returns, result_of in *.
    destruct (_spectrum_buffer w); [|reflexivity].
    destruct (_status_buffer w); [|reflexivity].
    destruct (fst (fst (setup a se (with_running true w)))) as [[|]|] eqn:E;
      congruence. }
  intros Hex. unfold run_returns. rewrite Hex.
  destruct api; [|reflexivity].
  destruct (_spectrum_buffer w); [|reflexivity].
  destruct (_status_buffer w); [|reflexivity].
  destruct (result_of (setup c se (with_running true w))) as [[|]|];
    reflexivity.
Qed.

(** A use of C3: a run that polls once and then sees the hardware flag
    cleared, and a run whose module was never loaded. *)
Lemma C3_witness :
  (exists pre,
      trace_of (run (Some Scenario.full_caps) Scenario.setup_ok
                  [Scenario.poll_acquiring; Scenario.poll_done]
                  Scenario.cleanup_ok Scenario.ready_worker)
      = (pre ++ [finished])%list
      /\ count is_finished pre = 0%nat)
  /\ run None Scenario.setup_ok [] Scenario.cleanup_ok Scenario.ready_worker
     = (Ok true, Scenario.ready_worker,
        [error "DP5 API not loaded. Cannot start worker."; finished]).
Proof.
  split.
  - apply (C3_run_emits_finished_exactly_once (Some Scenario.full_caps)
             Scenario.setup_ok [Scenario.poll_acquiring; Scenario.poll_done]
             Scenario.cleanup_ok Scenario.ready_worker).
    vm_compute. reflexivity.
  - apply (C3_run_emits_finished_exactly_once None Scenario.setup_ok []
             Scenario.cleanup_ok Scenario.ready_worker).
    reflexivity.
Defined.

(** Once the liveness flag is down the loop exits without another
    pass. *)
Lemma poll_loop_not_running (acq : bool) (polls : list poll_env) (w : state) :
  _running w = false ->
  exists w', poll_loop acq polls w = (Ok true, w', [])
             /\ _running w' = false.
Proof.
  intros Hr. destruct polls as [|p rest]; cbn [poll_loop].
  - mred. rewrite Hr. cbn [andb negb]. exists w. split; [reflexivity|exact Hr].
  - unfold bind at 1. unfold when.
    destruct (stop_called p).
    + rewrite stop_eq, Hr. mred. cbn [_running with_running andb].
      exists (with_running false w). split; reflexivity.
    + mred. rewrite Hr. cbn [andb]. exists w. split; [reflexivity|exact Hr].
Qed.

(** C4, as the code has it. When a fetched status has bit 5 of raw
    byte 35 equal to 0, the loop ends within that pass, whatever passes
    would follow. After the status, the worker publishes at most one
    more spectrum before [finished]: exactly one when the final request
    succeeds with a channel count between 1 and [MAX_BUFFER_DATA], and
    none when the request raises (an error is emitted instead) or the
    count is out of that range. The clean-up that follows publishes no
    spectrum and ends with [finished]. *)
Theorem C4_cleared_flag_ends_the_loop :
  forall (p : poll_env) (rest : list poll_env) (w : state) st,
    stop_called p = false ->
    _running w = true ->
    GetDppStatus p = Ok st ->
    mca_enabled_flag st = 0 ->
    exists w' tail,
      poll_loop true (p :: rest) w
      = (Ok true, w',
         status_ready st
           :: message "MCA Disabled flag detected. Acquisition finished."
           :: tail)
      /\ _running w' = false
      /\ tail = match RequestSpectrumData p with
                | Ok (sp, _) =>
                    if publishes p
                    then [spectrum_ready
                            (firstn (Z.to_nat (CHANNELS sp)) (DATA sp))]
                    else []
                | Raise e =>
                    [error ("Error getting final spectrum: " ++ exn_msg e)]
                end
      /\ count is_spectrum_ready tail = (if publishes p then 1 else 0)%nat
      /\ forall api acq ce,
          exists pre,
            cleanup api acq ce w'
            = (Ok tt, with_running false w', (pre ++ [finished])%list)
            /\ count is_spectrum_ready pre = 0%nat
            /\ count is_finished pre = 0%nat.
Proof.
  intros p rest w st Hstop Hrun Hst Hflag.
  cbn [poll_loop]. unfold bind at 1. unfold when. rewrite Hstop.
  unfold ret at 1. unfold bind at 1. unfold get at 1. rewrite Hrun.
  cbn [andb app]. unfold bind at 1.
  unfold iteration, fetch_and_publish, publishes.
  rewrite Hst.
  assert (Hcl : forall w', forall api acq ce,
             exists pre,
               cleanup api acq ce w'
               = (Ok tt, with_running false w', (pre ++ [finished])%list)
               /\ count is_spectrum_ready pre = 0%nat
               /\ count is_finished pre = 0%nat).
  { intros w' api acq ce.
    destruct (cleanup_spec api acq ce w') as (pre & H1 & H2 & H3). eauto. }
  destruct (RequestSpectrumData p) as [[sp st']|e].
  - mred. rewrite Hflag. cbn [Z.eqb].
    destruct ((0 <? CHANNELS sp) && (CHANNELS sp <=? MAX_BUFFER_DATA))%bool
      eqn:Hch; mred.
    + match goal with
      | |- context [poll_loop true rest ?w1] =>
          destruct (@poll_loop_not_running true rest w1 eq_refl)
            as (w2 & Hl & Hr2); rewrite Hl
      end.
      cbn [app]. do 2 eexists.
      split; [reflexivity|]. split; [exact Hr2|].
      split; [reflexivity|]. split; [reflexivity|]. apply Hcl.
    + match goal with
      | |- context [poll_loop true rest ?w1] =>
          destruct (@poll_loop_not_running true rest w1 eq_refl)
            as (w2 & Hl & Hr2); rewrite Hl
      end.
      cbn [app]. do 2 eexists.
      split; [reflexivity|]. split; [exact Hr2|].
      split; [reflexivity|]. split; [reflexivity|]. apply Hcl.
  - mred. rewrite Hflag. cbn [Z.eqb]. mred.
    match goal with
    | |- context [poll_loop true rest ?w1] =>
        destruct (@poll_loop_not_running true rest w1 eq_refl)
          as (w2 & Hl & Hr2); rewrite Hl
    end.
    cbn [app]. do 2 eexists.
    split; [reflexivity|]. split; [exact Hr2|].
    split; [reflexivity|]. split; [reflexivity|]. apply Hcl.
Qed.

(** A use of C4 on a pass whose final spectrum has three channels. *)
Lemma C4_witness :
  exists w' tail,
    poll_loop true [Scenario.poll_done; Scenario.poll_acquiring]
      (with_running true Scenario.ready_worker)
    = (Ok true, w',
       status_ready (Scenario.status_with 0)
         :: message "MCA Disabled flag detected. Acquisition finished."
         :: tail)
    /\ count is_spectrum_ready tail = 1%nat.
Proof.
  destruct (C4_cleared_flag_ends_the_loop Scenario.poll_done
              [Scenario.poll_acquiring]
              (with_running true Scenario.ready_worker)
              (st := Scenario.status_with 0)
              eq_refl eq_refl eq_refl eq_refl)
    as (w' & tail & H1 & _ & _ & H4 & _).
  exists w', tail. split; [exact H1 | exact H4].
Defined.

(** C4 as stated fails: the hardware flag is seen cleared (byte 35 of
    the status is 0) and no spectrum follows before [finished], once
    because the device reports no live channel and once because the
    final request raises. Both runs emit eight events before that
    status. *)
Lemma C4_counterexample :
  mca_enabled_flag (Scenario.status_with 0) = 0
  /\ skipn 8
       (trace_of (run (Some Scenario.full_caps) Scenario.setup_ok
                    [Scenario.poll_acquiring; Scenario.poll_done_empty]
                    Scenario.cleanup_ok Scenario.ready_worker))
     = [status_ready (Scenario.status_with 0);
        message "MCA Disabled flag detected. Acquisition finished.";
        finished]
  /\ skipn 8
       (trace_of (run (Some Scenario.full_caps) Scenario.setup_ok
                    [Scenario.poll_acquiring; Scenario.poll_done_failing]
                    Scenario.cleanup_ok Scenario.ready_worker))
     = [status_ready (Scenario.status_with 0);
        message "MCA Disabled flag detected. Acquisition finished.";
        error "Error getting final spectrum: USB transfer failed";
        finished].
Proof.
  split; [reflexivity|]. split; vm_compute; reflexivity.
Qed.

End WorkerFacts.

(* --------------------------------------------------------------------- *)
(** ** The spectrometer controller (C7, C8)                               *)
(* --------------------------------------------------------------------- *)

Module DP5Facts.
Import DP5Api DP5Controller.

Ltac dp5_unfold :=
  unfold _report_error, _post_status_message, _set_connected, in_base,
    Base._report_error, Base._post_status_message, Base._set_connected,
    _handle_worker_finished, _handle_worker_error, _clear_thread_worker_refs,
    _set_acquiring, encode_ascii in *.

Lemma report_error_eq (m : string) (s : state) :
  _report_error m s
  = (Ok tt, with_base (Base.with_last_error m (base s)) s,
     [error_occurred DP5 m]).
Proof. dp5_unfold. mred. reflexivity. Qed.






(** [save_last_spectrum] never raises; it answers [True] exactly when
    it has written the file, and writes at most once. *)
Lemma save_spec (env : save_env) (filepath description tag : string)
  (s : state) :
  exists v s' tr,
    save_last_spectrum env filepath description tag s = (Ok v, s', tr)
    /\ count is_file_write tr = (if truthy v then 1 else 0)%nat
    /\ (v = PyNone \/ v = PyBool true \/ v = PyBool false).
Proof.
  remember (save_last_spectrum env filepath description tag s) as x eqn:Hx.
  unfold save_last_spectrum in Hx. unfold bind at 1 in Hx.
  unfold get at 1 in Hx. cbv beta iota in Hx.
  destruct (negb (saving_available s)).
  { dp5_unfold. mred_in Hx. subst x. do 3 eexists.
    split; [reflexivity|]. split; [reflexivity|]. auto. }
  destruct (_last_spectrum_data s) as [data|]; cycle 1.
  { dp5_unfold. mred_in Hx. subst x. do 3 eexists.
    split; [reflexivity|]. split; [reflexivity|]. auto. }
  dp5_unfold. mred_in Hx.
  destruct (Spec_new env) as [[]|e0]; mred_in Hx; cycle 1.
  { destruct (is_class OverflowError e0); mred_in Hx; subst x;
      do 3 eexists; (split; [reflexivity|]); (split; [reflexivity|]); auto. }
  destruct (MAX_BUFFER_DATA <? Z.of_nat (Datatypes.length data));
    mred_in Hx.
  { subst x. do 3 eexists.
    split; [reflexivity|]. split; [reflexivity|]. auto. }
  destruct (is_ascii tag); mred_in Hx; cycle 1.
  { subst x. do 3 eexists.
    split; [reflexivity|]. split; [reflexivity|]. auto. }
  destruct (is_ascii description); mred_in Hx; cycle 1.
  { subst x. do 3 eexists.
    split; [reflexivity|]. split; [reflexivity|]. auto. }
  destruct (is_ascii filepath); mred_in Hx; cycle 1.
  { subst x. do 3 eexists.
    split; [reflexivity|]. split; [reflexivity|]. auto. }
  destruct (SaveMCADataToFile_call env) as [[]|e1]; mred_in Hx.
  - subst x. do 3 eexists.
    split; [reflexivity|]. split; [reflexivity|]. auto.
  - destruct (is_class OverflowError e1); mred_in Hx; subst x;
      do 3 eexists; (split; [reflexivity|]); (split; [reflexivity|]); auto.
Qed.

(** Without a cached spectrum the call reports one error and returns
    [None]; which error depends on whether the saving function is
    there. *)
Lemma save_nothing_cached (env : save_env) (filepath description tag : string)
  (s : state) :
  _last_spectrum_data s = None ->
  let msg :=
    if saving_available s
    then "No spectrum data acquired or cached yet to save."
    else "Spectrum saving function (SaveMCADataToFile) not available in API." in
  save_last_spectrum env filepath description tag s
  = (Ok PyNone, with_base (Base.with_last_error msg (base s)) s,
     [error_occurred DP5 msg]).
Proof.
  intros Hnone. cbv zeta.
  unfold save_last_spectrum. unfold bind at 1. unfold get at 1.
  cbv beta iota. rewrite Hnone.
  destruct (saving_available s); cbn [negb];
    unfold bind; rewrite report_error_eq; reflexivity.
Qed.




End DP5Facts.

(* --------------------------------------------------------------------- *)
(** ** The single-acquisition manager (C5)                                *)
(* --------------------------------------------------------------------- *)

Module SingleFacts.
Import SingleAcquisitionManager.

(** An abort that finds the spectrometer idle finalizes at once, and
    [_finalize] emits [acquisition_aborted] a second time: its guard
    [was_running] is true whenever [_finalize] gets that far. *)
Lemma abort_when_idle_emits_aborted_twice (env : save_env) (reason : string)
  (s : state) :
  _running s = true ->
  dp5_acquiring s = false ->
  str_truthy reason = true ->
  filter Scenario.single_outcome (trace_of (_abort_acquisition env reason s))
  = [acquisition_aborted reason; acquisition_aborted reason;
     acquisition_finished false].
Proof.
  intros Hrun Hacq Hreason.
  remember (_abort_acquisition env reason s) as x eqn:Hx.
  unfold _abort_acquisition in Hx. unfold bind at 1 in Hx.
  unfold get at 1 in Hx. cbv beta iota in Hx.
  rewrite Hrun, Hacq, andb_false_r in Hx. cbn [negb] in Hx.
  unfold _finalize in Hx. mred_in Hx.
  cbn [_running _error_reason with_error_reason with_running] in Hx.
  rewrite Hrun, Hreason in Hx. mred_in Hx.
  subst x. reflexivity.
Qed.

(** C5 fails on the abort paths. A single acquisition is started and
    the user stops it while the worker polls: [acquisition_aborted] is
    emitted, the worker is asked to stop, and when it has finished the
    manager's slot does nothing because the error reason is set. The
    run never emits [acquisition_finished] and the manager stays in the
    running state. A later [stop_acquisition] (the application closing)
    aborts again, finds the spectrometer idle and finalizes:
    [acquisition_aborted] is then emitted twice for that one call, by
    [_abort_acquisition] and by [_finalize]. A run that completes and is
    saved emits [acquisition_finished(True)] once. *)
Theorem C5_abort_leaves_run_open_and_repeats_aborted :
  (filter Scenario.single_outcome
     (trace_of (Scenario.single_user_abort Scenario.single_idle))
   = [acquisition_started; acquisition_aborted "Stopped by user from UI"]
   /\ is_running (state_of (Scenario.single_user_abort Scenario.single_idle))
      = true)
  /\ filter Scenario.single_outcome
       (trace_of (Scenario.single_user_abort_then_close Scenario.single_idle))
     = [acquisition_started; acquisition_aborted "Stopped by user from UI";
        acquisition_aborted "Application closing";
        acquisition_aborted "Application closing";
        acquisition_finished false]
  /\ filter Scenario.single_outcome
       (trace_of (Scenario.single_success Scenario.single_idle))
     = [acquisition_started; acquisition_finished true].
Proof. repeat split; vm_compute; reflexivity. Qed.

End SingleFacts.

(* --------------------------------------------------------------------- *)
(** ** The sequence manager (C1, C2, C6)                                  *)
(* --------------------------------------------------------------------- *)

Module SeqFacts.
Import SequenceManager.

(** [start_sequence] on a manager that is not running goes through to
    the end whatever the validation says: a failed validation only adds
    two events in front. *)
Lemma start_sequence_goes_on (env : step_env) (repetitions duration : Z)
  (save_folder : string) (s : state) :
  _running s = false ->
  start_sequence env repetitions duration false save_folder s
  = (Ok true,
     with_job repetitions duration false save_folder
       (with_current_rep 0 (with_error_reason "" (with_running true s))),
     (match validate repetitions duration save_folder env s with
      | Some err =>
          [status_update ("Sequence Error: " ++ err); sequence_aborted err]
      | None => []
      end
      ++ [status_update
            ("Starting sequence: " ++ str_of_Z repetitions ++ " reps...");
          sequence_started; singleShot 50])%list).
Proof.
  intros Hrun. unfold start_sequence. unfold bind at 1. unfold get at 1.
  cbv beta iota. rewrite Hrun.
  destruct (validate repetitions duration save_folder env s); mred;
    reflexivity.
Qed.

(** C2 fails on the code. When a validated precondition of
    [start_sequence] fails, the code emits [sequence_aborted] with the
    validation error and then goes on as if validation had passed: it
    sets the running state, emits [sequence_started], arms the timer of
    the first step and returns [True]. (Shown for a run without
    continuous source mode; with it the only difference is the HV
    request that follows [sequence_started].) *)
Theorem C2_failed_validation_does_not_stop_the_run :
  forall (env : step_env) (repetitions duration : Z) (save_folder : string)
         (s : state) (err : string),
    _running s = false ->
    validate repetitions duration save_folder env s = Some err ->
    let x := start_sequence env repetitions duration false save_folder s in
    result_of x = Ok true
    /\ is_running (state_of x) = true
    /\ trace_of x
       = [status_update ("Sequence Error: " ++ err); sequence_aborted err;
          status_update
            ("Starting sequence: " ++ str_of_Z repetitions ++ " reps...");
          sequence_started; singleShot 50].
Proof.
  intros env reps dur folder s err Hrun Hval x. subst x.
  rewrite (start_sequence_goes_on env reps dur folder s Hrun), Hval.
  repeat split; reflexivity.
Qed.

(** A use of C2: the source is not connected, and the first repetition
    starts all the same when the timer fires. *)
Lemma C2_witness :
  is_running
    (state_of (start_sequence (Scenario.seq_step Scenario.source_ready) 3 10
                 false "C:\data" Scenario.seq_minix_disconnected))
  = true
  /\ filter Scenario.seq_outcome
       (trace_of
          (reacts [Start (Scenario.seq_step Scenario.source_ready) 3 10 false
                     "C:\data";
                   Timer (Scenario.seq_step Scenario.source_ready)]
             Scenario.seq_minix_disconnected))
     = [sequence_aborted "MiniX not connected."; sequence_started;
        sequence_step_starting 1 3].
Proof.
  split.
  - apply (C2_failed_validation_does_not_stop_the_run
             (Scenario.seq_step Scenario.source_ready) 3 10 "C:\data"
             Scenario.seq_minix_disconnected
             (err := "MiniX not connected.")); reflexivity.
  - vm_compute. reflexivity.
Defined.

(** *** The source controller's HV commands *)

Ltac minix_unfold :=
  unfold MiniXController.set_hv_off, MiniXController.set_hv_on,
    MiniXController._report_error, MiniXController._post_status_message,
    MiniXController.in_base, MiniXController.is_connected,
    Base._report_error, Base._post_status_message,
    MiniXApi.send_command, MiniXApi.get_monitor_data,
    MiniXApi.is_controller_running, MiniXController.api_errors.

Ltac minix_run :=
  do 3 (mred;
        cbn [MiniXController.base MiniXController._is_controller_app_running
             MiniXApi.isMiniXDlg MiniXApi.ReadMiniXMonitor Base.api_loaded
             Base._api MiniXController.hv_on MiniXController._hv_on
             Base._is_connected Base.with_last_error MiniXController.with_base
             MiniXApi.is_disabled MiniXApi.is_exit MiniXApi.value
             MiniXApi.name is_class exn_cls negb andb orb]).

Ltac minix_done :=
  do 2 eexists; repeat split; try reflexivity; try (cbn; lia);
  try (intros; cbn in *; congruence).

(** [set_hv_off] never raises and leaves the controller as it was, but
    for the last error; it sends at most one HV-off command, and sends
    it when the controller can command and the source accepts. *)
Lemma set_hv_off_outcome (dev : MiniXApi.device) (m : MiniXController.state) :
  exists m' tr,
    MiniXController.set_hv_off dev m = (Ok tt, m', tr)
    /\ MiniXController.hv_on m' = MiniXController.hv_on m
    /\ can_command m' = can_command m
    /\ MiniXController.is_connected m' = MiniXController.is_connected m
    /\ (count is_hv_off_command tr <= 1)%nat
    /\ count is_sequence_finished tr = 0%nat
    /\ count is_sequence_aborted tr = 0%nat
    /\ count is_step_finished tr = 0%nat
    /\ (can_command m = true -> accepts_hv_off dev = true ->
        m' = m
        /\ tr = [status_message MiniX "Attempting to turn HV OFF...";
                 SendMiniXCommand 4;
                 status_message MiniX "HV OFF command sent."]).
Proof.
  destruct m as [[api conn lerr] running hv md timer].
  destruct dev as [dlg mon].
  unfold can_command, accepts_hv_off. minix_unfold.
  rewrite ?andb_false_r. minix_run.
  destruct api as [[]|]; minix_run; [|minix_done].
  destruct running; minix_run; [|minix_done].
  destruct (dlg =? 0); minix_run; [minix_done|].
  destruct (MiniXApi.MiniXStatus_of (mxmStatusInd mon)) as [st|];
    minix_run; [|minix_done].
  destruct (MiniXApi.critical st); minix_run; [minix_done|].
  destruct (Z.land (mxmEnabledCmds mon) 4 =? 0); minix_run; minix_done.
Qed.

(** [set_hv_on] leaves the controller as it was, but for the last
    error, and sends no HV-off command. *)
Lemma set_hv_on_outcome (dev : MiniXApi.device) (m : MiniXController.state) :
  exists m' tr,
    MiniXController.set_hv_on dev m = (Ok tt, m', tr)
    /\ MiniXController.hv_on m' = MiniXController.hv_on m
    /\ can_command m' = can_command m
    /\ MiniXController.is_connected m' = MiniXController.is_connected m
    /\ count is_hv_off_command tr = 0%nat
    /\ count is_sequence_finished tr = 0%nat
    /\ count is_sequence_aborted tr = 0%nat
    /\ count is_step_finished tr = 0%nat.
Proof.
  destruct m as [[api conn lerr] running hv md timer].
  destruct dev as [dlg mon].
  unfold can_command. minix_unfold. rewrite ?andb_false_r. minix_run.
  destruct api as [[]|]; minix_run; [|minix_done].
  destruct conn; minix_run; [|minix_done].
  destruct (dlg =? 0); minix_run; [minix_done|].
  destruct (MiniXApi.MiniXStatus_of (mxmStatusInd mon)) as [st|];
    minix_run; [|minix_done].
  destruct (MiniXApi.critical st); minix_run; [minix_done|].
  destruct (Z.land (mxmEnabledCmds mon) 2 =? 0); minix_run; minix_done.
Qed.

(** *** Every way out of a continuous run sends HV off *)

Lemma guarded_of_keeps {A} (m : M state A) :
  keeps _running m -> keeps armed m -> guarded m.
Proof.
  intros Hr Ha. split; [|exact Ha].
  intros s Hs _ Hoff. rewrite Hr in Hoff. congruence.
Qed.

Lemma guarded_ret {A} (a : A) : guarded (ret (S:=state) a).
Proof. apply guarded_of_keeps; [apply keeps_ret | apply keeps_ret]. Qed.

Lemma guarded_raise {A} (e : exn) : guarded (raise (S:=state) (A:=A) e).
Proof. apply guarded_of_keeps; [apply keeps_raise | apply keeps_raise]. Qed.

Lemma guarded_get : guarded (get (S:=state)).
Proof. apply guarded_of_keeps; [apply keeps_get | apply keeps_get]. Qed.

Lemma guarded_emit (e : event) : guarded (emit (S:=state) e).
Proof. apply guarded_of_keeps; [apply keeps_emit | apply keeps_emit]. Qed.

Lemma guarded_modify (g : state -> state) :
  (forall s, _running (g s) = _running s) ->
  (forall s, armed (g s) = armed s) ->
  guarded (modify g).
Proof.
  intros Hr Ha.
  apply guarded_of_keeps; apply keeps_modify; assumption.
Qed.

Lemma guarded_bind {A B} (m : M state A) (k : A -> M state B) :
  guarded m -> (forall a, guarded (k a)) -> guarded (bind m k).
Proof.
  intros [Hm Am] Hk. split.
  - intros s Hs Ha. specialize (Hm s Hs Ha). specialize (Am s).
    unfold bind, state_of, trace_of in *.
    destruct (m s) as [[[a|e] s1] t1]; cbn [fst snd] in *; [|exact Hm].
    destruct (Hk a) as [Hk1 _]. specialize (Hk1 s1).
    unfold state_of, trace_of in Hk1.
    destruct (k a s1) as [[r s2] t2]; cbn [fst snd] in *.
    intros Hoff. rewrite count_app.
    destruct (_running s1) eqn:E.
    + assert (1 <= count is_hv_off_command t2)%nat
        by (apply Hk1; congruence). lia.
    + assert (1 <= count is_hv_off_command t1)%nat by auto. lia.
  - intros s. specialize (Am s). unfold bind, state_of in *.
    destruct (m s) as [[[a|e] s1] t1]; cbn [fst snd] in *; [|exact Am].
    destruct (Hk a) as [_ Hk2]. specialize (Hk2 s1). unfold state_of in Hk2.
    destruct (k a s1) as [[r s2] t2]; cbn [fst snd] in *. congruence.
Qed.

Lemma guarded_try_except {A} (m : M state A) sel (h : exn -> M state A) :
  guarded m -> (forall e, guarded (h e)) -> guarded (try_except m sel h).
Proof.
  intros [Hm Am] Hh. split.
  - intros s Hs Ha. specialize (Hm s Hs Ha). specialize (Am s).
    unfold try_except, state_of, trace_of in *.
    destruct (m s) as [[[a|e] s1] t1]; cbn [fst snd] in *; [exact Hm|].
    destruct (sel e); [|exact Hm].
    destruct (Hh e) as [Hh1 _]. specialize (Hh1 s1).
    unfold state_of, trace_of in Hh1.
    destruct (h e s1) as [[r s2] t2]; cbn [fst snd] in *.
    intros Hoff. rewrite count_app.
    destruct (_running s1) eqn:E.
    + assert (1 <= count is_hv_off_command t2)%nat
        by (apply Hh1; congruence). lia.
    + assert (1 <= count is_hv_off_command t1)%nat by auto. lia.
  - intros s. specialize (Am s). unfold try_except, state_of in *.
    destruct (m s) as [[[a|e] s1] t1]; cbn [fst snd] in *; [exact Am|].
    destruct (sel e); [|exact Am].
    destruct (Hh e) as [_ Hh2]. specialize (Hh2 s1). unfold state_of in Hh2.
    destruct (h e s1) as [[r s2] t2]; cbn [fst snd] in *. congruence.
Qed.

Lemma guarded_when (c : bool) (m : M state unit) :
  guarded m -> guarded (when c m).
Proof. intros H. destruct c; [exact H | apply guarded_ret]. Qed.

(** Delivering a controller's signals to a guarded slot. *)
Lemma deliver_guarded (slot : bool -> M state unit) :
  (forall b, guarded (slot b)) ->
  forall tr s,
    (_running s = true -> armed s = true ->
     _running (fst (deliver slot tr s)) = false ->
     (1 <= count is_hv_off_command (snd (deliver slot tr s)))%nat)
    /\ armed (fst (deliver slot tr s)) = armed s.
Proof.
  intros Hs. induction tr as [|e tr IH]; intro s.
  - cbn. split; [congruence | reflexivity].
  - cbn [deliver].
    destruct e;
      try (destruct (IH s) as [IH1 IH2];
           destruct (deliver slot tr s) as [s2 t2]; cbn [fst snd app] in *;
           split; [|exact IH2];
           intros H1 H2 H3; rewrite count_cons;
           specialize (IH1 H1 H2 H3); lia).
    destruct (Hs b) as [Hb1 Hb2]. specialize (Hb1 s). specialize (Hb2 s).
    destruct (IH (state_of (slot b s))) as [IH1 IH2].
    destruct (deliver slot tr (state_of (slot b s))) as [s2 t2].
    cbn [fst snd] in *. split; [|congruence].
    intros H1 H2 H3. rewrite count_cons, count_app.
    destruct (_running (state_of (slot b s))) eqn:E.
    + assert (1 <= count is_hv_off_command t2)%nat
        by (apply IH1; congruence). lia.
    + assert (1 <= count is_hv_off_command (trace_of (slot b s)))%nat
        by auto. lia.
Qed.

(** A call on the spectrometer controller, with a guarded slot. *)
Lemma guarded_dp5_call {A} (slot : bool -> M state unit)
  (m : M DP5Controller.state A) :
  (forall b, guarded (slot b)) ->
  guarded (method_call dp5_ctrl with_dp5 slot m).
Proof.
  intros Hs. split.
  - intros s Hr Ha. unfold method_call, state_of, trace_of.
    destruct (dp5_ctrl s) as [c|]; cbn [fst snd]; [|congruence].
    destruct (m c) as [[r c'] tr].
    destruct (@deliver_guarded slot Hs tr (with_dp5 c' s)) as [Hd _].
    destruct (deliver slot tr (with_dp5 c' s)) as [s' tr'].
    cbn [fst snd] in *. apply Hd; assumption.
  - intros s. unfold method_call, state_of.
    destruct (dp5_ctrl s) as [c|]; cbn [fst snd]; [|reflexivity].
    destruct (m c) as [[r c'] tr].
    destruct (@deliver_guarded slot Hs tr (with_dp5 c' s)) as [_ Hd].
    destruct (deliver slot tr (with_dp5 c' s)) as [s' tr'].
    cbn [fst snd] in *. exact Hd.
Qed.

Lemma deliver_no_slot {S} (tr : trace) (s : S) :
  deliver no_slot tr s = (s, tr).
Proof.
  revert s. induction tr as [|e tr IH]; intro s; [reflexivity|].
  destruct e; cbn [deliver]; unfold no_slot, ret, state_of, trace_of;
    cbn [fst snd]; rewrite IH; reflexivity.
Qed.

(** A call on the source controller that leaves its ability to command
    alone. *)
Lemma guarded_minix_call {A} (m : M MiniXController.state A) :
  keeps can_command m -> guarded (minix_call m).
Proof.
  intros Hk. apply guarded_of_keeps.
  - intros s. unfold minix_call, method_call, state_of.
    destruct (minix_ctrl s) as [c|]; [|reflexivity].
    destruct (m c) as [[r c'] tr]. rewrite deliver_no_slot. reflexivity.
  - intros s. unfold minix_call, method_call, state_of.
    destruct (minix_ctrl s) as [c|] eqn:E; [|reflexivity].
    specialize (Hk c). unfold state_of in Hk.
    destruct (m c) as [[r c'] tr]. rewrite deliver_no_slot. cbn [fst snd] in *.
    unfold armed. cbn [_minix_continuous minix_ctrl with_minix].
    rewrite E, Hk. reflexivity.
Qed.

Lemma set_hv_off_keeps_can_command dev :
  keeps can_command (MiniXController.set_hv_off dev).
Proof.
  intros m. destruct (set_hv_off_outcome dev m) as (m' & tr & H & _ & Hc & _).
  rewrite H. exact Hc.
Qed.

Lemma set_hv_on_keeps_can_command dev :
  keeps can_command (MiniXController.set_hv_on dev).
Proof.
  intros m. destruct (set_hv_on_outcome dev m) as (m' & tr & H & _ & Hc & _).
  rewrite H. exact Hc.
Qed.

Ltac guarded_step :=
  match goal with
  | |- guarded (bind _ _) => apply guarded_bind; [|intro]
  | |- guarded (ret _) => apply guarded_ret
  | |- guarded (raise _) => apply guarded_raise
  | |- guarded get => apply guarded_get
  | |- guarded (emit _) => apply guarded_emit
  | |- guarded (modify _) => apply guarded_modify; intro; reflexivity
  | |- guarded (try_except _ _ _) => apply guarded_try_except; [|intro]
  | |- guarded (when _ _) => apply guarded_when
  | |- guarded (method_call dp5_ctrl with_dp5 _ _) =>
      apply guarded_dp5_call; intro
  | |- guarded (minix_call (MiniXController.set_hv_off _)) =>
      apply guarded_minix_call, set_hv_off_keeps_can_command
  | |- guarded (minix_call (MiniXController.set_hv_on _)) =>
      apply guarded_minix_call, set_hv_on_keeps_can_command
  | |- guarded (_wait_with_events _) => apply guarded_ret
  | |- guarded (no_slot _) => apply guarded_ret
  | |- guarded (if ?c then _ else _) => destruct c
  | |- guarded (match ?x with _ => _ end) => destruct x
  | |- guarded (let _ := _ in _) => cbv zeta
  end.

Ltac guarded_tac := repeat guarded_step.

Lemma minix_call_keeps_armed {A} (m : M MiniXController.state A) :
  keeps can_command m -> keeps armed (minix_call m).
Proof. intros H. exact (proj2 (guarded_minix_call H)). Qed.

Lemma finalize_keeps_armed dev : keeps armed (_finalize dev).
Proof.
  unfold _finalize. keeps_tac.
  apply minix_call_keeps_armed, set_hv_off_keeps_can_command.
Qed.

Lemma finalize_sends_hv_off dev (s : state) :
  accepts_hv_off dev = true ->
  _running s = true -> armed s = true ->
  (1 <= count is_hv_off_command (trace_of (_finalize dev s)))%nat.
Proof.
  intros Hdev Hr Ha. unfold armed in Ha.
  destruct (minix_ctrl s) as [m0|] eqn:Em;
    [|rewrite andb_false_r in Ha; discriminate].
  apply andb_true_iff in Ha as [Hc Hcan].
  destruct (set_hv_off_outcome dev m0)
    as (m' & tr & Hset & _ & _ & _ & _ & _ & _ & _ & Hacc).
  destruct (Hacc Hcan Hdev) as [-> ->].
  remember (_finalize dev s) as x eqn:Hx.
  unfold _finalize in Hx. unfold bind at 1 in Hx. unfold get at 1 in Hx.
  cbv beta iota in Hx. rewrite Hr, Hc in Hx. cbn [negb andb] in Hx.
  unfold minix_present, minix_call, method_call in Hx. rewrite Em in Hx.
  mred_in Hx. cbn [minix_ctrl with_running] in Hx. rewrite Em in Hx.
  rewrite Hset in Hx. rewrite deliver_no_slot in Hx. mred_in Hx.
  destruct (str_truthy (_error_reason s)); mred_in Hx; subst x;
    unfold trace_of; cbn [snd]; rewrite !count_cons; cbn; lia.
Qed.

Lemma guarded_finalize dev :
  accepts_hv_off dev = true -> guarded (_finalize dev).
Proof.
  intros Hdev. split.
  - intros s Hr Ha _. apply finalize_sends_hv_off; assumption.
  - apply finalize_keeps_armed.
Qed.

Lemma guarded_abort_with slot dev reason :
  accepts_hv_off dev = true ->
  (forall b, guarded (slot b)) ->
  guarded (_abort_sequence_with slot dev reason).
Proof.
  intros Hdev Hs. unfold _abort_sequence_with. guarded_tac; auto.
  apply guarded_finalize; assumption.
Qed.

Lemma guarded_slot_with abort env acquiring :
  (forall r, guarded (abort (minix_dev env) r)) ->
  guarded (_handle_dp5_acq_state_change_with abort env acquiring).
Proof.
  intros Hab. unfold _handle_dp5_acq_state_change_with.
  guarded_tac; auto.
Qed.

Lemma guarded_slot env acquiring :
  accepts_hv_off (minix_dev env) = true ->
  guarded (_handle_dp5_acq_state_change env acquiring).
Proof.
  intros Hdev. apply guarded_slot_with. intro r.
  apply guarded_abort_with; [assumption|]. intro b. apply guarded_ret.
Qed.

Lemma guarded_abort env reason :
  accepts_hv_off (minix_dev env) = true ->
  guarded (_abort_sequence env reason).
Proof.
  intros Hdev. apply guarded_abort_with; [assumption|].
  intro b. apply guarded_slot; assumption.
Qed.

Lemma guarded_stop env reason :
  accepts_hv_off (minix_dev env) = true ->
  guarded (stop_sequence env reason).
Proof.
  intros Hdev. unfold stop_sequence. guarded_tac.
  apply guarded_abort; assumption.
Qed.

Lemma guarded_hv_request env slot :
  accepts_hv_off (minix_dev env) = true ->
  guarded (emit_request_safe_hv_on env slot).
Proof.
  intros Hdev. unfold emit_request_safe_hv_on. guarded_tac.
  apply guarded_stop; assumption.
Qed.

Lemma guarded_run_next_step env :
  accepts_hv_off (minix_dev (on_signal env)) = true ->
  guarded (_run_next_step env).
Proof.
  intros Hdev. unfold _run_next_step. guarded_tac;
    auto using guarded_finalize, guarded_hv_request, guarded_slot,
      guarded_abort.
Qed.

Lemma guarded_worker_signal env e :
  accepts_hv_off (minix_dev env) = true ->
  guarded (worker_signal env e).
Proof.
  intros Hdev. unfold worker_signal. cbv zeta.
  destruct e; guarded_tac; auto using guarded_slot.
Qed.

Lemma start_sequence_when_running env reps dur cont folder (s : state) :
  _running s = true ->
  start_sequence env reps dur cont folder s
  = (Ok false, s, [status_update "Sequence already running."]).
Proof.
  intros Hr. unfold start_sequence. unfold bind at 1. unfold get at 1.
  cbv beta iota. rewrite Hr. mred. reflexivity.
Qed.

(** Whatever happens to a running manager in continuous mode whose
    source controller can command: if it leaves the manager not
    running, an HV-off command has been sent. *)
Lemma react_sends_hv_off (x : stimulus) (s : state) :
  _running s = true ->
  armed s = true ->
  source_accepts x = true ->
  _running (state_of (react x s)) = false ->
  (1 <= count is_hv_off_command (trace_of (react x s)))%nat.
Proof.
  intros Hr Ha Hx. unfold source_accepts, source_of in Hx.
  destruct x as [env reps dur cont folder|env|env e|t|env reason];
    cbn [react].
  - unfold bind. rewrite (start_sequence_when_running _ _ _ _ _ _ Hr).
    mred. congruence.
  - apply guarded_run_next_step; assumption.
  - apply guarded_worker_signal; assumption.
  - assert (G : guarded
                  (s0 <- get ;;
                   when (dp5_present s0)
                     (method_call dp5_ctrl with_dp5 no_slot
                        (DP5Controller.thread_finished t)))%monad)
      by guarded_tac.
    apply G; assumption.
  - apply guarded_stop; assumption.
Qed.

(** What [_finalize] does on a running manager in continuous mode with
    a source controller: it calls [set_hv_off] first. *)
Lemma finalize_calls_set_hv_off dev (s : state) (m : MiniXController.state) :
  _running s = true ->
  _minix_continuous s = true ->
  minix_ctrl s = Some m ->
  exists s' rest,
    _finalize dev s
    = (Ok tt, s',
       (trace_of (MiniXController.set_hv_off dev m) ++ rest)%list)
    /\ _running s' = false
    /\ minix_ctrl s' = Some (state_of (MiniXController.set_hv_off dev m))
    /\ count is_hv_off_command rest = 0%nat.
Proof.
  intros Hr Hc Em.
  destruct (set_hv_off_outcome dev m) as (m' & tr & Hset & _).
  rewrite Hset. unfold state_of, trace_of. cbn [fst snd].
  remember (_finalize dev s) as x eqn:Hx.
  unfold _finalize in Hx. unfold bind at 1 in Hx. unfold get at 1 in Hx.
  cbv beta iota in Hx. rewrite Hr, Hc in Hx. cbn [negb andb] in Hx.
  unfold minix_present, minix_call, method_call in Hx. rewrite Em in Hx.
  mred_in Hx. cbn [minix_ctrl with_running] in Hx. rewrite Em in Hx.
  rewrite Hset in Hx. rewrite deliver_no_slot in Hx. mred_in Hx.
  destruct (str_truthy (_error_reason s)); mred_in Hx; subst x;
    do 2 eexists; (split; [reflexivity|]); repeat split; reflexivity.
Qed.

(** C1, as the code has it. On every sequence run in continuous-source
    mode that is in the running state, [_finalize] leaves the running
    state and, when a source controller is present, calls its
    [set_hv_off] first. That call does not change the controller's HV-on
    flag, which keeps the value of the last status poll; it sends the
    HV-off command to the source when the controller can command (API
    loaded, controller application running) and the source accepts the
    command. However the run ends (last repetition done, abort, stop,
    exception while starting a repetition): whenever anything takes
    such a manager out of the running state and the source accepts, an
    HV-off command has been sent. *)
Theorem C1_finalize_commands_hv_off :
  (forall dev (s : state) (m : MiniXController.state),
      _running s = true ->
      _minix_continuous s = true ->
      minix_ctrl s = Some m ->
      let x := _finalize dev s in
      let off := MiniXController.set_hv_off dev m in
      result_of x = Ok tt
      /\ is_running (state_of x) = false
      /\ minix_ctrl (state_of x) = Some (state_of off)
      /\ MiniXController.hv_on (state_of off) = MiniXController.hv_on m
      /\ (exists rest, trace_of x = (trace_of off ++ rest)%list
                       /\ count is_hv_off_command rest = 0%nat)
      /\ (can_command m = true -> accepts_hv_off dev = true ->
          count is_hv_off_command (trace_of x) = 1%nat))
  /\ (forall (x : stimulus) (s : state),
      _running s = true ->
      armed s = true ->
      source_accepts x = true ->
      is_running (state_of (react x s)) = false ->
      (1 <= count is_hv_off_command (trace_of (react x s)))%nat).
Proof.
  split.
  - intros dev s m Hr Hc Em x off. subst x off.
    destruct (finalize_calls_set_hv_off dev s Hr Hc Em)
      as (s' & rest & Hf & Hr' & Hm' & Hrest).
    destruct (set_hv_off_outcome dev m)
      as (m' & tr & Hset & Hhv & _ & _ & _ & _ & _ & _ & Hacc).
    rewrite Hf. rewrite Hset in *.
    unfold result_of, state_of, trace_of, is_running in *. cbn [fst snd] in *.
    split; [reflexivity|]. split; [exact Hr'|]. split; [exact Hm'|].
    split; [exact Hhv|]. split; [exists rest; auto|].
    intros Hcan Hdev. destruct (Hacc Hcan Hdev) as [_ ->].
    rewrite count_app, Hrest. reflexivity.
  - intros x s Hr Ha Hx Hoff. apply react_sends_hv_off; assumption.
Qed.

(** A use of C1: the last timer of a continuous run of one repetition
    finalizes the run and sends HV off. *)
Lemma C1_witness :
  (1 <= count is_hv_off_command
          (trace_of
             (react (Timer (Scenario.seq_step Scenario.source_ready))
                (state_of
                   (reacts
                      (firstn 4 (Scenario.seq_continuous_run
                                   Scenario.source_ready))
                      Scenario.seq_idle)))))%nat.
Proof.
  apply (proj2 C1_finalize_commands_hv_off
           (Timer (Scenario.seq_step Scenario.source_ready))
           (state_of
              (reacts
                 (firstn 4 (Scenario.seq_continuous_run Scenario.source_ready))
                 Scenario.seq_idle)));
    vm_compute; reflexivity.
Defined.

(** C1 as stated fails in its conclusion. A continuous run of one
    repetition completes normally; [_finalize] sends the HV-off command
    and the source controller's HV-on flag is still true afterwards,
    since only a status poll changes it. When the source does not let
    the command through, [_finalize] sends no HV-off command at all. *)
Lemma C1_counterexample :
  (is_running
     (state_of (reacts (Scenario.seq_continuous_run Scenario.source_ready)
                  Scenario.seq_idle)) = false
   /\ filter is_sequence_finished
        (trace_of (reacts (Scenario.seq_continuous_run Scenario.source_ready)
                     Scenario.seq_idle))
      = [sequence_finished 1]
   /\ count is_hv_off_command
        (trace_of (reacts (Scenario.seq_continuous_run Scenario.source_ready)
                     Scenario.seq_idle))
      = 1%nat
   /\ Scenario.source_hv_on
        (state_of (reacts (Scenario.seq_continuous_run Scenario.source_ready)
                     Scenario.seq_idle))
      = true)
  /\ (is_running
        (state_of (reacts (Scenario.seq_continuous_run Scenario.source_busy)
                     Scenario.seq_idle)) = false
      /\ count is_hv_off_command
           (trace_of (reacts (Scenario.seq_continuous_run Scenario.source_busy)
                        Scenario.seq_idle))
         = 0%nat
      /\ Scenario.source_hv_on
           (state_of (reacts (Scenario.seq_continuous_run Scenario.source_busy)
                        Scenario.seq_idle))
         = true).
Proof. repeat split; vm_compute; reflexivity. Qed.

(** *** Strings the manager builds are plain ASCII *)

Lemma is_ascii_app (a b : string) :
  is_ascii (a ++ b) = (is_ascii a && is_ascii b)%bool.
Proof.
  induction a as [|c a IH]; [reflexivity|].
  cbn [append is_ascii]. rewrite IH, andb_assoc. reflexivity.
Qed.

Lemma is_ascii_uint (d : Decimal.uint) :
  is_ascii (NilEmpty.string_of_uint d) = true.
Proof. induction d; cbn [NilEmpty.string_of_uint is_ascii]; auto. Qed.

Lemma is_ascii_str_of_Z (z : Z) : is_ascii (str_of_Z z) = true.
Proof.
  unfold str_of_Z, NilZero.string_of_int, NilZero.string_of_uint.
  destruct (Z.to_int z) as [d|d]; destruct d;
    try reflexivity;
    try (apply (is_ascii_uint (Decimal.D0 _)) || apply is_ascii_uint).
  all: cbn [is_ascii]; try reflexivity.
  all: try (change (is_ascii (NilEmpty.string_of_uint ?d) = true);
            apply is_ascii_uint).
Qed.





(** *** A repetition that completes normally *)




Import Schedule.







Section NormalRun.
Variables (N dur : Z) (cont : bool) (folder : string) (pause : Z).
Hypothesis folder_truthy : str_truthy folder = true.
Hypothesis folder_ascii : is_ascii folder = true.

(** The manager in the middle of a run, with its source controller
    [mx], its spectrometer controller [d] and [k] repetitions begun. *)
Local Abbreviation running_at mx d k :=
  (mk mx (Some d) true "" k N dur cont folder pause).

(** The spectrometer controller: connected, with an API that can save. *)
Local Abbreviation dp5_at api lerr acq cfg w t sp st live nid :=
  (DP5Controller.mk (Base.mk (Some api) true lerr) acq cfg w t sp st live nid).













(** *** An idle manager stays idle and emits no mark *)










(** *** Whole runs *)







End NormalRun.

(** *** What the marks of a run say about its terminal signals *)







End SeqFacts.
(* ===================================================================== *)
(** * Part III: further properties of the code                            *)
(* ===================================================================== *)

Lemma bind_eq {S A B} (m : M S A) (f : A -> M S B) (s : S) :
  bind m f s
  = match m s with
    | (Ok a, s1, t1) =>
        (result_of (f a s1), state_of (f a s1), (t1 ++ trace_of (f a s1))%list)
    | (Raise e, s1, t1) => (Raise e, s1, t1)
    end.
Proof.
  unfold bind, result_of, state_of, trace_of.
  destruct (m s) as [[[a|e] s1] t1]; [|reflexivity].
  destruct (f a s1) as [[r s2] t2]. reflexivity.
Qed.

Lemma triple_eta {S A} (x : result A * S * trace) :
  x = (result_of x, state_of x, trace_of x).
Proof. destruct x as [[r s] t]. reflexivity. Qed.

(* --------------------------------------------------------------------- *)
(** ** The acquisition worker                                             *)
(* --------------------------------------------------------------------- *)

Module WorkerMore.
Import DP5Api DP5AcquisitionWorker WorkerScript.

(** The poll loop is silent for every kind of event that neither a pass
    nor the stop message belongs to. *)
Lemma poll_loop_silent (P : event -> bool) (acq : bool)
  (polls : list poll_env) :
  (forall p, silent P (iteration p)) ->
  P (message "Stop requested.") = false ->
  silent P (poll_loop acq polls).
Proof.
  intros Hit Hstop. induction polls as [|p rest IH].
  - cbn [poll_loop]. silent_tac.
  - cbn [poll_loop]. unfold stop.
    repeat (silent_tac; try (apply silent_emit; exact Hstop); auto).
Qed.

Lemma iteration_silent_enable p : silent is_enable_mca (iteration p).
Proof. unfold iteration, fetch_and_publish. silent_tac. Qed.

Lemma iteration_silent_disable p : silent is_disable_mca (iteration p).
Proof. unfold iteration, fetch_and_publish. silent_tac. Qed.

(** [run] on a worker whose buffers were not allocated. *)
Lemma run_without_buffers (a : caps) se polls ce (w : state) :
  _spectrum_buffer w = None \/ _status_buffer w = None ->
  run (Some a) se polls ce w
  = (Ok true, w,
     [error "DP5 API buffers not allocated. Cannot start worker."; finished]).
Proof.
  intros H. unfold run. unfold bind at 1. unfold get.
  destruct (_spectrum_buffer w); [destruct (_status_buffer w)|];
    try reflexivity.
  destruct H; discriminate.
Qed.

(** The trace of [run] on a worker with its buffers: the set-up, then
    the poll loop and, when the loop has exited, the clean-up; or the
    error of the outer handler and the clean-up. *)
Lemma run_parts (a : caps) se polls ce (w : state) sb tb :
  _spectrum_buffer w = Some sb ->
  _status_buffer w = Some tb ->
  exists t2 t3,
    trace_of (run (Some a) se polls ce w)
    = (trace_of (setup a se (with_running true w)) ++ t2 ++ t3)%list
    /\ match result_of (setup a se (with_running true w)) with
       | Ok acq =>
           t2 = trace_of
                  (poll_loop acq polls
                     (state_of (setup a se (with_running true w))))
           /\ t3 = (if (negb acq || existsb ends_loop polls)%bool
                    then trace_of
                           (cleanup a acq ce
                              (state_of
                                 (poll_loop acq polls
                                    (state_of
                                       (setup a se (with_running true w))))))
                    else [])
       | Raise e =>
           t2 = [error ("DP5 Acquisition setup error: " ++ exn_msg e)]
           /\ t3 = trace_of
                     (cleanup a false ce
                        (state_of (setup a se (with_running true w))))
       end.
Proof.
  intros Hsb Htb. unfold run.
  unfold bind at 1. unfold get. rewrite Hsb, Htb.
  unfold bind at 1. unfold modify at 1.
  set (w1 := with_running true w).
  pose proof (WorkerFacts.setup_keeps_running a se w1) as Hkeep.
  unfold bind at 1. unfold try_except at 1. unfold bind at 1.
  unfold result_of, state_of, trace_of in *.
  destruct (setup a se w1) as [[[acq|e] w2] t2]; cbn [fst snd] in *.
  - destruct (WorkerFacts.poll_loop_spec acq polls w2) as (w3 & t3 & Hl & _).
    unfold bind at 1. rewrite Hl. unfold ret at 1. cbn [fst snd].
    rewrite Hkeep. cbn [w1 with_running _running andb].
    destruct (negb acq || existsb ends_loop polls)%bool.
    + destruct (WorkerFacts.cleanup_spec a acq ce w3) as (pre & Hcl & _).
      unfold bind at 1. rewrite Hcl. mred.
      exists t3, (pre ++ [finished])%list.
      split; [|split; reflexivity].
      rewrite ?app_nil_r, ?app_nil_l, <- ?app_assoc. reflexivity.
    + mred. exists t3, []. split; [|split; reflexivity].
      rewrite ?app_nil_r. reflexivity.
  - cbn [any_exception]. unfold bind at 1. unfold emit at 1. unfold ret at 1.
    cbn [fst snd app].
    destruct (WorkerFacts.cleanup_spec a false ce w2) as (pre & Hcl & _).
    unfold bind at 1. rewrite Hcl. mred.
    do 2 eexists. split; [|split; reflexivity].
    rewrite ?app_nil_r, ?app_nil_l, <- ?app_assoc. reflexivity.
Qed.

(** [enable_mca] never raises; it enables the MCA exactly when it
    answers [True]. *)
Lemma enable_mca_spec api se c (w : state) :
  exists b t,
    enable_mca api se c w = (Ok b, w, t)
    /\ count is_enable_mca t = (if b then 1 else 0)%nat.
Proof.
  unfold enable_mca. destruct c; mred; [|eauto].
  destruct (has_EnableMCA api); mred; [|eauto].
  destruct (EnableMCA_call se) as [[]|e]; mred; eauto.
Qed.

Lemma send_config_silent_enable api se :
  silent is_enable_mca (send_config api se).
Proof. unfold send_config, encode_ascii. silent_tac. Qed.

Lemma send_pret_silent_enable api se :
  silent is_enable_mca (send_pret api se).
Proof. unfold send_pret. silent_tac. Qed.

(** The set-up enables the MCA at most once, and exactly once when it
    answers that the acquisition has started. *)
Lemma setup_enables api se (w : state) :
  (count is_enable_mca (trace_of (setup api se w)) <= 1)%nat
  /\ (result_of (setup api se w) = Ok true ->
      count is_enable_mca (trace_of (setup api se w)) = 1%nat).
Proof.
  unfold setup. rewrite bind_eq.
  pose proof (send_config_silent_enable api se w) as H1.
  destruct (send_config api se w) as [[[c1|e1] w1] t1];
    unfold trace_of in H1; cbn [snd] in H1;
    [|unfold result_of, trace_of; cbn [fst snd]; rewrite H1;
      split; [lia | discriminate]].
  rewrite bind_eq.
  assert (H2 : count is_enable_mca
                 (trace_of ((if c1 then send_pret api se else ret false) w1))
               = 0%nat).
  { destruct c1; [apply send_pret_silent_enable | reflexivity]. }
  destruct ((if c1 then send_pret api se else ret false) w1)
    as [[[c2|e2] w2] t2]; unfold trace_of in H2; cbn [snd] in H2;
    [|unfold result_of, state_of, trace_of; cbn [fst snd];
      rewrite count_app, H1, H2; split; [lia | discriminate]].
  unfold result_of at 1 2, state_of at 1 2, trace_of at 1 2 3.
  cbn [fst snd]. rewrite bind_eq.
  destruct (enable_mca_spec api se c2 w2) as (b & t3 & E3 & C3).
  rewrite E3.
  destruct (negb (status_funcs_ok api) || negb (spectrum_func_ok api))%bool;
    mred; unfold result_of, state_of, trace_of; cbn [fst snd];
    rewrite ?app_nil_r, !count_app, ?H1, ?H2, ?C3;
    cbn [count]; destruct b; cbn; split; try lia; try discriminate;
    try reflexivity.
Qed.

(** The clean-up never enables the MCA and never polls; it disables
    the MCA exactly when the acquisition had started and
    [cleanup_disables] holds. *)
Lemma cleanup_counts api acq ce (w : state) :
  count is_enable_mca (trace_of (cleanup api acq ce w)) = 0%nat
  /\ count is_status_ready (trace_of (cleanup api acq ce w)) = 0%nat
  /\ count is_spectrum_ready (trace_of (cleanup api acq ce w)) = 0%nat
  /\ count is_disable_mca (trace_of (cleanup api acq ce w))
     = (if (acq && cleanup_disables api ce)%bool then 1 else 0)%nat.
Proof.
  unfold cleanup, cleanup_disables, Schedule.succeeds. mred.
  destruct acq; cbn [andb]; [|mred; repeat split].
  destruct (has_DisableMCA api); cbn [andb]; mred; [|repeat split].
  destruct (status_funcs_ok api); mred.
  - destruct (final_GetDppStatus ce) as [st|e]; mred.
    + destruct (mca_enabled_flag st =? 0); mred; cbn [negb andb];
        [repeat split|].
      destruct (DisableMCA_call ce) as [[]|e']; mred; repeat split.
    + destruct (DisableMCA_call ce) as [[]|e']; mred; repeat split.
  - destruct (DisableMCA_call ce) as [[]|e']; mred; repeat split.
Qed.

Lemma setup_silent_for (P : event -> bool) api se :
  (forall m, P (message m) = false) ->
  (forall m, P (error m) = false) ->
  P EnableMCA = false ->
  silent P (setup api se).
Proof.
  intros Hm He Hen.
  unfold setup, send_config, send_pret, enable_mca, encode_ascii.
  repeat (silent_tac;
          try (apply silent_emit; first [apply Hm | apply He | exact Hen])).
Qed.

(** Without a started acquisition the loop is left at once. *)
Lemma poll_loop_idle (P : event -> bool) (polls : list poll_env) :
  P (message "Stop requested.") = false ->
  silent P (poll_loop false polls).
Proof.
  intros Hstop. destruct polls as [|p rest]; cbn [poll_loop].
  - silent_tac.
  - apply silent_bind.
    + unfold stop.
      repeat (silent_tac; try (apply silent_emit; exact Hstop)).
    + intros _. apply silent_bind; [apply silent_get|]. intros w.
      rewrite andb_false_r. apply silent_ret.
Qed.

(** X1. Whatever the device and the file system answer, [run] calls
    [EnableMCA] at most once and calls [DisableMCA] at most as often as
    it has called [EnableMCA]: the worker never disables an MCA it has
    not enabled. *)
Theorem X1_run_pairs_mca_calls api se polls ce (w : state) :
  (count is_enable_mca (trace_of (run api se polls ce w)) <= 1)%nat
  /\ (count is_disable_mca (trace_of (run api se polls ce w))
      <= count is_enable_mca (trace_of (run api se polls ce w)))%nat.
Proof.
  destruct api as [a|]; [|cbn; lia].
  destruct (_spectrum_buffer w) as [sb|] eqn:Hsb; cycle 1.
  { rewrite (run_without_buffers a se polls ce w (or_introl Hsb)).
    cbn. lia. }
  destruct (_status_buffer w) as [tb|] eqn:Htb; cycle 1.
  { rewrite (run_without_buffers a se polls ce w (or_intror Htb)).
    cbn. lia. }
  destruct (run_parts a se polls ce w Hsb Htb) as (t2 & t3 & Htr & Hparts).
  rewrite Htr, !count_app.
  destruct (setup_enables a se (with_running true w)) as [Hle Heq].
  pose proof (@setup_silent_for is_disable_mca a se
                (fun _ => eq_refl) (fun _ => eq_refl) eq_refl
                (with_running true w)) as Hd1.
  rewrite Hd1.
  destruct (result_of (setup a se (with_running true w))) as [acq|e].
  - destruct Hparts as [-> H3].
    rewrite (@poll_loop_silent is_enable_mca acq polls
               iteration_silent_enable eq_refl).
    rewrite (@poll_loop_silent is_disable_mca acq polls
               iteration_silent_disable eq_refl).
    rewrite H3.
    destruct (negb acq || existsb ends_loop polls)%bool; [|cbn; lia].
    match goal with
    | |- context [cleanup a acq ce ?w3] =>
        destruct (cleanup_counts a acq ce w3) as (C1 & _ & _ & C4)
    end.
    rewrite C1, C4. destruct acq; cbn [andb].
    + rewrite (Heq eq_refl). destruct (cleanup_disables a ce); lia.
    + lia.
  - destruct Hparts as [-> ->].
    match goal with
    | |- context [cleanup a false ce ?w3] =>
        destruct (cleanup_counts a false ce w3) as (C1 & _ & _ & C4)
    end.
    rewrite C1, C4. cbn. lia.
Qed.

(** X2. The worker polls the device only after it has enabled the
    MCA: a run in which [EnableMCA] is not called (the API is missing, a
    buffer was not allocated, the configuration file or the preset
    command fails, the call raises) requests no status and publishes no
    spectrum. *)
Theorem X2_run_polls_only_after_enabling api se polls ce (w : state) :
  count is_enable_mca (trace_of (run api se polls ce w)) = 0%nat ->
  count is_status_ready (trace_of (run api se polls ce w)) = 0%nat
  /\ count is_spectrum_ready (trace_of (run api se polls ce w)) = 0%nat.
Proof.
  destruct api as [a|]; [|intros _; split; reflexivity].
  destruct (_spectrum_buffer w) as [sb|] eqn:Hsb; cycle 1.
  { rewrite (run_without_buffers a se polls ce w (or_introl Hsb)).
    intros _; split; reflexivity. }
  destruct (_status_buffer w) as [tb|] eqn:Htb; cycle 1.
  { rewrite (run_without_buffers a se polls ce w (or_intror Htb)).
    intros _; split; reflexivity. }
  destruct (run_parts a se polls ce w Hsb Htb) as (t2 & t3 & Htr & Hparts).
  rewrite Htr, !count_app. intros Hen.
  destruct (setup_enables a se (with_running true w)) as [_ Heq].
  rewrite (@setup_silent_for is_status_ready a se
             (fun _ => eq_refl) (fun _ => eq_refl) eq_refl
             (with_running true w)).
  rewrite (@setup_silent_for is_spectrum_ready a se
             (fun _ => eq_refl) (fun _ => eq_refl) eq_refl
             (with_running true w)).
  destruct (result_of (setup a se (with_running true w))) as [acq|e].
  - destruct acq; [rewrite (Heq eq_refl) in Hen; discriminate Hen|].
    destruct Hparts as [-> H3].
    rewrite (@poll_loop_idle is_status_ready polls eq_refl).
    rewrite (@poll_loop_idle is_spectrum_ready polls eq_refl).
    rewrite H3. cbn [negb orb].
    match goal with
    | |- context [cleanup a false ce ?w3] =>
        destruct (cleanup_counts a false ce w3) as (_ & C2 & C3 & _)
    end.
    rewrite C2, C3. split; reflexivity.
  - destruct Hparts as [-> ->].
    match goal with
    | |- context [cleanup a false ce ?w3] =>
        destruct (cleanup_counts a false ce w3) as (_ & C2 & C3 & _)
    end.
    rewrite C2, C3. split; reflexivity.
Qed.

(** A use of X2: the configuration file is missing, and the worker ends
    without a status request although the hardware would answer. *)
Lemma X2_witness :
  count is_status_ready
    (trace_of
       (run (Some Scenario.full_caps) Cases.setup_no_file
          [Scenario.poll_acquiring; Scenario.poll_done] Scenario.cleanup_ok
          Cases.worker_with_config))
  = 0%nat.
Proof.
  apply (X2_run_polls_only_after_enabling (Some Scenario.full_caps)
           Cases.setup_no_file [Scenario.poll_acquiring; Scenario.poll_done]
           Scenario.cleanup_ok Cases.worker_with_config).
  reflexivity.
Defined.

(** X5. [run] calls [DisableMCA] exactly once when the set-up has
    started the acquisition, the poll loop has exited, and the clean-up
    gets to the call (the API offers it, the final status does not show
    the MCA already stopped, the call does not raise); otherwise it
    never calls it. *)
Theorem X5_run_disables_a_started_acquisition api se polls ce (w : state) :
  count is_disable_mca (trace_of (run api se polls ce w))
  = (if run_disables api se polls ce w then 1 else 0)%nat.
Proof.
  unfold run_disables, acquisition_starts.
  destruct api as [a|]; [|reflexivity].
  destruct (_spectrum_buffer w) as [sb|] eqn:Hsb; cycle 1.
  { rewrite (run_without_buffers a se polls ce w (or_introl Hsb)).
    reflexivity. }
  destruct (_status_buffer w) as [tb|] eqn:Htb; cycle 1.
  { rewrite (run_without_buffers a se polls ce w (or_intror Htb)).
    reflexivity. }
  destruct (run_parts a se polls ce w Hsb Htb) as (t2 & t3 & Htr & Hparts).
  rewrite Htr, !count_app.
  rewrite (@setup_silent_for is_disable_mca a se
             (fun _ => eq_refl) (fun _ => eq_refl) eq_refl
             (with_running true w)).
  destruct (result_of (setup a se (with_running true w))) as [acq|e].
  - destruct Hparts as [-> ->].
    rewrite (@poll_loop_silent is_disable_mca acq polls
               iteration_silent_disable eq_refl).
    destruct acq; cbn [negb orb andb].
    + destruct (existsb ends_loop polls); cbn [andb]; [|reflexivity].
      match goal with
      | |- context [cleanup a true ce ?w3] =>
          destruct (cleanup_counts a true ce w3) as (_ & _ & _ & C4)
      end.
      rewrite C4. reflexivity.
    + match goal with
      | |- context [cleanup a false ce ?w3] =>
          destruct (cleanup_counts a false ce w3) as (_ & _ & _ & C4)
      end.
      rewrite C4. reflexivity.
  - destruct Hparts as [-> ->].
    match goal with
    | |- context [cleanup a false ce ?w3] =>
        destruct (cleanup_counts a false ce w3) as (_ & _ & _ & C4)
    end.
    rewrite C4. reflexivity.
Qed.

(** What [fetch_and_publish] publishes fits the buffer of a [Spec]. *)
Lemma fetch_and_publish_fits p : silent oversized (fetch_and_publish p).
Proof.
  intro w. unfold fetch_and_publish. mred.
  destruct (RequestSpectrumData p) as [[sp st]|e]; mred; [|reflexivity].
  destruct ((0 <? CHANNELS sp) && (CHANNELS sp <=? MAX_BUFFER_DATA))%bool
    eqn:Hc; mred; [|reflexivity].
  apply andb_true_iff in Hc as [H0 H1].
  apply Z.ltb_lt in H0. apply Z.leb_le in H1.
  unfold count. cbn [filter oversized].
  replace (MAX_BUFFER_DATA
           <? Z.of_nat
                (Datatypes.length (firstn (Z.to_nat (CHANNELS sp)) (DATA sp))))
    with false; [reflexivity|].
  symmetry. apply Z.ltb_ge.
  pose proof (firstn_le_length (Z.to_nat (CHANNELS sp)) (DATA sp)). lia.
Qed.

Lemma iteration_fits p : silent oversized (iteration p).
Proof.
  unfold iteration.
  repeat (silent_tac; try apply fetch_and_publish_fits).
Qed.

Lemma cleanup_silent_for (P : event -> bool) api acq ce :
  (forall m, P (message m) = false) ->
  (forall m, P (error m) = false) ->
  P DisableMCA = false ->
  P finished = false ->
  silent P (cleanup api acq ce).
Proof.
  intros Hm He Hd Hf. unfold cleanup.
  repeat (silent_tac;
          try (apply silent_emit;
               first [apply Hm | apply He | exact Hd | exact Hf])).
Qed.

(** X3. Every spectrum the worker publishes fits the device buffer: a
    [spectrum_ready] signal of [run] never carries more than
    [MAX_BUFFER_DATA] channels, whatever channel count and data the
    device reports. *)
Theorem X3_published_spectra_fit_the_buffer api se polls ce (w : state)
  (sp : list Z) :
  In (spectrum_ready sp) (trace_of (run api se polls ce w)) ->
  Z.of_nat (List.length sp) <= MAX_BUFFER_DATA.
Proof.
  intros Hin.
  assert (Hs : silent oversized (run api se polls ce)).
  { unfold run.
    repeat (silent_tac;
            try apply (@setup_silent_for oversized);
            try apply (@cleanup_silent_for oversized);
            try (apply poll_loop_silent; [apply iteration_fits|]);
            try reflexivity). }
  destruct (MAX_BUFFER_DATA <? Z.of_nat (List.length sp)) eqn:Hlt.
  - exfalso.
    apply (@count_zero_not_in oversized _ (spectrum_ready sp) (Hs w));
      [exact Hlt | exact Hin].
  - apply Z.ltb_ge in Hlt. exact Hlt.
Qed.

(** A use of X3 on a run whose first pass finds the hardware stopped. *)
Lemma X3_witness :
  Z.of_nat (List.length [5; 7; 9]) <= MAX_BUFFER_DATA.
Proof.
  apply (X3_published_spectra_fit_the_buffer (Some Scenario.full_caps)
           Scenario.setup_ok [Scenario.poll_done] Scenario.cleanup_ok
           Scenario.ready_worker [5; 7; 9]).
  vm_compute. auto 20.
Defined.

Lemma bind_ext {S A B} (m : M S A) (f g : A -> M S B) (s : S) :
  (forall a s', f a s' = g a s') -> bind m f s = bind m g s.
Proof.
  intros H. unfold bind. destruct (m s) as [[[a|e] s1] t1]; [|reflexivity].
  rewrite H. reflexivity.
Qed.

Lemma bind_ext_l {S A B} (m1 m2 : M S A) (f : A -> M S B) (s : S) :
  m1 s = m2 s -> bind m1 f s = bind m2 f s.
Proof. intros H. unfold bind. rewrite H. reflexivity. Qed.

Lemma try_except_ext {S A} (m1 m2 : M S A) sel (h : exn -> M S A) (s : S) :
  m1 s = m2 s -> try_except m1 sel h s = try_except m2 sel h s.
Proof. intros H. unfold try_except. rewrite H. reflexivity. Qed.

(** A pass before which [stop()] has landed: the loop is left without
    a request to the device. *)
Lemma poll_loop_stopped acq p (rest : list poll_env) (w : state) :
  stop_called p = true ->
  poll_loop acq (p :: rest) w
  = (Ok true, with_running false w,
     if _running w then [message "Stop requested."] else []).
Proof.
  intros Hstop. cbn [poll_loop]. unfold when. rewrite Hstop.
  unfold bind at 1. rewrite WorkerFacts.stop_eq.
  unfold bind at 1. unfold get at 1.
  cbn [_running with_running andb]. unfold ret. rewrite app_nil_r.
  reflexivity.
Qed.

(** Once [stop()] has landed before a pass, the passes after it do not
    matter. *)
Lemma poll_loop_stop acq (pre : list poll_env) p post :
  stop_called p = true ->
  forall w, poll_loop acq (pre ++ p :: post) w = poll_loop acq (pre ++ [p]) w.
Proof.
  intros Hstop. induction pre as [|q pre IH]; intro w.
  - cbn [app]. rewrite !(poll_loop_stopped acq p _ w Hstop). reflexivity.
  - cbn [app poll_loop]. apply bind_ext. intros _ w1.
    apply bind_ext. intros w2 w3.
    destruct (_running w2 && acq)%bool; [|reflexivity].
    apply bind_ext. intros broke w4. destruct broke; [reflexivity|].
    apply IH.
Qed.

(** One pass requests the status at most once. *)
Lemma iteration_status_once p (w : state) :
  (count is_status_ready (trace_of (iteration p w)) <= 1)%nat.
Proof.
  unfold iteration, fetch_and_publish. mred.
  destruct (GetDppStatus p) as [st|e]; mred.
  - destruct (mca_enabled_flag st =? 0); mred;
      (destruct (RequestSpectrumData p) as [[sp st']|e']; mred;
       [destruct ((0 <? CHANNELS sp) && (CHANNELS sp <=? MAX_BUFFER_DATA))%bool;
        mred; cbn; lia|]);
      try (cbn; lia).
    destruct (is_class AttributeError e'); mred; cbn; lia.
  - destruct (is_class AttributeError e); mred; cbn; lia.
Qed.

(** A pass before which no [stop()] has landed. *)
Lemma poll_loop_pass acq q (rest : list poll_env) (w : state) :
  stop_called q = false ->
  poll_loop acq (q :: rest) w
  = if (_running w && acq)%bool
    then match iteration q w with
         | (Ok false, w2, t2) =>
             (result_of (poll_loop acq rest w2),
              state_of (poll_loop acq rest w2),
              (t2 ++ trace_of (poll_loop acq rest w2))%list)
         | (Ok true, w2, t2) => (Ok true, w2, t2)
         | (Raise e, w2, t2) => (Raise e, w2, t2)
         end
    else (Ok true, w, []).
Proof.
  intros Hstop. cbn [poll_loop]. unfold when. rewrite Hstop.
  unfold bind at 1. unfold ret at 1. unfold bind at 1. unfold get at 1.
  destruct (_running w && acq)%bool; [|reflexivity].
  rewrite bind_eq.
  destruct (iteration q w) as [[[broke|e] w2] t2]; [|reflexivity].
  destruct broke; cbn [app]; [|reflexivity].
  unfold ret, result_of, state_of, trace_of. cbn [fst snd].
  rewrite app_nil_r. reflexivity.
Qed.

Lemma poll_loop_status_count acq (pre : list poll_env) p :
  stop_called p = true ->
  forall w,
    (count is_status_ready (trace_of (poll_loop acq (pre ++ [p]) w))
     <= List.length pre)%nat.
Proof.
  intros Hstop. induction pre as [|q pre IH]; intro w.
  - cbn [app]. rewrite (poll_loop_stopped acq p [] w Hstop).
    destruct (_running w); cbn; lia.
  - cbn [app List.length]. destruct (stop_called q) eqn:Hq.
    + rewrite (poll_loop_stopped acq q _ w Hq).
      destruct (_running w); cbn; lia.
    + rewrite (poll_loop_pass acq q _ w Hq).
      destruct (_running w && acq)%bool; [|cbn; lia].
      pose proof (iteration_status_once q w) as Hi.
      destruct (iteration q w) as [[[broke|e] w2] t2];
        unfold trace_of in Hi; cbn [snd] in Hi;
        [|unfold trace_of; cbn [snd]; lia].
      destruct broke; [unfold trace_of; cbn [snd]; lia|].
      unfold trace_of at 1. cbn [snd]. rewrite count_app.
      specialize (IH w2). lia.
Qed.

(** X4. Cooperative cancellation is prompt. When the controller's
    [stop()] lands before a pass of the poll loop, [run] behaves as if
    that pass were the last one: what the device would answer in later
    passes does not matter. The stopping pass itself sends no request,
    so the worker has requested the status at most once per earlier
    pass. *)
Theorem X4_stop_ends_polling api se (pre : list poll_env) p post ce
  (w : state) :
  stop_called p = true ->
  run api se (pre ++ p :: post) ce w = run api se (pre ++ [p]) ce w
  /\ (count is_status_ready (trace_of (run api se (pre ++ p :: post) ce w))
      <= List.length pre)%nat.
Proof.
  intros Hstop.
  assert (Heq : run api se (pre ++ p :: post) ce w
                = run api se (pre ++ [p]) ce w).
  { unfold run. destruct api as [a|]; [|reflexivity].
    apply bind_ext. intros w0 w1.
    destruct (_spectrum_buffer w0); [|reflexivity].
    destruct (_status_buffer w0); [|reflexivity].
    apply bind_ext. intros _ w2. apply bind_ext_l. apply try_except_ext.
    apply bind_ext. intros acq w3. apply bind_ext_l.
    apply poll_loop_stop. exact Hstop. }
  split; [exact Heq|]. rewrite Heq.
  destruct api as [a|]; [|cbn; lia].
  destruct (_spectrum_buffer w) as [sb|] eqn:Hsb; cycle 1.
  { rewrite (run_without_buffers a se _ ce w (or_introl Hsb)). cbn. lia. }
  destruct (_status_buffer w) as [tb|] eqn:Htb; cycle 1.
  { rewrite (run_without_buffers a se _ ce w (or_intror Htb)). cbn. lia. }
  destruct (run_parts a se (pre ++ [p]) ce w Hsb Htb)
    as (t2 & t3 & Htr & Hparts).
  rewrite Htr, !count_app.
  rewrite (@setup_silent_for is_status_ready a se
             (fun _ => eq_refl) (fun _ => eq_refl) eq_refl
             (with_running true w)).
  destruct (result_of (setup a se (with_running true w))) as [acq|e].
  - destruct Hparts as [-> ->].
    match goal with
    | |- context [poll_loop acq (pre ++ [p]) ?w2] =>
        pose proof (poll_loop_status_count acq pre p Hstop w2) as Hc
    end.
    destruct (negb acq || existsb ends_loop (pre ++ [p]))%bool;
      [|cbn; lia].
    match goal with
    | |- context [cleanup a acq ce ?w3] =>
        destruct (cleanup_counts a acq ce w3) as (_ & C2 & _ & _)
    end.
    rewrite C2. lia.
  - destruct Hparts as [-> ->].
    match goal with
    | |- context [cleanup a false ce ?w3] =>
        destruct (cleanup_counts a false ce w3) as (_ & C2 & _ & _)
    end.
    rewrite C2. cbn. lia.
Qed.

(** A use of X4: the worker is stopped before its second pass. *)
Lemma X4_witness :
  run (Some Scenario.full_caps) Scenario.setup_ok
    ([Scenario.poll_acquiring]
       ++ Cases.poll_stopped :: [Scenario.poll_acquiring; Scenario.poll_done])
    Scenario.cleanup_ok Scenario.ready_worker
  = run (Some Scenario.full_caps) Scenario.setup_ok
      ([Scenario.poll_acquiring] ++ [Cases.poll_stopped])
      Scenario.cleanup_ok Scenario.ready_worker.
Proof.
  apply (X4_stop_ends_polling (Some Scenario.full_caps) Scenario.setup_ok
           [Scenario.poll_acquiring] Cases.poll_stopped
           [Scenario.poll_acquiring; Scenario.poll_done] Scenario.cleanup_ok
           Scenario.ready_worker).
  reflexivity.
Defined.

(** *** The preset command *)

Lemma prefix_has_char (c : ascii) (n h : string) :
  String.prefix n h = true -> has_char c n = true -> has_char c h = true.
Proof.
  revert h. induction n as [|a n IH]; intros h Hp Hc; [discriminate Hc|].
  destruct h as [|b h]; [discriminate Hp|].
  cbn [String.prefix] in Hp.
  destruct (Ascii.ascii_dec a b) as [->|]; [|discriminate Hp].
  cbn [has_char] in *. apply orb_true_iff in Hc as [Hc|Hc].
  - rewrite Hc. reflexivity.
  - rewrite (IH h Hp Hc). apply orb_true_r.
Qed.

Lemma contains_has_char (c : ascii) (n h : string) :
  contains n h = true -> has_char c n = true -> has_char c h = true.
Proof.
  induction h as [|b h IH]; intros Hc Hn.
  - cbn [contains] in Hc. rewrite orb_false_r in Hc.
    apply (prefix_has_char c n "" Hc Hn).
  - cbn [contains] in Hc. apply orb_true_iff in Hc as [Hc|Hc].
    + apply (prefix_has_char c n _ Hc Hn).
    + cbn [has_char]. rewrite (IH Hc Hn). apply orb_true_r.
Qed.

Lemma has_char_app (c : ascii) (a b : string) :
  has_char c (a ++ b) = (has_char c a || has_char c b)%bool.
Proof.
  induction a as [|x a IH]; [reflexivity|].
  cbn [append has_char]. rewrite IH, orb_assoc. reflexivity.
Qed.

Lemma no_O_in_uint (d : Decimal.uint) :
  has_char "O" (NilEmpty.string_of_uint d) = false.
Proof. induction d; cbn [NilEmpty.string_of_uint has_char]; auto. Qed.

Lemma no_O_in_str_of_Z (z : Z) : has_char "O" (str_of_Z z) = false.
Proof.
  unfold str_of_Z, NilZero.string_of_int, NilZero.string_of_uint.
  destruct (Z.to_int z) as [d|d]; destruct d;
    try reflexivity;
    try (apply (no_O_in_uint (Decimal.D0 _)) || apply no_O_in_uint).
  all: cbn [has_char]; try reflexivity.
  all: try (change (has_char "O" (NilEmpty.string_of_uint ?d) = false);
            apply no_O_in_uint).
Qed.

(** A timed preset command does not read as [PRET=OFF]. *)
Lemma timed_preset_is_not_off (t : Z) :
  contains "PRET=OFF" ("PRET=" ++ fmt_1f t ++ ";") = false.
Proof.
  destruct (contains "PRET=OFF" ("PRET=" ++ fmt_1f t ++ ";")) eqn:Hc;
    [|reflexivity].
  assert (H : has_char "O" ("PRET=" ++ fmt_1f t ++ ";") = true).
  { apply (contains_has_char "O" "PRET=OFF" _ Hc). reflexivity. }
  unfold fmt_1f in H. rewrite !has_char_app, no_O_in_str_of_Z in H.
  discriminate H.
Qed.

(** [send_pret] when the device refuses the command. *)
Lemma send_pret_refused api se (w : state) :
  has_send_ascii_command api = true ->
  send_ascii_command se = Ok false ->
  send_pret api se w
  = (Ok (negb (timed w)), w,
     [message ("Sending Preset Command: " ++ pret_command (_preset_time w));
      error ("Failed send command: " ++ pret_command (_preset_time w))]).
Proof.
  intros Hhas Hsend. unfold send_pret. rewrite Hhas. mred. rewrite Hsend.
  mred. unfold timed, pret_command.
  destruct (_preset_time w) as [t|]; [|reflexivity].
  destruct (0 <? t); [|reflexivity].
  rewrite timed_preset_is_not_off. reflexivity.
Qed.

(** X6. When the device refuses the preset command, the worker goes on
    only if no acquisition time was asked for: a refused [PRET=OFF] is
    reported and tolerated, while after a refused timed preset the
    worker never enables the MCA, so no acquisition runs without its
    time limit. *)
Theorem X6_refused_preset api se polls ce (w : state) :
  has_send_ascii_command api = true ->
  send_ascii_command se = Ok false ->
  result_of (send_pret api se w) = Ok (negb (timed w))
  /\ (timed w = true ->
      count is_enable_mca (trace_of (run (Some api) se polls ce w)) = 0%nat).
Proof.
  intros Hhas Hsend. split.
  { rewrite (send_pret_refused api se w Hhas Hsend). reflexivity. }
  intros Ht.
  destruct (_spectrum_buffer w) as [sb|] eqn:Hsb; cycle 1.
  { rewrite (run_without_buffers api se polls ce w (or_introl Hsb)).
    reflexivity. }
  destruct (_status_buffer w) as [tb|] eqn:Htb; cycle 1.
  { rewrite (run_without_buffers api se polls ce w (or_intror Htb)).
    reflexivity. }
  destruct (run_parts api se polls ce w Hsb Htb) as (t2 & t3 & Htr & Hparts).
  rewrite Htr, !count_app.
  (* the set-up does not get to [EnableMCA] *)
  assert (Hset : count is_enable_mca
                   (trace_of (setup api se (with_running true w))) = 0%nat
                 /\ result_of (setup api se (with_running true w))
                    <> Ok true).
  { unfold setup. rewrite bind_eq.
    pose proof (send_config_silent_enable api se (with_running true w)) as H1.
    pose proof (WorkerFacts.setup_keeps_running api se) as _.
    assert (Hk : keeps _preset_time (send_config api se)).
    { unfold send_config, encode_ascii. keeps_tac. }
    specialize (Hk (with_running true w)).
    destruct (send_config api se (with_running true w))
      as [[[c1|e1] w1] t1]; unfold trace_of, state_of in *;
      cbn [fst snd] in *;
      [|unfold result_of; cbn [fst snd]; split; [exact H1 | discriminate]].
    rewrite bind_eq.
    assert (Hp : (if c1 then send_pret api se else ret false) w1
                 = (Ok false, w1,
                    if c1
                    then [message ("Sending Preset Command: "
                                   ++ pret_command (_preset_time w1));
                          error ("Failed send command: "
                                 ++ pret_command (_preset_time w1))]
                    else [])).
    { destruct c1; [|reflexivity].
      rewrite (send_pret_refused api se w1 Hhas Hsend).
      unfold timed. rewrite Hk. cbn [with_running _preset_time].
      unfold timed in Ht. rewrite Ht. reflexivity. }
    rewrite Hp. unfold result_of at 1 2, state_of at 1 2, trace_of at 1 2 3.
    cbn [fst snd]. rewrite bind_eq.
    unfold enable_mca at 1 2 3. mred.
    destruct (negb (status_funcs_ok api) || negb (spectrum_func_ok api))%bool;
      mred; unfold result_of, trace_of; cbn [fst snd];
      rewrite ?app_nil_r, !count_app, H1; destruct c1; cbn;
      split; try reflexivity; discriminate. }
  destruct Hset as [Hc Hr]. rewrite Hc.
  destruct (result_of (setup api se (with_running true w))) as [acq|e].
  - destruct Hparts as [-> ->].
    rewrite (@poll_loop_silent is_enable_mca acq polls
               iteration_silent_enable eq_refl).
    destruct (negb acq || existsb ends_loop polls)%bool; [|reflexivity].
    match goal with
    | |- context [cleanup api acq ce ?w3] =>
        destruct (cleanup_counts api acq ce w3) as (C1 & _)
    end.
    rewrite C1. reflexivity.
  - destruct Hparts as [-> ->].
    match goal with
    | |- context [cleanup api false ce ?w3] =>
        destruct (cleanup_counts api false ce w3) as (C1 & _)
    end.
    rewrite C1. reflexivity.
Qed.

(** A use of X6: a preset of ten seconds is refused, and the MCA is
    not enabled. *)
Lemma X6_witness :
  count is_enable_mca
    (trace_of
       (run (Some Scenario.full_caps) Cases.setup_pret_refused
          [Scenario.poll_done] Scenario.cleanup_ok Scenario.ready_worker))
  = 0%nat.
Proof.
  apply (proj2 (X6_refused_preset Scenario.full_caps Cases.setup_pret_refused
                  [Scenario.poll_done] Scenario.cleanup_ok
                  Scenario.ready_worker eq_refl eq_refl)).
  reflexivity.
Defined.

End WorkerMore.

(* --------------------------------------------------------------------- *)
(** ** The helper functions of the DP5 API module                         *)
(* --------------------------------------------------------------------- *)

Module HelperFacts.
Import DP5Api DP5AcquisitionWorker DP5ApiHelpers.

(** X7. [spec_to_numpy] returns the live channels of a [Spec] whose
    channel count is between 1 and [MAX_BUFFER_DATA] and nothing
    otherwise, so its result never exceeds the buffer; and the worker,
    which slices the buffer itself, publishes exactly what
    [spec_to_numpy] returns, and publishes nothing when it returns
    nothing. [DATA] is the fixed array of [MAX_BUFFER_DATA] channels. *)
Theorem X7_spec_to_numpy_is_what_the_worker_publishes (p : poll_env)
  (sp : Spec) (st : DP5_DP4_FORMAT_STATUS) (w : state) :
  Z.of_nat (List.length (DATA sp)) = MAX_BUFFER_DATA ->
  RequestSpectrumData p = Ok (sp, st) ->
  Z.of_nat (List.length (spec_to_numpy (Some sp)))
  = (if ((0 <? CHANNELS sp) && (CHANNELS sp <=? MAX_BUFFER_DATA))%bool
     then CHANNELS sp else 0)
  /\ trace_of (fetch_and_publish p w)
     = match spec_to_numpy (Some sp) with
       | [] => []
       | _ => [spectrum_ready (spec_to_numpy (Some sp))]
       end.
Proof.
  intros Hlen Hreq. unfold fetch_and_publish, spec_to_numpy.
  rewrite Hreq. mred. cbn [fst snd].
  destruct (0 <? CHANNELS sp) eqn:H0; cbn [andb].
  - apply Z.ltb_lt in H0.
    replace (CHANNELS sp <=? 0) with false
      by (symmetry; apply Z.leb_gt; exact H0).
    cbn [orb].
    destruct (CHANNELS sp <=? MAX_BUFFER_DATA) eqn:H1.
    + apply Z.leb_le in H1.
      replace (MAX_BUFFER_DATA <? CHANNELS sp) with false
        by (symmetry; apply Z.ltb_ge; exact H1).
      assert (Hn : List.length (firstn (Z.to_nat (CHANNELS sp)) (DATA sp))
                   = Z.to_nat (CHANNELS sp)).
      { apply firstn_length_le. lia. }
      split; [rewrite Hn; lia|].
      mred.
      destruct (firstn (Z.to_nat (CHANNELS sp)) (DATA sp)) eqn:Hf;
        [|reflexivity].
      cbn [List.length] in Hn. lia.
    + apply Z.leb_gt in H1.
      replace (MAX_BUFFER_DATA <? CHANNELS sp) with true
        by (symmetry; apply Z.ltb_lt; exact H1).
      split; reflexivity.
  - apply Z.ltb_ge in H0.
    replace (CHANNELS sp <=? 0) with true
      by (symmetry; apply Z.leb_le; exact H0).
    split; reflexivity.
Qed.

(** A use of X7 on a buffer with three live channels. *)
Lemma X7_witness :
  trace_of
    (fetch_and_publish
       (mk_poll false (Ok (Scenario.status_with 0))
          (Ok (Cases.spec_three, Scenario.status_with 0)))
       Scenario.ready_worker)
  = match spec_to_numpy (Some Cases.spec_three) with
    | [] => []
    | _ => [spectrum_ready (spec_to_numpy (Some Cases.spec_three))]
    end.
Proof.
  apply (X7_spec_to_numpy_is_what_the_worker_publishes
           (mk_poll false (Ok (Scenario.status_with 0))
              (Ok (Cases.spec_three, Scenario.status_with 0)))
           (st := Scenario.status_with 0) Scenario.ready_worker);
    reflexivity.
Defined.

(** The DLL took the command string: [SendCommandString] answered 1. *)
Lemma pret_command_plain (pt : option Z) :
  str_truthy (pret_command pt) = true /\ is_ascii (pret_command pt) = true.
Proof.
  unfold pret_command, fmt_1f.
  destruct pt as [t|]; [destruct (0 <? t)|]; split; try reflexivity.
  rewrite !SeqFacts.is_ascii_app, SeqFacts.is_ascii_str_of_Z. reflexivity.
Qed.

(** X8. [send_ascii_command] raises only when the DLL function is not
    loaded; otherwise it returns [True] exactly when the command is not
    empty, is plain ASCII, and [SendCommandString] answers 1, and
    [False] in every other case, also when the DLL call raises. It
    emits nothing. For the preset commands the worker builds, which are
    never empty and always plain ASCII, the answer is that of the
    DLL. *)
Theorem X8_send_ascii_command_answer {S} (env : send_env)
  (command_string : string) (s : S) :
  send_ascii_command env command_string s
  = ((if SendCommandString_loaded env
      then Ok (str_truthy command_string && is_ascii command_string
               && match SendCommandString env with
                  | Ok r => r =? 1
                  | Raise _ => false
                  end)%bool
      else Raise (mk_exn RuntimeError
                    "DP5 API or SendCommandString function not loaded.")),
     s, [])
  /\ (forall pt,
        SendCommandString_loaded env = true ->
        result_of (send_ascii_command env (pret_command pt) s)
        = Ok match SendCommandString env with
             | Ok r => r =? 1
             | Raise _ => false
             end).
Proof.
  assert (H : forall c,
             send_ascii_command env c s
             = ((if SendCommandString_loaded env
                 then Ok (str_truthy c && is_ascii c
                          && match SendCommandString env with
                             | Ok r => r =? 1
                             | Raise _ => false
                             end)%bool
                 else Raise (mk_exn RuntimeError
                      "DP5 API or SendCommandString function not loaded.")),
                s, [])).
  { intro c. unfold send_ascii_command, encode_ascii.
    destruct (SendCommandString_loaded env); [|reflexivity].
    cbn [negb]. destruct (str_truthy c); [|reflexivity].
    cbn [negb andb]. mred.
    destruct (is_ascii c); mred; [|reflexivity].
    destruct (SendCommandString env) as [r|e]; mred; [|reflexivity].
    destruct (r =? 1); reflexivity. }
  split; [apply H|].
  intros pt Hl. rewrite H, Hl.
  destruct (pret_command_plain pt) as [-> ->]. reflexivity.
Qed.

(** A use of X8 on the command of a ten-second preset. *)
Lemma X8_witness :
  result_of
    (send_ascii_command Cases.send_ok (pret_command (Some 10))
       Scenario.ready_worker)
  = Ok true.
Proof.
  apply (proj2 (X8_send_ascii_command_answer Cases.send_ok ""
                  Scenario.ready_worker) (Some 10)).
  reflexivity.
Defined.

End HelperFacts.

(* --------------------------------------------------------------------- *)
(** ** The spectrometer controller                                        *)
(* --------------------------------------------------------------------- *)

Module DP5More.
Import DP5Api DP5Controller DP5ControllerIO.

Ltac dp5_open :=
  unfold connect, disconnect, load_config, clear_data,
    request_single_status_update, save_last_spectrum, start_acquisition,
    retire_previous, stop_acquisition, thread_finished,
    _handle_worker_status, _handle_worker_spectrum, _handle_worker_message,
    _handle_worker_error, _handle_worker_finished,
    _clear_thread_worker_refs, _set_acquiring, _set_connected,
    _report_error, _post_status_message, in_base, Base._report_error,
    Base._post_status_message, Base._set_connected, encode_ascii in *.

Ltac dp5_proj :=
  cbv beta iota zeta delta
    [base _is_acquiring _last_config_file _worker _thread
     _last_spectrum_data _last_status_data live_threads next_id
     is_connected is_acquiring with_base with_acquiring with_refs
     with_spectrum with_status with_threads with_config saving_available
     Base._api Base._is_connected Base._last_error Base.api_loaded
     Base.with_connected Base.with_last_error];
  cbn [Bool.eqb negb andb orb truthy state_of trace_of result_of fst snd app].

Ltac dp5_run := do 4 (mred; dp5_proj).

Ltac dp5_proj_in H :=
  cbv beta iota zeta delta
    [base _is_acquiring _last_config_file _worker _thread
     _last_spectrum_data _last_status_data live_threads next_id
     is_connected is_acquiring with_base with_acquiring with_refs
     with_spectrum with_status with_threads with_config saving_available
     Base._api Base._is_connected Base._last_error Base.api_loaded
     Base.with_connected Base.with_last_error] in H;
  cbn [Bool.eqb negb andb orb truthy state_of trace_of result_of fst snd app]
    in H.

Ltac dp5_run_in H := do 4 (mred_in H; dp5_proj_in H).

(** [astype(np.int32)] leaves 32-bit values alone. *)
Lemma wrap_int32_id (data : list Z) :
  int32_data data = true -> map wrap_int32 data = data.
Proof.
  unfold int32_data. induction data as [|z data IH]; [reflexivity|].
  cbn [forallb map]. intros H. apply andb_true_iff in H as [Hz Hd].
  apply andb_true_iff in Hz as [Hlo Hhi].
  apply Z.leb_le in Hlo. apply Z.ltb_lt in Hhi.
  rewrite (IH Hd). f_equal. unfold wrap_int32.
  rewrite Z.mod_small by lia. lia.
Qed.

Lemma substring_length_le (m : nat) (s : string) :
  (String.length (substring 0 m s) <= m)%nat.
Proof.
  revert s. induction m as [|m IH]; intro s.
  - destruct s; cbn; lia.
  - destruct s as [|c s]; cbn [substring String.length]; [lia|].
    specialize (IH s). lia.
Qed.

(** X9. What the worker publishes is what gets saved. After the
    controller has cached a published spectrum of 32-bit counts that
    fits the buffer, [save_last_spectrum] with plain-ASCII path, tag
    and description (and a DLL that does not fail) returns [True] and
    writes one file: at the given path, with exactly the published
    channel data, the channel count equal to the number of channels,
    and the tag and description cut to the 15 and 127 bytes their
    buffers hold. *)
Theorem X9_saved_file_holds_the_published_spectrum (env : save_env)
  (filepath description tag : string) (data : list Z) (s : state) :
  saving_available s = true ->
  Schedule.succeeds (Spec_new env) = true ->
  Schedule.succeeds (SaveMCADataToFile_call env) = true ->
  Z.of_nat (List.length data) <= MAX_BUFFER_DATA ->
  int32_data data = true ->
  is_ascii filepath = true ->
  is_ascii description = true ->
  is_ascii tag = true ->
  result_of ((_handle_worker_spectrum data ;;
              save_last_spectrum env filepath description tag) s)
  = Ok (PyBool true)
  /\ exists info,
       filter is_file_write
         (trace_of ((_handle_worker_spectrum data ;;
                     save_last_spectrum env filepath description tag) s))
       = [SaveMCADataToFile filepath data (Z.of_nat (List.length data)) info]
       /\ strTag info = substring 0 15 tag
       /\ strDescription info = substring 0 127 description.
Proof.
  intros Hsave Hnew Hcall Hlen Hint Hp Hd Ht.
  destruct s as [[api conn lerr] acq cfg w t sp st live nid].
  unfold saving_available in Hsave. cbn [base Base._api] in Hsave.
  destruct api as [a|]; [|discriminate Hsave].
  destruct (Spec_new env) as [[]|e1] eqn:Enew; [|discriminate Hnew].
  destruct (SaveMCADataToFile_call env) as [[]|e2] eqn:Ecall;
    [|discriminate Hcall].
  apply Z.ltb_ge in Hlen.
  remember ((_handle_worker_spectrum data ;;
             save_last_spectrum env filepath description tag)
              (mk (Base.mk (Some a) conn lerr) acq cfg w t sp st live nid))
    as x eqn:Hx.
  dp5_open. dp5_run_in Hx. rewrite Hsave in Hx. dp5_run_in Hx.
  rewrite Enew in Hx. dp5_run_in Hx. rewrite Hlen in Hx. dp5_run_in Hx.
  rewrite Ht in Hx. dp5_run_in Hx. rewrite Hd in Hx. dp5_run_in Hx.
  rewrite Hp in Hx. dp5_run_in Hx. rewrite Ecall in Hx. dp5_run_in Hx.
  rewrite (wrap_int32_id data Hint) in Hx.
  subst x. split; [reflexivity|].
  destruct st as [sd|]; eexists; (split; [reflexivity|]); split; reflexivity.
Qed.

(** A use of X9 on the idle controller of the examples. *)
Lemma X9_witness :
  result_of ((_handle_worker_spectrum [5; 7; 9] ;;
              save_last_spectrum Scenario.save_ok "C:\data\a.mca"
                "DP5 Spectrum" "PYXRF") Scenario.dp5_idle)
  = Ok (PyBool true).
Proof.
  apply (X9_saved_file_holds_the_published_spectrum Scenario.save_ok
           "C:\data\a.mca" "DP5 Spectrum" "PYXRF" [5; 7; 9]
           Scenario.dp5_idle); try reflexivity.
  cbn. unfold MAX_BUFFER_DATA. lia.
Defined.

(** X10. A spectrum file never overflows the fixed buffers of the DLL
    records: whatever is cached and whatever strings are passed, every
    file [save_last_spectrum] writes has at most [MAX_BUFFER_DATA]
    channels, a channel count equal to the length of its data, a tag of
    at most 15 bytes and a description of at most 127 bytes. *)
Theorem X10_saved_files_fit_the_records (env : save_env)
  (filepath description tag : string) (s : state) :
  count ill_sized_file
    (trace_of (save_last_spectrum env filepath description tag s))
  = 0%nat.
Proof.
  destruct s as [[api conn lerr] acq cfg w t sp st live nid].
  dp5_open. dp5_run.
  destruct api as [a|]; dp5_run; [|reflexivity].
  destruct (has_SaveMCADataToFile a); dp5_run; [|reflexivity].
  destruct sp as [data|]; dp5_run; [|reflexivity].
  destruct (Spec_new env) as [[]|e1]; dp5_run;
    [|destruct (is_class OverflowError e1); dp5_run; reflexivity].
  destruct (MAX_BUFFER_DATA <? Z.of_nat (Datatypes.length data)) eqn:Hlen;
    dp5_run; [reflexivity|].
  destruct (is_ascii tag); dp5_run; [|reflexivity].
  destruct (is_ascii description); dp5_run; [|reflexivity].
  destruct (is_ascii filepath); dp5_run; [|reflexivity].
  destruct (SaveMCADataToFile_call env) as [[]|e2]; dp5_run;
    [|destruct (is_class OverflowError e2); dp5_run; reflexivity].
  unfold count. cbn [filter ill_sized_file].
  assert (Hbad : forall info,
             (Z.of_nat (String.length (strTag info)) <= MAX_TAG_SIZE - 1) ->
             (Z.of_nat (String.length (strDescription info))
              <= MAX_DESCRIPTION_SIZE - 1) ->
             ((MAX_TAG_SIZE - 1 <? Z.of_nat (String.length (strTag info)))
              || (MAX_DESCRIPTION_SIZE - 1
                  <? Z.of_nat (String.length (strDescription info)))
              || (MAX_BUFFER_DATA <? Z.of_nat (Datatypes.length data))
              || negb (Z.of_nat (Datatypes.length data)
                       =? Z.of_nat
                            (Datatypes.length (map wrap_int32 data))))%bool
             = false).
  { intros info H1 H2. rewrite Hlen, length_map, Z.eqb_refl.
    apply Z.ltb_ge in H1. apply Z.ltb_ge in H2. rewrite H1, H2.
    reflexivity. }
  pose proof (substring_length_le (Z.to_nat (MAX_TAG_SIZE - 1)) tag) as Htag.
  pose proof (substring_length_le (Z.to_nat (MAX_DESCRIPTION_SIZE - 1))
                description) as Hdesc.
  destruct st as [sd|]; rewrite Hbad; try reflexivity;
    cbn [strTag strDescription]; unfold MAX_TAG_SIZE, MAX_DESCRIPTION_SIZE in *;
    lia.
Qed.

(** X11. [clear_data] on a connected, idle controller whose DLL call
    succeeds forgets the cached spectrum and shows the user interface a
    spectrum of [MAX_BUFFER_DATA] zeros, so that a save that follows is
    refused and writes nothing. While an acquisition runs, [clear_data]
    is refused with one error and the cached spectrum is kept. *)
Theorem X11_clear_data_forgets_the_spectrum (cenv : clear_env)
  (senv : save_env) (filepath description tag : string) (s : state) :
  Base.api_loaded (base s) = true ->
  is_connected s = true ->
  (is_acquiring s = false ->
   Schedule.succeeds (ClearData_call cenv) = true ->
   result_of (clear_data cenv s) = Ok tt
   /\ _last_spectrum_data (state_of (clear_data cenv s)) = None
   /\ In (spectrum_updated (repeat 0 (Z.to_nat MAX_BUFFER_DATA)))
        (trace_of (clear_data cenv s))
   /\ result_of (save_last_spectrum senv filepath description tag
                   (state_of (clear_data cenv s))) = Ok PyNone
   /\ count is_file_write
        (trace_of (save_last_spectrum senv filepath description tag
                     (state_of (clear_data cenv s)))) = 0%nat)
  /\ (is_acquiring s = true ->
      _last_spectrum_data (state_of (clear_data cenv s))
      = _last_spectrum_data s
      /\ trace_of (clear_data cenv s)
         = [error_occurred DP5 "Stop acquisition before clearing data."]).
Proof.
  intros Hapi Hconn.
  destruct s as [[api conn lerr] acq cfg w t sp st live nid].
  cbn in Hapi, Hconn. destruct api as [a|]; [|discriminate Hapi]. subst conn.
  split.
  - intros Hacq Hclear. cbn in Hacq. subst acq.
    destruct (ClearData_call cenv) as [[]|e] eqn:Ec; [|discriminate Hclear].
    assert (Hcd : exists lerr' st' tr,
               clear_data cenv
                 (mk (Base.mk (Some a) true lerr) false cfg w t sp st live nid)
               = (Ok tt,
                  mk (Base.mk (Some a) true lerr') false cfg w t None st'
                    live nid,
                  tr)
               /\ In (spectrum_updated (repeat 0 (Z.to_nat MAX_BUFFER_DATA)))
                    tr).
    { remember (clear_data cenv
                  (mk (Base.mk (Some a) true lerr) false cfg w t sp st live
                     nid)) as x eqn:Hx.
      dp5_open. dp5_run_in Hx. rewrite Ec in Hx. dp5_run_in Hx.
      destruct (clear_status cenv) as [s1|e1]; dp5_run_in Hx; subst x;
        do 3 eexists; (split; [reflexivity|]); cbn [In]; auto 10. }
    destruct Hcd as (lerr' & st' & tr & Hcd & Hin). rewrite Hcd.
    unfold result_of, state_of, trace_of. cbn [fst snd].
    split; [reflexivity|]. split; [reflexivity|]. split; [exact Hin|].
    rewrite (DP5Facts.save_nothing_cached senv filepath description tag
               (mk (Base.mk (Some a) true lerr') false cfg w t None st' live
                  nid) eq_refl).
    cbn [fst snd]. split; reflexivity.
  - intros Hacq. cbn in Hacq. subst acq. split; reflexivity.
Qed.

(** A use of X11: the cached spectrum of three channels is cleared, and
    the save that follows writes nothing. *)
Lemma X11_witness :
  count is_file_write
    (trace_of
       (save_last_spectrum Scenario.save_ok "C:\data\a.mca" "DP5 Spectrum"
          "PYXRF"
          (state_of (clear_data Cases.clear_ok Cases.dp5_with_spectrum))))
  = 0%nat.
Proof.
  apply (proj1 (X11_clear_data_forgets_the_spectrum Cases.clear_ok
                  Scenario.save_ok "C:\data\a.mca" "DP5 Spectrum" "PYXRF"
                  Cases.dp5_with_spectrum eq_refl eq_refl));
    reflexivity.
Defined.

(** X12. [disconnect] with the API loaded never raises and always
    leaves the controller marked as disconnected, also when
    [CloseConnection] fails; a controller that was connected has
    forgotten its cached spectrum and status afterwards, and a
    controller that was not connected is no longer marked as
    acquiring. *)
Theorem X12_disconnect_leaves_disconnected (env : disconnect_env)
  (s : state) :
  Base.api_loaded (base s) = true ->
  result_of (disconnect env s) = Ok tt
  /\ is_connected (state_of (disconnect env s)) = false
  /\ (is_connected s = true ->
      _last_spectrum_data (state_of (disconnect env s)) = None
      /\ _last_status_data (state_of (disconnect env s)) = None)
  /\ (is_connected s = false ->
      is_acquiring (state_of (disconnect env s)) = false).
Proof.
  intros Hapi.
  destruct s as [[api conn lerr] acq cfg w t sp st live nid].
  cbn in Hapi. destruct api as [a|]; [|discriminate Hapi].
  remember (disconnect env
              (mk (Base.mk (Some a) conn lerr) acq cfg w t sp st live nid))
    as x eqn:Hx.
  dp5_open. unfold isRunning in Hx. dp5_run_in Hx.
  destruct acq; dp5_run_in Hx.
  - destruct w as [wid|]; dp5_run_in Hx.
    + destruct t as [tid|]; dp5_run_in Hx.
      * destruct (existsb (Nat.eqb tid) live && wait_500 env)%bool;
          dp5_run_in Hx;
          (destruct conn; dp5_run_in Hx;
           [destruct (CloseConnection_call env) as [[]|e]; dp5_run_in Hx|]);
          subst x; repeat split; try reflexivity; intros; discriminate.
      * destruct conn; dp5_run_in Hx;
          [destruct (CloseConnection_call env) as [[]|e]; dp5_run_in Hx|];
          subst x; repeat split; try reflexivity; intros; discriminate.
    + destruct t as [tid|]; dp5_run_in Hx.
      * destruct (existsb (Nat.eqb tid) live && wait_500 env)%bool;
          dp5_run_in Hx;
          (destruct conn; dp5_run_in Hx;
           [destruct (CloseConnection_call env) as [[]|e]; dp5_run_in Hx|]);
          subst x; repeat split; try reflexivity; intros; discriminate.
      * destruct conn; dp5_run_in Hx;
          [destruct (CloseConnection_call env) as [[]|e]; dp5_run_in Hx|];
          subst x; repeat split; try reflexivity; intros; discriminate.
  - destruct conn; dp5_run_in Hx;
      [destruct (CloseConnection_call env) as [[]|e]; dp5_run_in Hx|];
      subst x; repeat split; try reflexivity; intros; discriminate.
Qed.

(** A use of X12 on a controller with a cached spectrum. *)
Lemma X12_witness :
  is_connected
    (state_of (disconnect Cases.disconnect_ok Cases.dp5_with_spectrum))
  = false.
Proof.
  exact (proj1 (proj2 (X12_disconnect_leaves_disconnected
                         Cases.disconnect_ok Cases.dp5_with_spectrum
                         eq_refl))).
Defined.

(** X13. [connect] on a controller that is neither connected nor
    acquiring never raises, whatever the DLL does, and marks the
    controller as connected exactly when [ConnectToDefaultDPP] answers
    1; a failure of the [CloseConnection] that precedes it is ignored.
    [connection_changed] is emitted once when the connection is made
    and not at all otherwise. On a controller that is already connected
    or that is acquiring, [connect] changes neither flag and calls
    nothing. *)
Theorem X13_connect_follows_the_dll (env : connect_env) (s : state) :
  Base.api_loaded (base s) = true ->
  (is_connected s = false ->
   is_acquiring s = false ->
   result_of (connect env s) = Ok tt
   /\ is_connected (state_of (connect env s))
      = answered_one (ConnectToDefaultDPP env)
   /\ filter is_connection_changed (trace_of (connect env s))
      = (if answered_one (ConnectToDefaultDPP env)
         then [connection_changed DP5 true] else []))
  /\ ((is_connected s || is_acquiring s)%bool = true ->
      result_of (connect env s) = Ok tt
      /\ is_connected (state_of (connect env s)) = is_connected s
      /\ is_acquiring (state_of (connect env s)) = is_acquiring s
      /\ _last_status_data (state_of (connect env s)) = _last_status_data s
      /\ filter is_connection_changed (trace_of (connect env s)) = []).
Proof.
  intros Hapi.
  destruct s as [[api conn lerr] acq cfg w t sp st live nid].
  cbn in Hapi. destruct api as [a|]; [|discriminate Hapi].
  cbn [is_connected is_acquiring base Base._is_connected _is_acquiring
       _last_status_data].
  remember (connect env
              (mk (Base.mk (Some a) conn lerr) acq cfg w t sp st live nid))
    as x eqn:Hx.
  unfold answered_one.
  split.
  - intros -> ->. dp5_open. dp5_run_in Hx.
    destruct (CloseConnection_first env) as [[]|e0]; dp5_run_in Hx;
      (destruct (ConnectToDefaultDPP env) as [r|e1]; dp5_run_in Hx;
       [destruct (r =? 1); dp5_run_in Hx;
        [destruct (first_status env) as [s1|e2]; dp5_run_in Hx|]|]);
      subst x; repeat split; reflexivity.
  - intros Hor. dp5_open. dp5_run_in Hx.
    destruct conn; dp5_run_in Hx;
      [|destruct acq; [|discriminate Hor]; dp5_run_in Hx];
      subst x; repeat split; reflexivity.
Qed.

(** A use of X13 on a fresh controller and a DLL that connects. *)
Lemma X13_witness :
  is_connected (state_of (connect Cases.connect_ok Cases.dp5_fresh)) = true.
Proof.
  apply (proj1 (X13_connect_follows_the_dll Cases.connect_ok Cases.dp5_fresh
                  eq_refl));
    reflexivity.
Defined.

(** X14. [load_config] never raises, and the controller remembers a
    configuration file exactly when the device has accepted it: the API
    is loaded, the controller is connected and idle, the path is not
    empty, exists and is plain ASCII, and [SendConfigFileToDpp] answers
    1. In every other case the file remembered before stays. *)
Theorem X14_config_remembered_when_accepted (env : config_env)
  (filepath : string) (s : state) :
  result_of (load_config env filepath s) = Ok tt
  /\ _last_config_file (state_of (load_config env filepath s))
     = (if (Base.api_loaded (base s) && is_connected s
            && negb (is_acquiring s) && str_truthy filepath
            && path_exists env && is_ascii filepath
            && answered_one (SendConfigFileToDpp env))%bool
        then Some filepath else _last_config_file s).
Proof.
  destruct s as [[api conn lerr] acq cfg w t sp st live nid].
  unfold answered_one.
  cbn [is_connected is_acquiring base Base._is_connected _is_acquiring
       _last_config_file Base.api_loaded Base._api].
  remember (load_config env filepath
              (mk (Base.mk api conn lerr) acq cfg w t sp st live nid))
    as x eqn:Hx.
  dp5_open. dp5_run_in Hx.
  destruct api as [a|]; dp5_run_in Hx; [|subst x; split; reflexivity].
  destruct conn; dp5_run_in Hx; [|subst x; split; reflexivity].
  destruct acq; dp5_run_in Hx; [subst x; split; reflexivity|].
  destruct (str_truthy filepath); dp5_run_in Hx;
    [|subst x; split; reflexivity].
  destruct (path_exists env); dp5_run_in Hx; [|subst x; split; reflexivity].
  destruct (is_ascii filepath); dp5_run_in Hx;
    [|subst x; split; reflexivity].
  destruct (SendConfigFileToDpp env) as [r|e]; dp5_run_in Hx;
    [|subst x; split; reflexivity].
  destruct (r =? 1); dp5_run_in Hx; [|subst x; split; reflexivity].
  destruct (config_status env) as [s1|e1]; dp5_run_in Hx; subst x;
    split; reflexivity.
Qed.

End DP5More.

(* --------------------------------------------------------------------- *)
(** ** The source: API and controller                                     *)
(* --------------------------------------------------------------------- *)

Module MiniXMore.
Import MiniXApi MiniXController MiniXControllerIO.

Ltac mx_open :=
  unfold connect_hardware, disconnect_hardware, set_hv_on, set_hv_off,
    _poll_status, _update_internal_state, _set_controller_running,
    stop_monitoring, _set_hv_on, _set_connected, _report_error,
    _post_status_message, in_base, Base._report_error,
    Base._post_status_message, Base._set_connected, send_command,
    get_monitor_data, MiniXStatus_call, is_controller_running in *.

Ltac mx_proj :=
  cbv beta iota zeta delta
    [base _is_controller_app_running _hv_on _monitor_data
     _monitor_timer_active is_connected hv_on with_base with_running
     with_hv_on with_monitor_data with_timer
     Base._api Base._is_connected Base._last_error Base.api_loaded
     Base.with_connected Base.with_last_error
     is_disabled is_exit value name api_errors command_errors is_class
     exn_cls];
  cbn [Bool.eqb negb andb orb state_of trace_of result_of fst snd app].

Ltac mx_run := do 4 (mred; mx_proj).

Ltac mx_proj_in H :=
  cbv beta iota zeta delta
    [base _is_controller_app_running _hv_on _monitor_data
     _monitor_timer_active is_connected hv_on with_base with_running
     with_hv_on with_monitor_data with_timer
     Base._api Base._is_connected Base._last_error Base.api_loaded
     Base.with_connected Base.with_last_error
     is_disabled is_exit value name api_errors command_errors is_class
     exn_cls] in H;
  cbn [Bool.eqb negb andb orb state_of trace_of result_of fst snd app] in H.

Ltac mx_run_in H := do 4 (mred_in H; mx_proj_in H).

(** X15. [send_command] hands a command to the DLL exactly when it
    returns normally, and then hands over that command and nothing
    else. It does so only for a command other than [mxcDisabled], while
    the controller application runs, and, when the check is asked for,
    only if the device status is no error and the monitor block enables
    the command; [mxcExit] is exempt from the check. The state is left
    alone. *)
Theorem X15_send_command_gate {S} (dev : device) (command : MiniXCommands)
  (check_enabled : bool) (s : S) :
  Schedule.succeeds (result_of (send_command dev command check_enabled s))
  = lets_through dev command check_enabled
  /\ state_of (send_command dev command check_enabled s) = s
  /\ trace_of (send_command dev command check_enabled s)
     = (if lets_through dev command check_enabled
        then [SendMiniXCommand (value command)] else []).
Proof.
  unfold lets_through, accepts. destruct dev as [dlg mon].
  unfold send_command, get_monitor_data, is_controller_running.
  cbn [isMiniXDlg ReadMiniXMonitor].
  destruct (is_disabled command) eqn:Hd; [repeat split|].
  cbn [negb andb]. destruct (dlg =? 0); cbn [negb andb]; [repeat split|].
  destruct (check_enabled && negb (is_exit command))%bool;
    [|mred; repeat split].
  mred. rewrite andb_false_r.
  destruct (MiniXStatus_of (mxmStatusInd mon)) as [st|]; mred;
    [|repeat split].
  destruct (critical st); mred; cbn [negb andb]; [repeat split|].
  destruct (Z.land (mxmEnabledCmds mon) (value command) =? 0); mred;
    repeat split.
Qed.

Ltac hv_cases dlg mon c :=
  destruct (dlg =? 0); mx_run; [repeat split|];
  destruct (MiniXStatus_of (mxmStatusInd mon)) as [st|]; mx_run;
    [|repeat split];
  destruct (critical st); mx_run; [repeat split|];
  destruct (Z.land (mxmEnabledCmds mon) c =? 0); mx_run; repeat split.

(** X16. The HV commands of the source controller never raise, never
    touch the controller's four flags, and send at most their one
    command. [set_hv_on] sends [mxcHVOn] exactly when the API is
    loaded, the controller is marked as connected and the DLL lets the
    command through; [set_hv_off] sends [mxcHVOff] exactly when the API
    is loaded, the controller application is marked as running and the
    DLL lets the command through, also while the hardware is marked as
    disconnected. *)
Theorem X16_hv_commands_gate (dev : device) (s : state) :
  (result_of (set_hv_on dev s) = Ok tt
   /\ flags (state_of (set_hv_on dev s)) = flags s
   /\ filter is_command (trace_of (set_hv_on dev s))
      = (if (Base.api_loaded (base s) && is_connected s
             && accepts dev mxcHVOn)%bool
         then [SendMiniXCommand 2] else []))
  /\ (result_of (set_hv_off dev s) = Ok tt
      /\ flags (state_of (set_hv_off dev s)) = flags s
      /\ filter is_command (trace_of (set_hv_off dev s))
         = (if (Base.api_loaded (base s) && _is_controller_app_running s
                && accepts dev mxcHVOff)%bool
            then [SendMiniXCommand 4] else [])).
Proof.
  destruct s as [[api conn lerr] running hv md timer].
  destruct dev as [dlg mon].
  unfold flags, accepts. mx_open. cbn [isMiniXDlg ReadMiniXMonitor].
  rewrite ?andb_false_r. split.
  - mx_run. destruct api as [[]|]; mx_run; [|repeat split].
    destruct conn; mx_run; [|repeat split].
    hv_cases dlg mon 2.
  - mx_run. destruct api as [[]|]; mx_run; [|repeat split].
    destruct running; mx_run; [|repeat split].
    hv_cases dlg mon 4.
Qed.

Lemma critical_is_not_ready (st : MiniXStatus) :
  critical st = true -> ready st = false.
Proof. destruct st; cbn; congruence. Qed.

(** X17. A status poll makes the controller's flags follow the device.
    With the API loaded and the controller application marked as
    running, [_poll_status] never raises, and for a known status code
    it leaves the running flag equal to what the DLL says, the
    connected flag true exactly when the application runs and the
    status is one of the two ready ones, and the HV flag true exactly
    when the application runs, the status is no error and the monitor
    block reports HV on. Only an unknown status code leaves the flags
    as they were. *)
Theorem X17_poll_follows_the_device (dev : device) (s : state) :
  Base.api_loaded (base s) = true ->
  _is_controller_app_running s = true ->
  result_of (_poll_status dev s) = Ok tt
  /\ match MiniXStatus_of (mxmStatusInd (ReadMiniXMonitor dev)) with
     | Some st =>
         _is_controller_app_running (state_of (_poll_status dev s))
         = is_controller_running dev
         /\ is_connected (state_of (_poll_status dev s))
            = (is_controller_running dev && ready st)%bool
         /\ hv_on (state_of (_poll_status dev s))
            = (is_controller_running dev && negb (critical st)
               && negb (mxmHVOn (ReadMiniXMonitor dev) =? 0))%bool
     | None =>
         if is_controller_running dev
         then flags (state_of (_poll_status dev s)) = flags s
         else flags (state_of (_poll_status dev s))
              = (false, false, false, false)
     end.
Proof.
  intros Hapi Hrun.
  destruct s as [[api conn lerr] running hv md timer].
  destruct dev as [dlg mon]. cbn in Hapi, Hrun.
  destruct api as [[]|]; [|discriminate Hapi]. subst running.
  unfold flags. mx_open. cbn [isMiniXDlg ReadMiniXMonitor].
  mx_run. rewrite ?andb_false_r.
  destruct (dlg =? 0); mx_run.
  { destruct (MiniXStatus_of (mxmStatusInd mon)) as [st|];
      destruct conn, hv, timer; mx_run; repeat split. }
  destruct (MiniXStatus_of (mxmStatusInd mon)) as [st|] eqn:Est; mx_run;
    [|repeat split].
  destruct (critical st) eqn:Hc; mx_run.
  { rewrite (critical_is_not_ready st Hc).
    destruct conn, hv; mx_run; repeat split. }
  rewrite Est. mx_run.
  destruct (ready st), (mxmHVOn mon =? 0), conn, hv; mx_run; repeat split.
Qed.

(** A use of X17: the controller believes HV to be on, the device
    reports it off, and the poll corrects the flag. *)
Lemma X17_witness :
  hv_on (state_of (_poll_status Cases.source_hv_off Scenario.minix_hv_on))
  = false.
Proof.
  exact (proj2 (proj2 (proj2 (X17_poll_follows_the_device
                                Cases.source_hv_off Scenario.minix_hv_on
                                eq_refl eq_refl)))).
Defined.

(** *** The flags stay coherent *)

(** Splits on whatever answer of the device the computation waits for. *)
Ltac mx_split :=
  repeat (mx_run;
          repeat match goal with
                 | E : MiniXStatus_of _ = _ |- _ => rewrite E
                 end;
          match goal with
          | |- context [MiniXStatus_of ?z] =>
              let E := fresh "E" in destruct (MiniXStatus_of z) eqn:E
          | |- context [if ?c then _ else _] => destruct c
          end);
  mx_run.

(** A poll makes the flags coherent, also when it finds the timer
    running on a controller that is marked as stopped. *)
Lemma poll_coherent (dev : device) (s : state) :
  (_is_controller_app_running s
   || (negb (is_connected s) && negb (hv_on s)))%bool = true ->
  coherent (state_of (_poll_status dev s)) = true.
Proof.
  destruct s as [[api conn lerr] running hv md timer].
  destruct dev as [dlg mon]. unfold coherent.
  cbn [is_connected hv_on base Base._is_connected _hv_on
       _is_controller_app_running].
  intros Hpre. mx_open. cbn [isMiniXDlg ReadMiniXMonitor].
  destruct api as [[]|], running, conn, hv, timer;
    try discriminate Hpre; mx_split; reflexivity.
Qed.

End MiniXMore.

(* --------------------------------------------------------------------- *)
(** ** The flags of the source controller stay coherent                   *)
(* --------------------------------------------------------------------- *)

Module MiniXFlags.
Import MiniXApi MiniXController MiniXControllerIO MiniXMore.

Section Upholds.
Context {S : Type} (I : S -> bool).

Lemma upholds_ret {A} (a : A) : upholds I (ret (S:=S) a).
Proof. intros s H. exact H. Qed.

Lemma upholds_get : upholds I (get (S:=S)).
Proof. intros s H. exact H. Qed.

Lemma upholds_bind {A B} (m : M S A) (k : A -> M S B) :
  upholds I m -> (forall a, upholds I (k a)) -> upholds I (bind m k).
Proof.
  intros Hm Hk s Hs. specialize (Hm s Hs). rewrite bind_eq.
  rewrite (triple_eta (m s)) in *.
  destruct (result_of (m s)) as [a|e]; cbn [state_of fst snd] in *;
    [|exact Hm].
  exact (Hk a _ Hm).
Qed.

Lemma upholds_try_except {A} (m : M S A) sel (h : exn -> M S A) :
  upholds I m -> (forall e, upholds I (h e)) ->
  upholds I (try_except m sel h).
Proof.
  intros Hm Hh s Hs. specialize (Hm s Hs). unfold try_except, state_of in *.
  destruct (m s) as [[[a|e] s1] t1]; cbn [fst snd] in *; [exact Hm|].
  destruct (sel e); [|exact Hm].
  specialize (Hh e s1 Hm). unfold state_of in Hh.
  destruct (h e s1) as [[r s2] t2]. exact Hh.
Qed.

Lemma upholds_when (c : bool) (m : M S unit) :
  upholds I m -> upholds I (when c m).
Proof. intros H. destruct c; [exact H | apply upholds_ret]. Qed.

End Upholds.

Lemma upholds_zoom {S T A} (I : T -> bool) (proj : S -> T)
  (upd : T -> S -> S) (m : M T A) :
  (forall t s, proj (upd t s) = t) ->
  upholds I m -> upholds (fun s => I (proj s)) (zoom proj upd m).
Proof.
  intros Hp Hm s Hs. specialize (Hm (proj s) Hs). unfold zoom, state_of in *.
  destruct (m (proj s)) as [[r t'] tr]. cbn [fst snd] in *.
  rewrite Hp. exact Hm.
Qed.

Lemma keeps_flags_upholds {A} (m : M state A) :
  keeps flags m -> upholds coherent m.
Proof.
  intros Hk s. specialize (Hk s). unfold flags, coherent in *.
  injection Hk as H1 H2 H3 H4. rewrite H1, H2, H3, H4. exact (fun x => x).
Qed.

Lemma send_command_keeps {S X} (f : S -> X) dev c ce :
  keeps f (send_command (S:=S) dev c ce).
Proof. mx_open. keeps_tac. Qed.

Lemma report_error_keeps_flags (m : string) : keeps flags (_report_error m).
Proof. intros [[api conn lerr] running hv md timer]. reflexivity. Qed.

Lemma post_status_message_keeps_flags (m : string) :
  keeps flags (_post_status_message m).
Proof. intros [[api conn lerr] running hv md timer]. reflexivity. Qed.

Lemma set_connected_false_coherent : upholds coherent (_set_connected false).
Proof.
  intros [[api conn lerr] running hv md timer]. unfold coherent.
  destruct running, conn, hv, timer; intros H; try discriminate H;
    reflexivity.
Qed.

Lemma set_hv_on_0_coherent : upholds coherent (_set_hv_on 0).
Proof.
  intros [[api conn lerr] running hv md timer]. unfold coherent.
  destruct running, conn, hv, timer; intros H; try discriminate H;
    reflexivity.
Qed.

Lemma poll_upholds (dev : device) : upholds coherent (_poll_status dev).
Proof.
  intros s H. apply poll_coherent. unfold coherent in H.
  destruct (_is_controller_app_running s); [reflexivity|].
  cbn [orb] in *. apply andb_true_iff in H as [H _]. exact H.
Qed.

Ltac upholds_step :=
  match goal with
  | |- upholds _ (bind _ _) => apply upholds_bind; [|intro]
  | |- upholds _ (ret _) => apply upholds_ret
  | |- upholds _ get => apply upholds_get
  | |- upholds _ (try_except _ _ _) => apply upholds_try_except; [|intro]
  | |- upholds _ (when _ _) => apply upholds_when
  | |- upholds _ (_report_error _) =>
      apply keeps_flags_upholds, report_error_keeps_flags
  | |- upholds _ (_post_status_message _) =>
      apply keeps_flags_upholds, post_status_message_keeps_flags
  | |- upholds _ (send_command _ _ _) =>
      apply keeps_flags_upholds, send_command_keeps
  | |- upholds _ (_set_connected false) => apply set_connected_false_coherent
  | |- upholds _ (_set_hv_on 0) => apply set_hv_on_0_coherent
  | |- upholds _ (_poll_status _) => apply poll_upholds
  | |- upholds _ (if ?c then _ else _) => destruct c
  end.

Lemma disconnect_upholds (dev poll : device) :
  upholds coherent (disconnect_hardware dev poll).
Proof. unfold disconnect_hardware. repeat upholds_step. Qed.

Lemma hv_on_upholds (dev : device) : upholds coherent (set_hv_on dev).
Proof. unfold set_hv_on. repeat upholds_step. Qed.

Lemma hv_off_upholds (dev : device) : upholds coherent (set_hv_off dev).
Proof. unfold set_hv_off. repeat upholds_step. Qed.

Lemma stop_monitoring_upholds : upholds coherent stop_monitoring.
Proof.
  intros [[api conn lerr] running hv md timer]. unfold coherent.
  destruct running, conn, hv, timer; intros H; try discriminate H;
    reflexivity.
Qed.

Lemma connect_keeps_running (d1 d2 d3 : device) :
  keeps _is_controller_app_running (connect_hardware d1 d2 d3).
Proof. mx_open. keeps_tac. Qed.

Lemma connect_upholds (d1 d2 d3 : device) :
  upholds coherent (connect_hardware d1 d2 d3).
Proof.
  intros s H. destruct (_is_controller_app_running s) eqn:Er.
  - unfold coherent. rewrite connect_keeps_running, Er. reflexivity.
  - assert (Hs : connect_hardware d1 d2 d3 s
                 = (if negb (Base.api_loaded (base s))
                    then _report_error "MiniX API not loaded."
                    else _report_error "Controller application not running.")
                     s).
    { unfold connect_hardware. rewrite bind_eq. unfold get at 1.
      cbn [result_of state_of trace_of fst snd app]. rewrite Er.
      cbn [negb].
      destruct (negb (Base.api_loaded (base s)));
        symmetry; apply triple_eta. }
    rewrite Hs.
    destruct (negb (Base.api_loaded (base s)));
      exact (keeps_flags_upholds (report_error_keeps_flags _) s H).
Qed.

Lemma state_of_bind_ok {S A B} (m : M S A) (k : A -> M S B) (s : S)
  (a : A) (s1 : S) (t1 : trace) :
  m s = (Ok a, s1, t1) -> state_of (bind m k s) = state_of (k a s1).
Proof. intros H. rewrite bind_eq, H. reflexivity. Qed.

Lemma upholds_after {S A B} (I : S -> bool) (m : M S A) (k : A -> M S B)
  (s : S) :
  I (state_of (m s)) = true -> (forall a, upholds I (k a)) ->
  I (state_of (bind m k s)) = true.
Proof.
  intros Hm Hk. rewrite bind_eq. rewrite (triple_eta (m s)) in *.
  destruct (result_of (m s)) as [a|e]; cbn [state_of fst snd] in *;
    [|exact Hm].
  exact (Hk a _ Hm).
Qed.

Lemma upholds_call {S A} (I : S -> bool) (r : result A) :
  upholds I (call (S:=S) r).
Proof. intros s H. destruct r; exact H. Qed.

Lemma set_controller_running_upholds (b : bool) :
  upholds coherent (_set_controller_running b).
Proof.
  intros [[api conn lerr] running hv md timer]. unfold coherent.
  destruct b, running, conn, hv, timer; intros H; try discriminate H;
    reflexivity.
Qed.

(** Restarting the timer and polling at once, as [start_monitoring]
    does. *)
Lemma restart_upholds (dev : device) :
  upholds coherent
    (s <- get ;;
     when (_monitor_timer_active s) (modify (with_timer false)) ;;
     modify (with_timer true) ;;
     _poll_status dev).
Proof.
  intros s H. erewrite state_of_bind_ok by reflexivity.
  destruct s as [[api conn lerr] running hv md timer].
  unfold coherent in H.
  cbn [is_connected hv_on base Base._is_connected _hv_on
       _is_controller_app_running _monitor_timer_active] in H.
  destruct timer; cbn [_monitor_timer_active when];
    erewrite state_of_bind_ok by reflexivity;
    erewrite state_of_bind_ok by reflexivity;
    apply poll_coherent;
    destruct running, conn, hv; try discriminate H; reflexivity.
Qed.

Lemma in_controller_upholds {A} (m : M state A) :
  upholds coherent m -> upholds steady (in_controller m).
Proof.
  intros H. unfold in_controller, steady.
  apply (@upholds_zoom monitored state A coherent controller
           with_controller m); [reflexivity | exact H].
Qed.

Lemma start_monitoring_upholds (i : option Z) (dev : device) :
  upholds steady (start_monitoring i dev).
Proof.
  unfold start_monitoring. apply upholds_bind.
  - destruct i; intros s H; exact H.
  - intros _. apply in_controller_upholds, restart_upholds.
Qed.

Lemma check_initial_upholds (running : result bool) (dev : device) :
  upholds steady (_check_initial_controller_state running dev).
Proof.
  unfold _check_initial_controller_state.
  apply upholds_bind; [apply upholds_get | intro s].
  destruct (Base.api_loaded (base (controller s)));
    [|apply in_controller_upholds, set_controller_running_upholds].
  apply upholds_try_except.
  - apply upholds_bind; [apply upholds_call | intros []].
    + apply upholds_bind;
        [apply in_controller_upholds, set_controller_running_upholds|].
      intros _. apply start_monitoring_upholds.
    + apply in_controller_upholds, set_controller_running_upholds.
  - intros e. apply in_controller_upholds, set_controller_running_upholds.
Qed.

Lemma serve_upholds (r : request) : upholds steady (serve r).
Proof.
  destruct r; cbn [serve].
  - apply in_controller_upholds, connect_upholds.
  - apply in_controller_upholds, disconnect_upholds.
  - apply in_controller_upholds, hv_on_upholds.
  - apply in_controller_upholds, hv_off_upholds.
  - apply start_monitoring_upholds.
  - apply in_controller_upholds, stop_monitoring_upholds.
  - apply in_controller_upholds.
    apply upholds_bind; [apply upholds_get | intro s].
    apply upholds_when, poll_upholds.
Qed.

Lemma serves_upholds (rs : list request) : upholds steady (serves rs).
Proof.
  induction rs as [|r rs IH]; cbn [serves]; [apply upholds_ret|].
  apply upholds_bind; [apply serve_upholds | intros _; exact IH].
Qed.

(** X18. The four flags of the source controller are coherent after
    construction and stay so whatever is asked of it afterwards
    (hardware connect and disconnect, HV on and off, starting and
    stopping the monitoring, timer ticks), with whatever the DLL
    answers, raised exceptions included: while the controller
    application is marked as not running, the hardware is marked as
    disconnected, HV is marked as off and the polling timer is
    stopped. *)
Theorem X18_flags_stay_coherent (api : option unit) (running : result bool)
  (dev : device) (rs : list request) (s0 : monitored) :
  coherent
    (controller (state_of ((init api running dev ;; serves rs) s0))) = true.
Proof.
  change (steady (state_of ((init api running dev ;; serves rs) s0)) = true).
  apply upholds_after; [|intros _; apply serves_upholds].
  unfold init. erewrite state_of_bind_ok by reflexivity.
  apply check_initial_upholds. reflexivity.
Qed.

End MiniXFlags.

(* --------------------------------------------------------------------- *)
(** ** Counting one kind of event against another                         *)
(* --------------------------------------------------------------------- *)

Section Within.
Context {S : Type} (P Q : event -> bool) (I : S -> bool).

Lemma within_quiet {A} (m : M S A) :
  silent P m -> upholds I m -> within P Q I m.
Proof.
  intros Hs Hu s Hi. split; [exact (Hu s Hi)|]. rewrite (Hs s). lia.
Qed.

Lemma within_ret {A} (a : A) : within P Q I (ret (S:=S) a).
Proof. intros s Hi. split; [exact Hi | apply Nat.eq_le_incl; reflexivity]. Qed.

Lemma within_raise {A} (e : exn) : within P Q I (raise (S:=S) (A:=A) e).
Proof. intros s Hi. split; [exact Hi | apply Nat.eq_le_incl; reflexivity]. Qed.

Lemma within_get : within P Q I (get (S:=S)).
Proof. intros s Hi. split; [exact Hi | apply Nat.eq_le_incl; reflexivity]. Qed.

Lemma within_call {A} (r : result A) : within P Q I (call (S:=S) r).
Proof. destruct r; [apply within_ret | apply within_raise]. Qed.

Lemma within_emit (e : event) : P e = false -> within P Q I (emit (S:=S) e).
Proof.
  intros H s Hi. split; [exact Hi|].
  unfold emit, trace_of. cbn [snd]. rewrite !count_cons, H, !count_nil.
  destruct (Q e); lia.
Qed.

Lemma within_modify (g : S -> S) :
  (forall s, I s = true -> I (g s) = true) -> within P Q I (modify g).
Proof.
  intros H s Hi. split; [exact (H s Hi) | apply Nat.eq_le_incl; reflexivity].
Qed.

Lemma within_bind {A B} (m : M S A) (k : A -> M S B) :
  within P Q I m -> (forall a, within P Q I (k a)) -> within P Q I (bind m k).
Proof.
  intros Hm Hk s Hi. destruct (Hm s Hi) as [H1 H2]. rewrite bind_eq.
  rewrite (triple_eta (m s)) in *.
  destruct (result_of (m s)) as [a|e];
    cbn [state_of trace_of fst snd] in *; [|split; assumption].
  destruct (Hk a _ H1) as [H3 H4]. split; [exact H3|].
  rewrite !count_app. unfold state_of, trace_of in *. lia.
Qed.

Lemma within_try_except {A} (m : M S A) sel (h : exn -> M S A) :
  within P Q I m -> (forall e, within P Q I (h e)) ->
  within P Q I (try_except m sel h).
Proof.
  intros Hm Hh s Hi. destruct (Hm s Hi) as [H1 H2].
  unfold try_except, state_of, trace_of in *.
  destruct (m s) as [[[a|e] s1] t1]; cbn [fst snd] in *;
    [split; assumption|].
  destruct (sel e); [|split; assumption].
  destruct (Hh e s1 H1) as [H3 H4]. unfold state_of, trace_of in *.
  destruct (h e s1) as [[r s2] t2]. cbn [fst snd] in *.
  split; [exact H3|]. rewrite !count_app. lia.
Qed.

Lemma within_when (c : bool) (m : M S unit) :
  within P Q I m -> within P Q I (when c m).
Proof. intros H. destruct c; [exact H | apply within_ret]. Qed.

Lemma deliver_within (slot : bool -> M S unit) :
  (forall b, within P Q I (slot b)) ->
  forall tr s, count P tr = 0%nat -> I s = true ->
    I (fst (deliver slot tr s)) = true
    /\ (count P (snd (deliver slot tr s))
        <= count Q (snd (deliver slot tr s)))%nat.
Proof.
  intros Hs. induction tr as [|e tr IH]; intros s Hc Hi.
  - split; [exact Hi | apply Nat.eq_le_incl; reflexivity].
  - rewrite count_cons in Hc.
    assert (He : P e = false) by (destruct (P e); [discriminate|reflexivity]).
    assert (Hc' : count P tr = 0%nat) by (rewrite He in Hc; exact Hc).
    cbn [deliver].
    destruct e;
      try (destruct (IH s Hc' Hi) as [IH1 IH2];
           destruct (deliver slot tr s) as [s2 t2]; cbn [fst snd app] in *;
           split; [exact IH1|]; rewrite !count_cons, He;
           match goal with |- context [if ?c then _ else _] => destruct c end;
           lia).
    destruct (Hs b s Hi) as [Hb1 Hb2].
    destruct (IH (state_of (slot b s)) Hc' Hb1) as [IH1 IH2].
    destruct (deliver slot tr (state_of (slot b s))) as [s2 t2].
    cbn [fst snd] in *. split; [exact IH1|].
    rewrite !count_cons, !count_app, He.
    match goal with |- context [if ?c then _ else _] => destruct c end; lia.
Qed.

Lemma within_method_call {C A} (proj : S -> option C) (upd : C -> S -> S)
  (slot : bool -> M S unit) (m : M C A) :
  silent P m -> (forall c s, I (upd c s) = I s) ->
  (forall b, within P Q I (slot b)) ->
  within P Q I (method_call proj upd slot m).
Proof.
  intros Hm Hu Hs s Hi. unfold method_call, state_of, trace_of.
  destruct (proj s) as [c|]; cbn [fst snd]; [|split; [exact Hi | apply Nat.le_refl]].
  specialize (Hm c). unfold trace_of in Hm.
  destruct (m c) as [[r c'] tr]. cbn [snd] in Hm.
  assert (Hi' : I (upd c' s) = true) by (rewrite Hu; exact Hi).
  pose proof (@deliver_within slot Hs tr (upd c' s) Hm Hi') as Hd.
  destruct (deliver slot tr (upd c' s)) as [s' tr']. exact Hd.
Qed.

End Within.

Ltac within_step :=
  match goal with
  | |- within _ _ _ (bind _ _) => apply within_bind; [|intro]
  | |- within _ _ _ (ret _) => apply within_ret
  | |- within _ _ _ (raise _) => apply within_raise
  | |- within _ _ _ get => apply within_get
  | |- within _ _ _ (call _) => apply within_call
  | |- within _ _ _ (emit _) => apply within_emit; reflexivity
  | |- within _ _ _ (modify _) =>
      apply within_modify; intros ? ?; assumption || reflexivity
  | |- within _ _ _ (try_except _ _ _) => apply within_try_except; [|intro]
  | |- within _ _ _ (when _ _) => apply within_when
  | |- within _ _ _ (if ?c then _ else _) => destruct c
  | |- within _ _ _ (match ?x with _ => _ end) => destruct x
  | |- within _ _ _ (let _ := _ in _) => cbv zeta
  end.

(** Decides that a method of the spectrometer controller emits no event
    of a kind it has no emission for. *)
Ltac dp5_silent :=
  unfold DP5Controller.start_acquisition, DP5Controller.retire_previous,
    DP5Controller.stop_acquisition, DP5Controller.thread_finished,
    DP5Controller.save_last_spectrum,
    DP5Controller._handle_worker_status,
    DP5Controller._handle_worker_spectrum,
    DP5Controller._handle_worker_message,
    DP5Controller._handle_worker_error,
    DP5Controller._handle_worker_finished,
    DP5Controller._clear_thread_worker_refs, DP5Controller._set_acquiring,
    DP5Controller._set_connected, DP5Controller._report_error,
    DP5Controller._post_status_message, DP5Controller.in_base,
    Base._report_error, Base._post_status_message, Base._set_connected,
    DP5Api.encode_ascii;
  silent_tac.

(* --------------------------------------------------------------------- *)
(** ** The single-acquisition manager                                     *)
(* --------------------------------------------------------------------- *)

Module SingleMore.
Import SingleAcquisitionManager SingleRuns.

(** The spectrometer controller reports no success of the manager. *)
Lemma dp5_start_silent env preset :
  silent is_success (DP5Controller.start_acquisition env preset).
Proof. dp5_silent. Qed.

Lemma dp5_stop_silent : silent is_success DP5Controller.stop_acquisition.
Proof. dp5_silent. Qed.

Lemma dp5_thread_finished_silent t :
  silent is_success (DP5Controller.thread_finished t).
Proof. dp5_silent. Qed.

Lemma dp5_save_silent env path desc tag :
  silent is_success (DP5Controller.save_last_spectrum env path desc tag).
Proof. dp5_silent. Qed.

(** [_finalize] reports success only with the flag up, and takes the
    flag down. *)
Lemma finalize_outcome (s : state) :
  _running s = true ->
  exists s' tr,
    _finalize s = (Ok tt, s', tr)
    /\ unsaved s' = true
    /\ (count is_success tr
        <= if _spectrum_saved_successfully s then 1 else 0)%nat.
Proof.
  destruct s as [dp run err du path saved]. cbn [_running]. intros ->.
  unfold _finalize. mred.
  cbn [_running _error_reason _spectrum_saved_successfully with_running
       with_error_reason with_saved dp5_ctrl _duration _save_filepath].
  destruct (str_truthy err); mred.
  - do 2 eexists. split; [reflexivity|]. split; [reflexivity|].
    destruct saved; cbn; lia.
  - destruct saved; mred; do 2 eexists;
      (split; [reflexivity|]); (split; [reflexivity|]); cbn; lia.
Qed.

Lemma finalize_within : within is_success is_file_write unsaved _finalize.
Proof.
  intros s Hs. destruct (_running s) eqn:Er.
  - destruct (finalize_outcome s Er) as (s' & tr & -> & H1 & H2).
    cbn [state_of trace_of fst snd]. split; [exact H1|].
    unfold unsaved in Hs.
    destruct (_spectrum_saved_successfully s); [discriminate Hs | lia].
  - destruct s as [dp run err du path saved]. cbn [_running] in Er.
    subst run. split; [exact Hs | apply Nat.le_refl].
Qed.

Ltac single_proj :=
  cbn [_running _error_reason _spectrum_saved_successfully with_running
       with_error_reason with_saved with_dp5 with_job dp5_ctrl _duration
       _save_filepath dp5_present dp5_connected dp5_acquiring].

Ltac count_up :=
  rewrite ?count_cons, ?count_app, ?count_nil;
  cbn [is_success is_file_write].

Ltac single_run := do 4 (mred; single_proj).

(** [_save_spectrum] returns; it answers [True] only after the DLL has
    been given the file to write, and it leaves the manager's flags
    alone. *)
Lemma save_spectrum_outcome (env : save_env) (s : state) :
  exists b s1 t1,
    _save_spectrum env s = (Ok b, s1, t1)
    /\ _running s1 = _running s
    /\ _spectrum_saved_successfully s1 = _spectrum_saved_successfully s
    /\ count is_success t1 = 0%nat
    /\ (b = true -> (1 <= count is_file_write t1)%nat).
Proof.
  destruct s as [dp run err du path saved].
  unfold _save_spectrum, save_failed. single_run.
  destruct (str_truthy path); single_run;
    [|do 3 eexists; repeat (split; [reflexivity|]); discriminate].
  destruct dp as [c|]; single_run;
    [|do 3 eexists; repeat (split; [reflexivity|]); discriminate].
  unfold method_call. single_run.
  destruct (DP5Facts.save_spec (dp5_save env) path
              ("Single acquisition, " ++ str_of_Z du ++ "s, " ++ strftime env)
              "SGLPYXRF" c) as (v & c' & tr & Hsave & Hw & Hv).
  pose proof (@dp5_save_silent (dp5_save env) path
                ("Single acquisition, " ++ str_of_Z du ++ "s, "
                 ++ strftime env) "SGLPYXRF" c) as Hq.
  rewrite Hsave in *. cbn [trace_of snd] in Hq. cbv beta iota zeta.
  rewrite SeqFacts.deliver_no_slot.
  destruct Hv as [ -> | [ -> | -> ] ]; cbn [truthy] in *; single_run;
    do 3 eexists; (split; [reflexivity|]); (split; [reflexivity|]);
    (split; [reflexivity|]); (split; [count_up; rewrite Hq; reflexivity|]);
    try discriminate.
  intros _. count_up. rewrite Hw. lia.
Qed.

Lemma slot_within (env : save_env) (acquiring : bool) :
  within is_success is_file_write unsaved
    (_handle_dp5_acq_state_change env acquiring).
Proof.
  intros s Hs.
  destruct (_running s && negb (str_truthy (_error_reason s))
            && negb acquiring)%bool eqn:Hc.
  - apply andb_true_iff in Hc as [Hc Ha].
    apply andb_true_iff in Hc as [Hr He].
    destruct (save_spectrum_outcome env s)
      as (b & s1 & t1 & Hsv & Hr1 & _ & Hq & Hw).
    assert (Hr2 : _running (with_saved b s1) = true)
      by (cbn [_running with_saved]; congruence).
    destruct (finalize_outcome _ Hr2) as (s2 & t2 & Hf & Hu & Hn).
    assert (Heq : _handle_dp5_acq_state_change env acquiring s
                  = (Ok tt, s2,
                     single_status_update
                       "DP5 acquisition finished. Attempting to save spectrum..."
                     :: t1 ++ t2)%list).
    { unfold _handle_dp5_acq_state_change.
      cbv beta iota zeta delta [bind emit modify get].
      rewrite Hr, He, Ha. cbn [andb]. rewrite Hsv.
      cbv beta iota. rewrite Hf. reflexivity. }
    rewrite Heq. cbn [state_of trace_of fst snd].
    split; [exact Hu|]. count_up. rewrite Hq.
    cbn [_spectrum_saved_successfully with_saved] in Hn.
    destruct b; [specialize (Hw eq_refl)|]; lia.
  - assert (Heq : _handle_dp5_acq_state_change env acquiring s
                  = (Ok tt, s, [])).
    { unfold _handle_dp5_acq_state_change.
      unfold bind at 1. unfold get at 1. cbv beta iota. rewrite Hc.
      reflexivity. }
    rewrite Heq. split; [exact Hs | apply Nat.le_refl].
Qed.

Ltac single_step :=
  match goal with
  | |- within _ _ _ _finalize => apply finalize_within
  | |- within _ _ _ (method_call _ _ _ _) =>
      apply within_method_call;
      [dp5_silent | intros; reflexivity
       | intro; first [apply slot_within | apply within_ret]]
  | _ => within_step
  end.

Lemma abort_within (env : save_env) (reason : string) :
  within is_success is_file_write unsaved (_abort_acquisition env reason).
Proof. unfold _abort_acquisition. repeat single_step. Qed.

Lemma stop_within (env : save_env) (reason : string) :
  within is_success is_file_write unsaved (stop_acquisition env reason).
Proof.
  unfold stop_acquisition. repeat single_step. apply abort_within.
Qed.

Lemma start_within (env : start_env) (duration : Z) (path : string) :
  within is_success is_file_write unsaved
    (start_acquisition_and_save env duration path).
Proof.
  unfold start_acquisition_and_save. repeat single_step. apply abort_within.
Qed.

Lemma worker_signal_within (env : save_env) (e : event) :
  within is_success is_file_write unsaved (worker_signal env e).
Proof. unfold worker_signal. destruct e; repeat single_step. Qed.

Lemma react_within (x : stimulus) :
  within is_success is_file_write unsaved (react x).
Proof.
  destruct x; cbn [react].
  - apply within_bind; [apply start_within | intros _; apply within_ret].
  - apply worker_signal_within.
  - repeat single_step.
  - apply stop_within.
Qed.

Lemma reacts_within (xs : list stimulus) :
  within is_success is_file_write unsaved (reacts xs).
Proof.
  induction xs as [|x xs IH]; cbn [reacts]; [apply within_ret|].
  apply within_bind; [apply react_within | intros _; exact IH].
Qed.

(** X19. Whatever reaches a single-acquisition manager after its
    construction (start requests, stop requests, worker signals, the
    end of the worker thread, in any order and with whatever the DLL
    and the file system answer), it reports [acquisition_finished(True)]
    at most as often as the DLL's [SaveMCADataToFile] has been called
    and has returned: no success is reported for a spectrum that was
    not handed over for writing. *)
Theorem X19_success_only_after_a_file_write
  (dp5_controller : option DP5Controller.state) (xs : list stimulus) :
  (count is_success (trace_of (reacts xs (init dp5_controller)))
   <= count is_file_write (trace_of (reacts xs (init dp5_controller))))%nat.
Proof.
  pose proof (@reacts_within xs (init dp5_controller)) as H.
  apply H. reflexivity.
Qed.

End SingleMore.

(* --------------------------------------------------------------------- *)
(** ** The sequence manager, source switched per repetition               *)
(* --------------------------------------------------------------------- *)

Module SeqMore.
Import SequenceManager.

Ltac seq_proj :=
  cbv beta iota zeta delta
    [minix_ctrl dp5_ctrl _running _error_reason _current_rep _total_reps
     _duration _minix_continuous _save_folder _pause_ms
     with_minix with_dp5 with_running with_error_reason with_current_rep
     with_job minix_present minix_connected dp5_present dp5_connected
     dp5_acquiring];
  cbn [Bool.eqb negb andb orb truthy state_of trace_of result_of fst snd app].

Ltac seq_proj_at H :=
  cbv beta iota zeta delta
    [minix_ctrl dp5_ctrl _running _error_reason _current_rep _total_reps
     _duration _minix_continuous _save_folder _pause_ms
     with_minix with_dp5 with_running with_error_reason with_current_rep
     with_job minix_present minix_connected dp5_present dp5_connected
     dp5_acquiring] in H;
  cbn [Bool.eqb negb andb orb truthy state_of trace_of result_of fst snd app]
    in H.

Ltac seq_go := do 4 (mred; seq_proj).
Ltac seq_go_at H := do 4 (mred_in H; seq_proj_at H).

Lemma count_no_event (t : trace) : count no_event t = 0%nat.
Proof.
  induction t as [|e t IH]; [reflexivity|]. rewrite count_cons. exact IH.
Qed.

(** With the source switched per repetition, [_finalize] sends no
    HV-off command. *)
Lemma finalize_quiet (dev : MiniXApi.device) :
  within is_hv_off_command no_event noncontinuous (_finalize dev).
Proof.
  intros s Hs. destruct s as [mx dp run err cur tot du co fo pa].
  unfold noncontinuous in *. cbn [_minix_continuous] in Hs.
  destruct co; [discriminate Hs|].
  unfold _finalize. seq_go.
  destruct run, (str_truthy err); seq_go; split; reflexivity.
Qed.

Lemma abort_quiet (dev : MiniXApi.device) (reason : string) :
  within is_hv_off_command no_event noncontinuous
    (_abort_sequence_with no_slot dev reason).
Proof.
  unfold _abort_sequence_with.
  repeat first
    [ apply finalize_quiet
    | apply within_method_call;
      [dp5_silent | intros; reflexivity | intro; apply within_ret]
    | within_step ].
Qed.

Lemma abort_writes_nothing (dev : MiniXApi.device) (reason : string) :
  silent is_file_write (_abort_sequence_with no_slot dev reason).
Proof.
  unfold _abort_sequence_with, _finalize, minix_call,
    MiniXController.set_hv_off, MiniXController._report_error,
    MiniXController._post_status_message, MiniXController.in_base,
    Base._report_error, Base._post_status_message, MiniXApi.send_command,
    MiniXApi.get_monitor_data.
  dp5_silent.
Qed.

Lemma dp5_save_sends_no_command env path desc tag :
  silent is_hv_off_command
    (DP5Controller.save_last_spectrum env path desc tag).
Proof. dp5_silent. Qed.

Ltac tally :=
  cbn [trace_of snd];
  repeat (rewrite count_cons || rewrite count_app || rewrite count_nil);
  cbn [is_hv_off_command is_file_write Z.eqb Pos.eqb MiniXApi.value];
  repeat match goal with
         | H : count _ _ = _ |- _ => rewrite H
         end;
  cbn [truthy]; split; [reflexivity | lia].

(** The end of a proof where the slot aborts: the abort neither sends an
    HV-off command nor writes a file. *)
Ltac abort_end Hx x :=
  match type of Hx with
  | context [_abort_sequence_with no_slot ?d ?r ?s1] =>
      let Hq := fresh "Hq" in
      let Hw := fresh "Hw" in
      let Hab := fresh "Hab" in
      destruct (@abort_quiet d r s1 eq_refl) as [_ Hq];
      pose proof (@abort_writes_nothing d r s1) as Hw;
      rewrite count_no_event in Hq; apply Nat.le_0_r in Hq;
      destruct (_abort_sequence_with no_slot d r s1) as [[[[]|?] ?] ?]
        eqn:Hab;
      cbn [trace_of snd] in Hq, Hw;
      seq_go_at Hx; subst x; tally
  end.

(** X20. With the source switched per repetition (non-continuous
    mode), a source controller that can send commands and a device that
    accepts HV-off, the slot behind [acquisition_state_changed] sends
    exactly as many HV-off commands as it has spectrum files written,
    and writes at most one: one HV-off after a repetition whose
    spectrum was saved, and none when no file was written, the abort
    that follows a failed save included. *)
Theorem X20_hv_off_only_after_a_saved_repetition (env : save_env)
  (acquiring : bool) (s : state)
  (m : MiniXController.state) :
  _minix_continuous s = false ->
  minix_ctrl s = Some m ->
  can_command m = true ->
  accepts_hv_off (minix_dev env) = true ->
  count is_hv_off_command
    (trace_of (_handle_dp5_acq_state_change env acquiring s))
  = count is_file_write
      (trace_of (_handle_dp5_acq_state_change env acquiring s))
  /\ (count is_file_write
        (trace_of (_handle_dp5_acq_state_change env acquiring s)) <= 1)%nat.
Proof.
  intros Hco Hmx Hcan Hacc.
  destruct s as [mx dp run err cur tot du co fo pa].
  cbn [_minix_continuous minix_ctrl] in Hco, Hmx. subst co mx.
  remember (_handle_dp5_acq_state_change env acquiring
              (mk (Some m) dp run err cur tot du false fo pa)) as x eqn:Hx.
  unfold _handle_dp5_acq_state_change, _handle_dp5_acq_state_change_with,
    _wait_with_events, minix_call, method_call in Hx.
  seq_go_at Hx.
  destruct run; seq_go_at Hx; [|subst x; split; [reflexivity | cbn; lia]].
  destruct (str_truthy err); seq_go_at Hx;
    [subst x; split; [reflexivity | cbn; lia]|].
  destruct acquiring; seq_go_at Hx;
    [subst x; split; [reflexivity | cbn; lia]|].
  destruct (str_truthy fo); seq_go_at Hx; [|abort_end Hx x].
  destruct (isdir env); seq_go_at Hx; [|abort_end Hx x].
  destruct dp as [c|]; seq_go_at Hx; [|abort_end Hx x].
  match type of Hx with
  | context [DP5Controller.save_last_spectrum ?a ?b ?c ?d ?e] =>
      destruct (DP5Facts.save_spec a b c d e)
        as (v & c' & trs & Hs & Hwr & Hv);
      pose proof (@dp5_save_sends_no_command a b c d e) as Hsil;
      rewrite Hs in Hx, Hsil
  end.
  cbn [trace_of snd] in Hsil.
  seq_go_at Hx. rewrite SeqFacts.deliver_no_slot in Hx. seq_go_at Hx.
  destruct Hv as [ -> | [ -> | -> ] ]; cbn [truthy] in Hx, Hwr;
    seq_go_at Hx; try abort_end Hx x.
  destruct (SeqFacts.set_hv_off_outcome (minix_dev env) m)
    as (m' & troff & Hoff & _ & _ & _ & _ & _ & _ & _ & Hlast).
  destruct (Hlast Hcan Hacc) as [-> ->]. rewrite Hoff in Hx.
  seq_go_at Hx. rewrite SeqFacts.deliver_no_slot in Hx. seq_go_at Hx.
  destruct (cur <? tot); seq_go_at Hx; subst x; tally.
Qed.

Lemma X20_witness :
  count is_hv_off_command
    (trace_of (_handle_dp5_acq_state_change
                 (Scenario.seq_save Scenario.source_ready) false
                 Cases.seq_switching))
  = count is_file_write
      (trace_of (_handle_dp5_acq_state_change
                   (Scenario.seq_save Scenario.source_ready) false
                   Cases.seq_switching))
  /\ (count is_file_write
        (trace_of (_handle_dp5_acq_state_change
                     (Scenario.seq_save Scenario.source_ready) false
                     Cases.seq_switching)) <= 1)%nat.
Proof.
  exact (@X20_hv_off_only_after_a_saved_repetition
           (Scenario.seq_save Scenario.source_ready) false
           Cases.seq_switching Scenario.minix_hv_on
           eq_refl eq_refl eq_refl eq_refl).
Defined.

End SeqMore.

(* --------------------------------------------------------------------- *)
(** ** The sequence manager: how the first repetition ends                *)
(* --------------------------------------------------------------------- *)

Module SeqRuns.
Import SequenceManager Schedule.





End SeqRuns.

(* --------------------------------------------------------------------- *)
(** ** Events paid for out of a budget                                    *)
(* --------------------------------------------------------------------- *)

Section Spends.
Context {S : Type} (P : event -> bool) (I : S -> bool) (b : S -> nat).

Lemma spends_ret {A} (a : A) : spends P I b (ret (S:=S) a).
Proof. intros s Hi. split; [exact Hi | apply Nat.le_refl]. Qed.

Lemma spends_raise {A} (e : exn) : spends P I b (raise (S:=S) (A:=A) e).
Proof. intros s Hi. split; [exact Hi | apply Nat.le_refl]. Qed.

Lemma spends_get : spends P I b (get (S:=S)).
Proof. intros s Hi. split; [exact Hi | apply Nat.le_refl]. Qed.

Lemma spends_call {A} (r : result A) : spends P I b (call (S:=S) r).
Proof. destruct r; [apply spends_ret | apply spends_raise]. Qed.

Lemma spends_emit (e : event) : P e = false -> spends P I b (emit (S:=S) e).
Proof.
  intros H s Hi. split; [exact Hi|].
  unfold emit, trace_of, state_of. cbn [fst snd].
  rewrite count_cons, H, count_nil. apply Nat.le_refl.
Qed.

Lemma spends_modify (g : S -> S) :
  (forall s, I s = true -> I (g s) = true) ->
  (forall s, b (g s) = b s) ->
  spends P I b (modify g).
Proof.
  intros H1 H2 s Hi. split; [exact (H1 s Hi)|].
  change (b (g s) <= b s)%nat. rewrite H2. apply Nat.le_refl.
Qed.

Lemma spends_bind {A B} (m : M S A) (k : A -> M S B) :
  spends P I b m -> (forall a, spends P I b (k a)) -> spends P I b (bind m k).
Proof.
  intros Hm Hk s Hi. destruct (Hm s Hi) as [H1 H2]. rewrite bind_eq.
  rewrite (triple_eta (m s)) in *.
  destruct (result_of (m s)) as [a|e];
    cbn [state_of trace_of fst snd] in *; [|split; assumption].
  destruct (Hk a _ H1) as [H3 H4]. split; [exact H3|].
  rewrite count_app. unfold state_of, trace_of in *. lia.
Qed.

Lemma spends_from {A B} (m : M S A) (k : A -> M S B) (s : S) (n : nat) :
  I (state_of (m s)) = true ->
  (count P (trace_of (m s)) + b (state_of (m s)) <= n)%nat ->
  (forall a, spends P I b (k a)) ->
  I (state_of (bind m k s)) = true
  /\ (count P (trace_of (bind m k s)) + b (state_of (bind m k s)) <= n)%nat.
Proof.
  intros H1 H2 Hk. rewrite bind_eq.
  rewrite (triple_eta (m s)) in *.
  destruct (result_of (m s)) as [a|e];
    cbn [state_of trace_of fst snd] in *; [|split; assumption].
  destruct (Hk a _ H1) as [H3 H4]. split; [exact H3|].
  rewrite count_app. unfold state_of, trace_of in *. lia.
Qed.

Lemma spends_try_except {A} (m : M S A) sel (h : exn -> M S A) :
  spends P I b m -> (forall e, spends P I b (h e)) ->
  spends P I b (try_except m sel h).
Proof.
  intros Hm Hh s Hi. destruct (Hm s Hi) as [H1 H2].
  unfold try_except, state_of, trace_of in *.
  destruct (m s) as [[[a|e] s1] t1]; cbn [fst snd] in *;
    [split; assumption|].
  destruct (sel e); [|split; assumption].
  destruct (Hh e s1 H1) as [H3 H4]. unfold state_of, trace_of in *.
  destruct (h e s1) as [[r s2] t2]. cbn [fst snd] in *.
  split; [exact H3|]. rewrite count_app. lia.
Qed.

Lemma spends_when (c : bool) (m : M S unit) :
  spends P I b m -> spends P I b (when c m).
Proof. intros H. destruct c; [exact H | apply spends_ret]. Qed.

Lemma deliver_spends (slot : bool -> M S unit) :
  (forall v, spends P I b (slot v)) ->
  forall tr s, count P tr = 0%nat -> I s = true ->
    I (fst (deliver slot tr s)) = true
    /\ (count P (snd (deliver slot tr s)) + b (fst (deliver slot tr s))
        <= b s)%nat.
Proof.
  intros Hs. induction tr as [|e tr IH]; intros s Hc Hi.
  - split; [exact Hi | apply Nat.le_refl].
  - rewrite count_cons in Hc.
    assert (He : P e = false) by (destruct (P e); [discriminate|reflexivity]).
    assert (Hc' : count P tr = 0%nat) by (rewrite He in Hc; exact Hc).
    cbn [deliver].
    destruct e;
      try (destruct (IH s Hc' Hi) as [IH1 IH2];
           destruct (deliver slot tr s) as [s2 t2]; cbn [fst snd app] in *;
           split; [exact IH1|]; rewrite count_cons, He; lia).
    destruct (Hs b0 s Hi) as [Hb1 Hb2].
    destruct (IH (state_of (slot b0 s)) Hc' Hb1) as [IH1 IH2].
    destruct (deliver slot tr (state_of (slot b0 s))) as [s2 t2].
    cbn [fst snd] in *. split; [exact IH1|].
    rewrite count_cons, count_app, He. lia.
Qed.

Lemma spends_method_call {C A} (proj : S -> option C) (upd : C -> S -> S)
  (slot : bool -> M S unit) (m : M C A) :
  silent P m ->
  (forall c s, I (upd c s) = I s) ->
  (forall c s, b (upd c s) = b s) ->
  (forall v, spends P I b (slot v)) ->
  spends P I b (method_call proj upd slot m).
Proof.
  intros Hm Hu Hb Hs s Hi. unfold method_call, state_of, trace_of.
  destruct (proj s) as [c|]; cbn [fst snd];
    [|split; [exact Hi | apply Nat.le_refl]].
  specialize (Hm c). unfold trace_of in Hm.
  destruct (m c) as [[r c'] tr]. cbn [snd] in Hm.
  assert (Hi' : I (upd c' s) = true) by (rewrite Hu; exact Hi).
  pose proof (@deliver_spends slot Hs tr (upd c' s) Hm Hi') as Hd.
  destruct (deliver slot tr (upd c' s)) as [s' tr']. cbn [fst snd] in *.
  rewrite Hb in Hd. exact Hd.
Qed.

End Spends.

Ltac spends_step :=
  match goal with
  | |- spends _ _ _ (bind _ _) => apply spends_bind; [|intro; cbv beta]
  | |- spends _ _ _ (ret _) => apply spends_ret
  | |- spends _ _ _ (raise _) => apply spends_raise
  | |- spends _ _ _ get => apply spends_get
  | |- spends _ _ _ (call _) => apply spends_call
  | |- spends _ _ _ (emit _) => apply spends_emit; reflexivity
  | |- spends _ _ _ (modify _) =>
      apply spends_modify; [intros ? ?; assumption | intro; reflexivity]
  | |- spends _ _ _ (try_except _ _ _) =>
      apply spends_try_except; [|intro; cbv beta]
  | |- spends _ _ _ (when _ _) => apply spends_when
  | |- spends _ _ _ (if ?c then _ else _) => destruct c
  | |- spends _ _ _ (match ?x with _ => _ end) => destruct x
  | |- spends _ _ _ (let _ := _ in _) => cbv zeta
  end.

(* --------------------------------------------------------------------- *)
(** ** The sequence manager: one terminal signal per run                  *)
(* --------------------------------------------------------------------- *)

Module SeqTerminal.
Import SequenceManager Schedule SeqMore.

Ltac minix_silent :=
  unfold MiniXController.set_hv_on, MiniXController.set_hv_off,
    MiniXController._report_error, MiniXController._post_status_message,
    MiniXController.in_base, Base._report_error, Base._post_status_message,
    MiniXApi.send_command, MiniXApi.get_monitor_data;
  silent_tac.

Lemma terminal_free (t : trace) :
  count is_sequence_finished t = 0%nat ->
  count is_sequence_aborted t = 0%nat ->
  count is_terminal t = 0%nat.
Proof.
  induction t as [|e t IH]; [reflexivity|].
  rewrite !count_cons. unfold is_terminal at 1.
  destruct (is_sequence_finished e); [discriminate|].
  destruct (is_sequence_aborted e); [discriminate|].
  cbn [orb]. exact IH.
Qed.

(** Once an abort reason is set, the slot behind
    [acquisition_state_changed] does nothing. *)
Lemma slot_mute env (v : bool) (s : state) :
  str_truthy (_error_reason s) = true ->
  _handle_dp5_acq_state_change env v s = (Ok tt, s, []).
Proof.
  intros H.
  unfold _handle_dp5_acq_state_change, _handle_dp5_acq_state_change_with.
  unfold bind at 1. unfold get at 1. cbv beta iota.
  rewrite H. cbn [negb]. rewrite andb_false_r. reflexivity.
Qed.

Lemma deliver_mute (slot : bool -> M state unit) :
  (forall v s, str_truthy (_error_reason s) = true ->
               slot v s = (Ok tt, s, [])) ->
  forall tr s, str_truthy (_error_reason s) = true ->
               deliver slot tr s = (s, tr).
Proof.
  intros Hslot. induction tr as [|e tr IH]; intros s Hs; [reflexivity|].
  cbn [deliver].
  destruct e; try (rewrite (IH s Hs); reflexivity).
  rewrite (Hslot b s Hs). unfold state_of, trace_of. cbn [fst snd].
  rewrite (IH s Hs). reflexivity.
Qed.

(** [stop_acquisition] of the spectrometer controller returns and emits
    no terminal signal. *)
Lemma dp5_stop_returns (c : DP5Controller.state) :
  exists c' tr,
    DP5Controller.stop_acquisition c = (Ok tt, c', tr)
    /\ count is_terminal tr = 0%nat.
Proof.
  destruct c as [[api conn lerr] acq cfg w t sp st live nid].
  destruct acq; [destruct w|]; do 2 eexists; split; reflexivity.
Qed.

(** [_finalize] on a manager at rest: it emits [sequence_finished] if
    the manager was running, and nothing otherwise. *)
Lemma finalize_spends (dev : MiniXApi.device) :
  spends is_terminal at_rest budget (_finalize dev).
Proof.
  intros s Hs. destruct s as [mx dp run err cur tot du co fo pa].
  unfold at_rest in Hs. cbn [_error_reason] in Hs.
  apply negb_true_iff in Hs.
  remember (_finalize dev (mk mx dp run err cur tot du co fo pa))
    as x eqn:Hx.
  unfold _finalize, minix_call, method_call in Hx. seq_go_at Hx.
  rewrite Hs in Hx. seq_go_at Hx.
  destruct run; seq_go_at Hx;
    [|subst x; split;
      [unfold at_rest; cbn [state_of fst snd _error_reason];
       rewrite Hs; reflexivity
      | apply Nat.le_refl]].
  destruct co; seq_go_at Hx;
    [destruct mx as [m|]; seq_go_at Hx|];
    try (destruct (SeqFacts.set_hv_off_outcome dev m)
           as (m' & troff & Hoff & _ & _ & _ & _ & H1 & H2 & _);
         rewrite Hoff in Hx; rewrite SeqFacts.deliver_no_slot in Hx;
         seq_go_at Hx);
    subst x; (split; [reflexivity|]);
    cbn [trace_of state_of fst snd];
    repeat (rewrite count_cons || rewrite count_app || rewrite count_nil);
    cbn [is_terminal is_sequence_finished is_sequence_aborted orb budget
         _running];
    try rewrite (@terminal_free _ H1 H2);
    lia.
Qed.

(** [_finalize] while an abort reason is set: the manager is left not
    running and at rest, and no terminal signal is emitted. *)
Lemma finalize_aborting (dev : MiniXApi.device) (s : state) :
  str_truthy (_error_reason s) = true ->
  exists s' tr,
    _finalize dev s = (Ok tt, s', tr)
    /\ at_rest s' = true
    /\ _running s' = false
    /\ count is_terminal tr = 0%nat.
Proof.
  intros Hs. destruct s as [mx dp run err cur tot du co fo pa].
  cbn [_error_reason] in Hs.
  remember (_finalize dev (mk mx dp run err cur tot du co fo pa))
    as x eqn:Hx.
  unfold _finalize, minix_call, method_call in Hx. seq_go_at Hx.
  rewrite Hs in Hx. rewrite ?andb_false_r in Hx. seq_go_at Hx.
  destruct co, run; seq_go_at Hx;
    try (destruct mx as [m|]; seq_go_at Hx);
    try (destruct (SeqFacts.set_hv_off_outcome dev m)
           as (m' & troff & Hoff & _ & _ & _ & _ & H1 & H2 & _);
         rewrite Hoff in Hx; rewrite SeqFacts.deliver_no_slot in Hx;
         seq_go_at Hx);
    subst x; do 2 eexists; (split; [reflexivity|]);
    (split; [reflexivity|]); (split; [reflexivity|]);
    repeat (rewrite count_cons || rewrite count_app || rewrite count_nil);
    cbn [is_terminal is_sequence_finished is_sequence_aborted orb];
    try rewrite (@terminal_free _ H1 H2);
    try reflexivity.
Qed.

(** [_abort_sequence] with a reason that is not empty: on a running
    manager it emits [sequence_aborted] once and leaves the manager not
    running; on a manager that is not running it does nothing. *)
Lemma abort_spends (slot : bool -> M state unit) (dev : MiniXApi.device)
  (reason : string) :
  (forall v s, str_truthy (_error_reason s) = true ->
               slot v s = (Ok tt, s, [])) ->
  str_truthy reason = true ->
  spends is_terminal at_rest budget (_abort_sequence_with slot dev reason).
Proof.
  intros Hmute Hreason s Hs. destruct s as [mx dp run err cur tot du co fo pa].
  remember (_abort_sequence_with slot dev reason
              (mk mx dp run err cur tot du co fo pa)) as x eqn:Hx.
  unfold _abort_sequence_with, method_call in Hx. seq_go_at Hx.
  destruct run; seq_go_at Hx;
    [|subst x; split; [exact Hs | apply Nat.le_refl]].
  destruct dp as [c|]; seq_go_at Hx;
    [destruct (DP5Controller.is_acquiring c); seq_go_at Hx;
     [destruct (dp5_stop_returns c) as (c' & trs & Hstop & Hts);
      rewrite Hstop in Hx; seq_go_at Hx;
      rewrite (@deliver_mute slot Hmute) in Hx by exact Hreason;
      seq_go_at Hx|]|];
    match type of Hx with
    | context [_finalize dev ?S1] =>
        destruct (@finalize_aborting dev S1 Hreason)
          as (s' & trf & Hf & Hrest & Hrun' & Htf);
        rewrite Hf in Hx
    end;
    seq_go_at Hx; subst x; cbn [state_of trace_of fst snd];
    (split; [exact Hrest|]);
    repeat (rewrite count_cons || rewrite count_app || rewrite count_nil);
    cbn [is_terminal is_sequence_finished is_sequence_aborted orb];
    unfold budget; rewrite Hrun', Htf; try rewrite Hts;
    cbn [_running]; lia.
Qed.

Ltac slot_spends_step :=
  match goal with
  | |- spends _ _ _ (_abort_sequence_with no_slot _ _) =>
      apply abort_spends; [intros; reflexivity | reflexivity]
  | |- spends _ _ _ (method_call _ _ _ _) =>
      apply spends_method_call;
      [ solve [dp5_silent] || solve [minix_silent]
      | intros; reflexivity | intros; reflexivity
      | intro; apply spends_ret ]
  | _ => spends_step; cbv beta
  end.

(** The slot behind [acquisition_state_changed]. *)
Lemma slot_spends env (v : bool) :
  spends is_terminal at_rest budget (_handle_dp5_acq_state_change env v).
Proof.
  unfold _handle_dp5_acq_state_change, _handle_dp5_acq_state_change_with,
    _wait_with_events, minix_call.
  repeat slot_spends_step.
Qed.

Ltac seq_spends_step :=
  match goal with
  | |- spends _ _ _ (_finalize _) => apply finalize_spends
  | |- spends _ _ _ (_abort_sequence_with _ _ _) =>
      apply abort_spends;
      [ intros; first [apply slot_mute; assumption | reflexivity]
      | first [assumption | reflexivity] ]
  | |- spends _ _ _ (method_call _ _ no_slot _) =>
      apply spends_method_call;
      [ solve [dp5_silent] || solve [minix_silent]
      | intros; reflexivity | intros; reflexivity
      | intro; apply spends_ret ]
  | |- spends _ _ _ (method_call _ _ (_handle_dp5_acq_state_change _) _) =>
      apply spends_method_call;
      [ solve [dp5_silent]
      | intros; reflexivity | intros; reflexivity
      | intro; apply slot_spends ]
  | _ => spends_step; cbv beta
  end.

Lemma stop_spends env (reason : string) :
  str_truthy reason = true ->
  spends is_terminal at_rest budget (stop_sequence env reason).
Proof.
  intros H. unfold stop_sequence, _abort_sequence.
  repeat seq_spends_step.
Qed.

Lemma hv_request_spends env (slot : hv_slot) :
  named_slot slot = true ->
  spends is_terminal at_rest budget (emit_request_safe_hv_on env slot).
Proof.
  intros H. unfold emit_request_safe_hv_on, minix_call.
  destruct slot as [|d|reason]; cbn [named_slot] in H; cbv beta iota.
  - repeat seq_spends_step.
  - repeat seq_spends_step.
  - apply spends_bind; [apply spends_emit; reflexivity|].
    intro. apply stop_spends. exact H.
Qed.

Lemma run_next_step_spends (env : step_env) :
  named_slot (hv_request env) = true ->
  spends is_terminal at_rest budget (_run_next_step env).
Proof.
  intros H. unfold _run_next_step, _abort_sequence, _wait_with_events.
  repeat match goal with
         | |- spends _ _ _ (emit_request_safe_hv_on _ _) =>
             apply hv_request_spends; exact H
         | _ => seq_spends_step
         end.
Qed.

Lemma worker_signal_spends env (e : event) :
  spends is_terminal at_rest budget (worker_signal env e).
Proof.
  unfold worker_signal. cbv zeta.
  destruct e; repeat seq_spends_step.
Qed.

Lemma react_spends (x : stimulus) :
  is_start x = false -> named x = true ->
  spends is_terminal at_rest budget (react x).
Proof.
  intros Hx Hn. destruct x as [env N dur cont folder|env|env e|t|env reason];
    cbn [is_start named react] in *.
  - discriminate Hx.
  - apply run_next_step_spends. exact Hn.
  - apply worker_signal_spends.
  - repeat seq_spends_step.
  - apply stop_spends. exact Hn.
Qed.

Lemma reacts_spends (xs : list stimulus) :
  forallb (fun x => negb (is_start x) && named x) xs = true ->
  spends is_terminal at_rest budget (reacts xs).
Proof.
  induction xs as [|x xs IH]; intros H; cbn [reacts].
  - apply spends_ret.
  - cbn [forallb] in H. apply andb_true_iff in H. destruct H as [H1 H2].
    apply andb_true_iff in H1. destruct H1 as [H0 H1].
    apply negb_true_iff in H0.
    apply spends_bind; [apply react_spends; assumption|].
    intro. apply IH. exact H2.
Qed.

(** A valid start leaves the manager at rest with one terminal signal
    still to come, or already emitted. *)
Lemma start_settles (env : step_env) (N dur : Z) (cont : bool)
  (folder : string) (s : state) :
  _running s = false ->
  validate N dur folder env s = None ->
  named_slot (hv_request env) = true ->
  at_rest (state_of (start_sequence env N dur cont folder s)) = true
  /\ (count is_terminal (trace_of (start_sequence env N dur cont folder s))
      + budget (state_of (start_sequence env N dur cont folder s)) <= 1)%nat.
Proof.
  intros Hrun Hval Hn. destruct s as [mx dp run err cur tot du co fo pa].
  cbn [_running] in Hrun. subst run.
  remember (start_sequence env N dur cont folder
              (mk mx dp false err cur tot du co fo pa)) as x eqn:Hx.
  unfold start_sequence, _wait_with_events in Hx.
  unfold bind at 1 in Hx. unfold get at 1 in Hx. cbv beta iota in Hx.
  cbn [_running] in Hx. rewrite Hval in Hx. seq_go_at Hx.
  destruct cont; seq_go_at Hx.
  - match type of Hx with
    | context [emit_request_safe_hv_on ?e ?sl ?S1] =>
        destruct (@hv_request_spends e sl Hn S1 eq_refl) as [Hi Hb];
        destruct (emit_request_safe_hv_on e sl S1) as [[[[]|ex] s2] t2]
    end;
    seq_go_at Hx; subst x; cbn [state_of trace_of fst snd budget _running] in *;
    (split; [exact Hi|]);
    repeat (rewrite count_cons || rewrite count_app || rewrite count_nil);
    cbn [is_terminal is_sequence_finished is_sequence_aborted orb]; lia.
  - subst x. split; [reflexivity|]. cbn. lia.
Qed.

(** X23. One terminal signal per run. A run that [start_sequence]
    starts with valid parameters on a manager that is not running, and
    that is followed by any timers, worker signals, thread ends and stop
    requests (no new start; the reasons given with a stop request or by
    a refusing HV slot are not empty), emits [sequence_finished] or
    [sequence_aborted] at most once in all, so never both; and as long
    as the manager is still running it has emitted neither. *)
Theorem X23_one_terminal_signal_per_run (s0 : state) (start : step_env)
  (N dur : Z) (cont : bool) (folder : string) (xs : list stimulus) :
  is_running s0 = false ->
  validate N dur folder start s0 = None ->
  named_slot (hv_request start) = true ->
  forallb (fun x => negb (is_start x) && named x) xs = true ->
  (count is_terminal
     (trace_of (reacts (Start start N dur cont folder :: xs) s0)) <= 1)%nat
  /\ (is_running
        (state_of (reacts (Start start N dur cont folder :: xs) s0)) = true ->
      count is_terminal
        (trace_of (reacts (Start start N dur cont folder :: xs) s0)) = 0%nat).
Proof.
  intros Hrun Hval Hn Hxs.
  destruct (@start_settles start N dur cont folder s0 Hrun Hval Hn)
    as [Hi Hb].
  assert (H1 : at_rest (state_of (react (Start start N dur cont folder) s0))
               = true
               /\ (count is_terminal
                     (trace_of (react (Start start N dur cont folder) s0))
                   + budget
                       (state_of (react (Start start N dur cont folder) s0))
                   <= 1)%nat).
  { cbn [react].
    apply (@spends_from _ is_terminal at_rest budget _ _
             (start_sequence start N dur cont folder) (fun _ => ret tt)
             s0 1%nat Hi Hb).
    intro. apply spends_ret. }
  destruct H1 as [Hi1 Hb1].
  destruct (@spends_from _ is_terminal at_rest budget _ _
              (react (Start start N dur cont folder)) (fun _ => reacts xs)
              s0 1%nat Hi1 Hb1 (fun _ => @reacts_spends xs Hxs))
    as [_ Hb2].
  change (bind (react (Start start N dur cont folder)) (fun _ => reacts xs))
    with (reacts (Start start N dur cont folder :: xs)) in Hb2.
  split; [lia|].
  intros Hr. unfold budget, is_running in *. rewrite Hr in Hb2. lia.
Qed.

Lemma X23_witness :
  (count is_terminal
     (trace_of
        (reacts
           (Start (Scenario.seq_step Scenario.source_ready) 3 10 false
              "C:\data"
            :: [Timer (Scenario.seq_step Scenario.source_ready);
                Stop (Scenario.seq_save Scenario.source_ready)
                  "Stopped by user from UI";
                Timer (Scenario.seq_step_again Scenario.source_ready);
                Stop (Scenario.seq_save Scenario.source_ready)
                  "Stopped by user from UI"])
           Scenario.seq_idle)) <= 1)%nat.
Proof.
  exact (proj1 (@X23_one_terminal_signal_per_run Scenario.seq_idle
           (Scenario.seq_step Scenario.source_ready) 3 10 false "C:\data"
           [Timer (Scenario.seq_step Scenario.source_ready);
            Stop (Scenario.seq_save Scenario.source_ready)
              "Stopped by user from UI";
            Timer (Scenario.seq_step_again Scenario.source_ready);
            Stop (Scenario.seq_save Scenario.source_ready)
              "Stopped by user from UI"]
           eq_refl eq_refl eq_refl eq_refl)).
Defined.

End SeqTerminal.
